(** * MulingNet-AI dashboard: a shallow embedding of the React components

    The repository's dashboard consumes the analysis result delivered by
    [/api/analyze] and renders it.  Each component is embedded as a pure
    function from its props (JSON values) to the data it renders; event
    handlers are state transitions.  The scoring core itself (graph, ML and
    partition agents, aggregator, simulator) is a Python service whose
    sources are not part of the frontend tree; where a statement needs it,
    it is modelled from the specification in [Module Core]. *)

From Stdlib Require Import List String Ascii Bool Arith ZArith QArith Lia Lqa.
From Stdlib Require Import Numbers.DecimalString.
From Stdlib Require Import Qround Sorted Permutation.
Import ListNotations.
Close Scope Q_scope.
Open Scope string_scope.
Set Warnings "-register-all".

(* ====================================================================== *)
(** ** JavaScript values *)
(* ====================================================================== *)

Module Js.

(** The outcome of evaluating an expression that may raise a [TypeError]
    (property access on [undefined]/[null], calling a non-function). *)
Inductive result (A : Type) : Type :=
| Ok (a : A)
| Throw.
Arguments Ok {A} a.
Arguments Throw {A}.

Definition bind {A B} (r : result A) (k : A -> result B) : result B :=
  match r with
  | Ok a => k a
  | Throw => Throw
  end.

Notation "x <- e ;; k" := (bind e (fun x => k))
  (at level 61, e at next level, right associativity).

Fixpoint mapM {A B} (f : A -> result B) (l : list A) : result (list B) :=
  match l with
  | [] => Ok []
  | a :: l' => b <- f a ;; bs <- mapM f l' ;; Ok (b :: bs)
  end.

(** Values as they come out of [resp.json()], plus [undefined] for a
    property that is not there.  Numbers are finite (JSON has no NaN), and
    an object keeps its properties in insertion order. *)
Inductive JsVal : Type :=
| JUndefined
| JNull
| JBool (b : bool)
| JNum (q : Q)
| JStr (s : string)
| JArr (l : list JsVal)
| JObj (fields : list (string * JsVal)).

(** ToBoolean. *)
Definition truthy (v : JsVal) : bool :=
  match v with
  | JUndefined | JNull => false
  | JBool b => b
  | JNum q => negb (Qeq_bool q 0%Q)
  | JStr s => negb (s =? "")
  | JArr _ | JObj _ => true
  end.

Definition nullish (v : JsVal) : bool :=
  match v with
  | JUndefined | JNull => true
  | _ => false
  end.

(** [a || b] *)
Definition or_else (a b : JsVal) : JsVal := if truthy a then a else b.

(** [a ?? b] *)
Definition coalesce (a b : JsVal) : JsVal := if nullish a then b else a.

Fixpoint lookup (k : string) (fields : list (string * JsVal)) : option JsVal :=
  match fields with
  | [] => None
  | (k', v) :: rest => if k =? k' then Some v else lookup k rest
  end.

(** [v.k] for the property names the components read (none of them is
    defined on a built-in prototype): an object yields the property or
    [undefined], [undefined] and [null] raise, every other value yields
    [undefined]. *)
Definition get (v : JsVal) (k : string) : result JsVal :=
  match v with
  | JObj fields => Ok (match lookup k fields with Some x => x | None => JUndefined end)
  | JUndefined | JNull => Throw
  | _ => Ok JUndefined
  end.

(** [v?.k] *)
Definition get_opt (v : JsVal) (k : string) : result JsVal :=
  if nullish v then Ok JUndefined else get v k.

(** [v.map(f)]: only an array has [map]. *)
Definition map_arr {B} (v : JsVal) (f : JsVal -> result B) : result (list B) :=
  match v with
  | JArr l => mapM f l
  | JUndefined | JNull => Throw
  | _ => Throw
  end.


Definition has_field (k : string) (v : JsVal) : bool :=
  match v with
  | JObj fields => match lookup k fields with Some _ => true | None => false end
  | _ => false
  end.

Definition keys (v : JsVal) : list string :=
  match v with
  | JObj fields => map fst fields
  | _ => []
  end.

(** Whether [v.length] is truthy for a [v] that is no array: a non-empty
    string, or an object with a truthy [length] property.  Such a value
    passes a [!v?.length] guard and then has no [filter], [map] or
    [forEach] to call. *)
Definition has_length (v : JsVal) : bool :=
  match v with
  | JStr s => negb (s =? "")
  | JObj fields =>
      match lookup "length" fields with
      | Some x => truthy x
      | None => false
      end
  | _ => false
  end.

(** Whether React accepts [v] as a child: a plain object is refused
    ("Objects are not valid as a React child"), an array is rendered
    element by element. *)
Fixpoint renderable (v : JsVal) : bool :=
  match v with
  | JObj _ => false
  | JArr l =>
      (fix all (l : list JsVal) : bool :=
         match l with
         | [] => true
         | x :: l' => renderable x && all l'
         end) l
  | _ => true
  end.

(** [{v}] as a JSX child. *)
Definition child (v : JsVal) : result JsVal :=
  if renderable v then Ok v else Throw.

Fixpoint mapiM_from {A B} (i : nat) (f : A -> nat -> result B) (l : list A)
  : result (list B) :=
  match l with
  | [] => Ok []
  | a :: l' => b <- f a i ;; bs <- mapiM_from (S i) f l' ;; Ok (b :: bs)
  end.

(** [v.map((x, i) => f x i)] *)
Definition mapi_arr {B} (v : JsVal) (f : JsVal -> nat -> result B) : result (list B) :=
  match v with
  | JArr l => mapiM_from 0 f l
  | _ => Throw
  end.

(** *** [v > 0]

    The comparison converts its left operand to a number.  A string is
    read as a numeric literal (what follows is [StringToNumber], with the
    value rounded to a double only as far as its sign needs); an array
    goes through its [join]; a plain object becomes the text
    [[object Object]], which is no number. *)

Module StrNum.

Definition code (c : ascii) : nat := nat_of_ascii c.

(** StrWhiteSpaceChar below 256: tab, LF, VT, FF, CR, space, NBSP. *)
Definition is_ws (c : ascii) : bool :=
  (((9 <=? code c) && (code c <=? 13)) || (code c =? 32) || (code c =? 160))%nat.

Definition is_digit (c : ascii) : bool := ((48 <=? code c) && (code c <=? 57))%nat.

(** The value of a hexadecimal digit, if it is one. *)
Definition hex_value (c : ascii) : option nat :=
  let n := code c in
  if ((48 <=? n) && (n <=? 57))%nat then Some (n - 48)%nat
  else if ((65 <=? n) && (n <=? 70))%nat then Some (n - 55)%nat
  else if ((97 <=? n) && (n <=? 102))%nat then Some (n - 87)%nat
  else None.

Fixpoint span (p : ascii -> bool) (s : string) : string * string :=
  match s with
  | EmptyString => (EmptyString, EmptyString)
  | String c r =>
      if p c then let (a, b) := span p r in (String c a, b)
      else (EmptyString, s)
  end.

Fixpoint drop_ws (s : string) : string :=
  match s with
  | String c r => if is_ws c then drop_ws r else s
  | EmptyString => EmptyString
  end.

Fixpoint all_ws (s : string) : bool :=
  match s with
  | String c r => is_ws c && all_ws r
  | EmptyString => true
  end.

Fixpoint drop_ws_end (s : string) : string :=
  match s with
  | String c r => if all_ws s then EmptyString else String c (drop_ws_end r)
  | EmptyString => EmptyString
  end.

Definition trim (s : string) : string := drop_ws_end (drop_ws s).

(** The number a string of decimal digits stands for. *)
Fixpoint decimal_from (acc : Z) (s : string) : Z :=
  match s with
  | String c r => decimal_from (10 * acc + Z.of_nat (code c - 48)) r
  | EmptyString => acc
  end.

Definition decimal (s : string) : Z := decimal_from 0 s.

(** Whether the mathematical value [m * 10^e] becomes a double above
    zero: rounding to nearest, ties to even, gives zero up to and
    including half the smallest double, 2^-1075. *)
Definition rounds_above_zero (m e : Z) : bool :=
  (0 <? m)%Z
  && ((0 <=? e)%Z || (10 ^ (- e) <? m * 2 ^ 1075)%Z).

(** ExponentPart_opt at the end of a literal: the exponent, if the rest
    is one. *)
Definition exponent (r : string) : option Z :=
  match r with
  | EmptyString => Some 0%Z
  | String c r1 =>
      if (Ascii.eqb c "e" || Ascii.eqb c "E")%char then
        let '(neg, r2) :=
          match r1 with
          | String s r2 =>
              if Ascii.eqb s "-" then (true, r2)
              else if Ascii.eqb s "+" then (false, r2)
              else (false, r1)
          | EmptyString => (false, r1)
          end in
        match span is_digit r2 with
        | (EmptyString, _) => None
        | (ds, EmptyString) => Some (if neg then (- decimal ds)%Z else decimal ds)
        | _ => None
        end
      else None
  end.

(** StrUnsignedDecimalLiteral: whether it is one and its value is a
    double above zero. *)
Definition unsigned_above_zero (t : string) : bool :=
  if t =? "Infinity" then true
  else
    let (d1, r1) := span is_digit t in
    let '(d2, r2, dot) :=
      match r1 with
      | String c r =>
          if Ascii.eqb c "." then let (d2, r2) := span is_digit r in (d2, r2, true)
          else (EmptyString, r1, false)
      | EmptyString => (EmptyString, r1, false)
      end in
    if (d1 =? "") && (d2 =? "") then false
    else
      match exponent r2 with
      | Some e =>
          rounds_above_zero (decimal (d1 ++ d2)) (e - Z.of_nat (String.length d2))
      | None => false
      end.

(** The digits of a literal with a radix prefix: whether there is at
    least one, all below the radix, and one that is no zero. *)
Fixpoint radix_digits (radix : nat) (s : string) : option bool :=
  match s with
  | EmptyString => Some false
  | String c r =>
      match hex_value c with
      | Some v =>
          if (v <? radix)%nat then
            match radix_digits radix r with
            | Some nz => Some (nz || negb (v =? 0)%nat)
            | None => None
            end
          else None
      | None => None
      end
  end.

Definition radix_above_zero (radix : nat) (digits : string) : bool :=
  match digits with
  | EmptyString => false
  | _ => match radix_digits radix digits with
         | Some nz => nz
         | None => false
         end
  end.

(** [Number(s) > 0] *)
Definition above_zero (s : string) : bool :=
  match trim s with
  | String a (String b r) =>
      if Ascii.eqb a "0" && (Ascii.eqb b "x" || Ascii.eqb b "X") then radix_above_zero 16 r
      else if Ascii.eqb a "0" && (Ascii.eqb b "o" || Ascii.eqb b "O") then radix_above_zero 8 r
      else if Ascii.eqb a "0" && (Ascii.eqb b "b" || Ascii.eqb b "B") then radix_above_zero 2 r
      else if Ascii.eqb a "+" then unsigned_above_zero (String b r)
      else if Ascii.eqb a "-" then false
      else unsigned_above_zero (String a (String b r))
  | t => unsigned_above_zero t
  end.

End StrNum.

(** Whether [String(v)] raises: converting a plain object to a primitive
    calls its [toString], and an own property of that name, which in a
    parsed JSON value is never a function, leaves nothing to call. *)
Fixpoint unprintable (v : JsVal) : bool :=
  match v with
  | JObj fields =>
      match lookup "toString" fields with
      | Some _ => true
      | None => false
      end
  | JArr l =>
      (fix any (l : list JsVal) : bool :=
         match l with
         | [] => false
         | x :: l' => unprintable x || any l'
         end) l
  | _ => false
  end.

(** [v > 0].  [undefined] is no number and [null] is zero; [true] is one;
    a string counts by the number it spells; an empty array is the empty
    text, which is zero; an array of one element is the text of that
    element; an array of more elements has a comma in its text and is no
    number; a plain object is no number, and raises when it cannot be
    converted to a text at all. *)
Fixpoint positive (v : JsVal) : result bool :=
  match v with
  | JUndefined | JNull => Ok false
  | JBool b => Ok b
  | JNum q => Ok (negb (Qle_bool q 0%Q))
  | JStr s => Ok (StrNum.above_zero s)
  | JObj _ => if unprintable v then Throw else Ok false
  | JArr l =>
      match l with
      | [] => Ok false
      | [x] =>
          match x with
          | JBool _ => Ok false
          | _ => positive x
          end
      | _ => if unprintable v then Throw else Ok false
      end
  end.

End Js.
Import Js.

(* ====================================================================== *)
(** ** JsonOutputPanel.jsx: [SyntaxJson] *)
(* ====================================================================== *)

Module SyntaxJson.

(** Strings are sequences of code units below 256. *)
Definition code (c : ascii) : nat := nat_of_ascii c.

Definition is_digit (c : ascii) : bool :=
  ((48 <=? code c) && (code c <=? 57))%nat.

(** [\w] *)
Definition is_word (c : ascii) : bool :=
  is_digit c
  || ((65 <=? code c) && (code c <=? 90))%nat
  || ((97 <=? code c) && (code c <=? 122))%nat
  || (code c =? 95)%nat.

(** [\s]: tab, LF, VT, FF, CR, space, NBSP. *)
Definition is_space (c : ascii) : bool :=
  (((9 <=? code c) && (code c <=? 13)) || (code c =? 32) || (code c =? 160))%nat.

(** [.] matches everything but a line terminator. *)
Definition is_line_terminator (c : ascii) : bool :=
  ((code c =? 10) || (code c =? 13))%nat.

Definition quote : ascii := ascii_of_nat 34.
Definition backslash : ascii := ascii_of_nat 92.

Definition is_word_opt (c : option ascii) : bool :=
  match c with
  | Some c => is_word c
  | None => false
  end.

Definition head (s : string) : option ascii :=
  match s with
  | EmptyString => None
  | String c _ => Some c
  end.

Fixpoint last_char (prev : option ascii) (s : string) : option ascii :=
  match s with
  | EmptyString => prev
  | String c r => last_char (Some c) r
  end.

Fixpoint take_while (p : ascii -> bool) (s : string) : string * string :=
  match s with
  | EmptyString => (EmptyString, EmptyString)
  | String c r =>
      if p c then let (a, b) := take_while p r in (String c a, b)
      else (EmptyString, s)
  end.

Fixpoint strip_prefix (p s : string) : option string :=
  match p with
  | EmptyString => Some s
  | String a p' =>
      match s with
      | EmptyString => None
      | String b s' => if Ascii.eqb a b then strip_prefix p' s' else None
      end
  end.

(** The rest of the first capture group, read after the opening quote:
    the starred group (a backslash and any code unit that is no line
    terminator, or one code unit that is neither quote nor backslash) and
    the closing quote.  The two branches of the group start with different
    code units and neither starts with a quote, so the greedy scan is the
    only way the pattern can match. *)
Fixpoint string_body (s : string) : option (string * string) :=
  match s with
  | EmptyString => None
  | String c r =>
      if Ascii.eqb c quote then Some (String c EmptyString, r)
      else if Ascii.eqb c backslash then
        match r with
        | EmptyString => None
        | String d r' =>
            if is_line_terminator d then None
            else match string_body r' with
                 | Some (b, rest) => Some (String c (String d b), rest)
                 | None => None
                 end
        end
      else match string_body r with
           | Some (b, rest) => Some (String c b, rest)
           | None => None
           end
  end.

(** The capture groups of one match: [m0] is the whole match. *)
Record rmatch : Type := {
  m0 : string;
  m1 : option string;
  m2 : option string;
  m3 : option string;
  m4 : option string;
  m5 : option string;
  m6 : option string
}.

(** First alternative: the quoted string (group 1), then [\s*(:)?] with
    the colon as group 2. *)
Definition alt_string (s : string) : option (rmatch * string) :=
  match s with
  | String c r =>
      if Ascii.eqb c quote then
        match string_body r with
        | Some (b, r1) =>
            let str := String c b in
            let (sp, r2) := take_while is_space r1 in
            match r2 with
            | String ":" r3 =>
                Some ({| m0 := str ++ sp ++ ":"; m1 := Some str; m2 := Some ":";
                         m3 := None; m4 := None; m5 := None; m6 := None |}, r3)
            | _ =>
                Some ({| m0 := str ++ sp; m1 := Some str; m2 := None;
                         m3 := None; m4 := None; m5 := None; m6 := None |}, r2)
            end
        | None => None
        end
      else None
  | EmptyString => None
  end.

(** [(?:\.\d+)?] *)
Definition opt_fraction (s : string) : string * string :=
  match s with
  | String "." r =>
      let (d, r') := take_while is_digit r in
      match d with
      | EmptyString => (EmptyString, s)
      | _ => (String "." d, r')
      end
  | _ => (EmptyString, s)
  end.

(** [(?:[eE][+-]?\d+)?] *)
Definition opt_exponent (s : string) : string * string :=
  match s with
  | String e r =>
      if Ascii.eqb e "e" || Ascii.eqb e "E" then
        let (sg, r1) :=
          match r with
          | String c r' =>
              if Ascii.eqb c "+" || Ascii.eqb c "-" then (String c EmptyString, r')
              else (EmptyString, r)
          | EmptyString => (EmptyString, r)
          end in
        let (d, r2) := take_while is_digit r1 in
        match d with
        | EmptyString => (EmptyString, s)
        | _ => (String e (sg ++ d), r2)
        end
      else (EmptyString, s)
  | EmptyString => (EmptyString, s)
  end.

(** [(-?\d+(?:\.\d+)?(?:[eE][+-]?\d+)?)] *)
Definition alt_number (s : string) : option (rmatch * string) :=
  let (sign, r0) :=
    match s with
    | String "-" r => ("-", r)
    | _ => (EmptyString, s)
    end in
  let (int, r1) := take_while is_digit r0 in
  match int with
  | EmptyString => None
  | _ =>
      let (frac, r2) := opt_fraction r1 in
      let (ex, r3) := opt_exponent r2 in
      let txt := sign ++ int ++ frac ++ ex in
      Some ({| m0 := txt; m1 := None; m2 := None; m3 := Some txt;
               m4 := None; m5 := None; m6 := None |}, r3)
  end.

(** [\bw\b] for a literal word [w] made of word characters. *)
Definition word_at (w : string) (prev : option ascii) (s : string) : option string :=
  if is_word_opt prev then None
  else match strip_prefix w s with
       | Some rest => if is_word_opt (head rest) then None else Some rest
       | None => None
       end.

(** [(\btrue\b|\bfalse\b)] *)
Definition alt_bool (prev : option ascii) (s : string) : option (rmatch * string) :=
  match word_at "true" prev s with
  | Some rest =>
      Some ({| m0 := "true"; m1 := None; m2 := None; m3 := None;
               m4 := Some "true"; m5 := None; m6 := None |}, rest)
  | None =>
      match word_at "false" prev s with
      | Some rest =>
          Some ({| m0 := "false"; m1 := None; m2 := None; m3 := None;
                   m4 := Some "false"; m5 := None; m6 := None |}, rest)
      | None => None
      end
  end.

(** [(\bnull\b)] *)
Definition alt_null (prev : option ascii) (s : string) : option (rmatch * string) :=
  match word_at "null" prev s with
  | Some rest =>
      Some ({| m0 := "null"; m1 := None; m2 := None; m3 := None;
               m4 := None; m5 := Some "null"; m6 := None |}, rest)
  | None => None
  end.

Definition is_structural (c : ascii) : bool :=
  Ascii.eqb c "{" || Ascii.eqb c "}" || Ascii.eqb c "[" || Ascii.eqb c "]"
  || Ascii.eqb c ",".

(** [([{}\[\],])] *)
Definition alt_punct (s : string) : option (rmatch * string) :=
  match s with
  | String c r =>
      if is_structural c then
        let txt := String c EmptyString in
        Some ({| m0 := txt; m1 := None; m2 := None; m3 := None;
                 m4 := None; m5 := None; m6 := Some txt |}, r)
      else None
  | EmptyString => None
  end.

Definition first_of {A} (a b : option A) : option A :=
  match a with
  | Some _ => a
  | None => b
  end.

(** The regular expression [rx] tried at one position; [prev] is the code
    unit before the position, for [\b]. *)
Definition match_at (prev : option ascii) (s : string) : option (rmatch * string) :=
  first_of (alt_string s)
    (first_of (alt_number s)
       (first_of (alt_bool prev s)
          (first_of (alt_null prev s) (alt_punct s)))).

(** [rx.exec(json)] from [lastIndex]: the leftmost position at which [rx]
    matches, with the text skipped before it and the text left after the
    match. *)
Fixpoint exec (prev : option ascii) (s : string) : option (string * rmatch * string) :=
  match match_at prev s with
  | Some (m, rest) => Some (EmptyString, m, rest)
  | None =>
      match s with
      | EmptyString => None
      | String c r =>
          match exec (Some c) r with
          | Some (gap, m, rest) => Some (String c gap, m, rest)
          | None => None
          end
      end
  end.

Inductive ttype : Type := ws | key | string_ | number | bool_ | null | punct.

Record token : Type := { type : ttype; text : string }.

Definition tok (t : ttype) (s : string) : token := {| type := t; text := s |}.

(** The [if]/[else if] chain on the capture groups. *)
Definition parts_of (m : rmatch) : list token :=
  match m1 m with
  | Some s1 =>
      match m2 m with
      | Some _ => [tok key s1; tok punct ":"]
      | None => [tok string_ s1]
      end
  | None =>
      match m3 m with
      | Some s3 => [tok number s3]
      | None =>
          match m4 m with
          | Some s4 => [tok bool_ s4]
          | None =>
              match m5 m with
              | Some s5 => [tok null s5]
              | None =>
                  match m6 m with
                  | Some s6 => [tok punct s6]
                  | None => []
                  end
              end
          end
      end
  end.

Definition ws_part (s : string) : list token :=
  match s with
  | EmptyString => []
  | _ => [tok ws s]
  end.

(** The [while] loop: [s] is [json.slice(last)]; every round consumes at
    least one code unit, so [fuel] above the length is never used up. *)
Fixpoint loop (fuel : nat) (prev : option ascii) (s : string) : list token :=
  match fuel with
  | O => []
  | S fuel' =>
      match exec prev s with
      | Some (gap, m, rest) =>
          ws_part gap ++ parts_of m
            ++ loop fuel' (last_char prev (gap ++ m0 m)) rest
      | None => ws_part s
      end
  end.

Definition tokens (json : string) : list token :=
  loop (S (String.length json)) None json.

(** The text the [<code>] element shows: the spans in order. *)
Definition rendered (json : string) : string :=
  String.concat "" (map text (tokens json)).

End SyntaxJson.

(* ====================================================================== *)
(** ** JsonOutputPanel.jsx: [outputJson] *)
(* ====================================================================== *)

Module JsonOutputPanel.

Definition num_of_nat (n : nat) : JsVal := JNum (inject_Z (Z.of_nat n)).

(** [v.length] of the array left after [(x || [])], whose [map] has
    already succeeded when [length] is read. *)
Definition arr_length (v : JsVal) : JsVal :=
  match v with
  | JArr l => num_of_nat (List.length l)
  | JStr s => num_of_nat (String.length s)
  | _ => JUndefined
  end.

(** The arrow function mapped over [results.suspicious_accounts]. *)
Definition account_out (a : JsVal) : result JsVal :=
  account_id <- get a "account_id" ;;
  suspicion_score <- get a "suspicion_score" ;;
  score <- get a "score" ;;
  detected_patterns <- get a "detected_patterns" ;;
  patterns <- get a "patterns" ;;
  ring_id <- get a "ring_id" ;;
  Ok (JObj
        [ ("account_id", account_id);
          ("suspicion_score", coalesce (coalesce suspicion_score score) (JNum 0%Q));
          ("detected_patterns", or_else (or_else detected_patterns patterns) (JArr []));
          ("ring_id", or_else ring_id (JStr "STANDALONE")) ]).

(** The arrow function mapped over [results.fraud_rings]. *)
Definition ring_out (r : JsVal) : result JsVal :=
  ring_id <- get r "ring_id" ;;
  member_accounts <- get r "member_accounts" ;;
  accounts <- get r "accounts" ;;
  pattern_type <- get r "pattern_type" ;;
  type <- get r "type" ;;
  risk_score <- get r "risk_score" ;;
  score <- get r "score" ;;
  Ok (JObj
        [ ("ring_id", ring_id);
          ("member_accounts", or_else (or_else member_accounts accounts) (JArr []));
          ("pattern_type", or_else (or_else pattern_type type) (JStr "unknown"));
          ("risk_score", coalesce (coalesce risk_score score) (JNum 0%Q)) ]).

Definition summary_out (results : JsVal) : result JsVal :=
  summary <- get results "summary" ;;
  suspicious_accounts <- get results "suspicious_accounts" ;;
  fraud_rings <- get results "fraud_rings" ;;
  total <- get_opt summary "total_accounts_analyzed" ;;
  flagged <- get_opt summary "suspicious_accounts_flagged" ;;
  detected <- get_opt summary "fraud_rings_detected" ;;
  seconds <- get_opt summary "processing_time_seconds" ;;
  Ok (JObj
        [ ("total_accounts_analyzed", coalesce total (JNum 0%Q));
          ("suspicious_accounts_flagged",
            coalesce flagged (arr_length (or_else suspicious_accounts (JArr []))));
          ("fraud_rings_detected",
            coalesce detected (arr_length (or_else fraud_rings (JArr []))));
          ("processing_time_seconds", coalesce seconds (JNum 0%Q)) ]).

(** [outputJson]: [null] without results, otherwise the three sections. *)
Definition outputJson (results : JsVal) : result JsVal :=
  if negb (truthy results) then Ok JNull
  else
    suspicious_accounts <- get results "suspicious_accounts" ;;
    accounts <- map_arr (or_else suspicious_accounts (JArr [])) account_out ;;
    fraud_rings <- get results "fraud_rings" ;;
    rings <- map_arr (or_else fraud_rings (JArr [])) ring_out ;;
    summary <- summary_out results ;;
    Ok (JObj
          [ ("suspicious_accounts", JArr accounts);
            ("fraud_rings", JArr rings);
            ("summary", summary) ]).

(** [lineCount], the number of lines the gutter beside the text numbers:
    the length of [rawJson] split at line feeds. *)
Fixpoint lineCount (rawJson : string) : nat :=
  match rawJson with
  | EmptyString => 1
  | String c r =>
      if Ascii.eqb c (ascii_of_nat 10) then S (lineCount r) else lineCount r
  end.

(** The properties of an exported account record, in order. *)
Definition account_fields : list string :=
  ["account_id"; "suspicion_score"; "detected_patterns"; "ring_id"].

(** The elements of an array-valued section of the output. *)
Definition section (name : string) (out : JsVal) : list JsVal :=
  match out with
  | JObj fields =>
      match lookup name fields with
      | Some (JArr l) => l
      | _ => []
      end
  | _ => []
  end.

Definition field (name : string) (v : JsVal) : JsVal :=
  match v with
  | JObj fields => match lookup name fields with Some x => x | None => JUndefined end
  | _ => JUndefined
  end.

End JsonOutputPanel.

(* ====================================================================== *)
(** ** Text helpers shared by the tables *)
(* ====================================================================== *)

Module Text.

Fixpoint is_prefix (p s : string) : bool :=
  match p with
  | EmptyString => true
  | String a p' =>
      match s with
      | EmptyString => false
      | String b s' => Ascii.eqb a b && is_prefix p' s'
      end
  end.

(** [s.includes(p)] *)
Fixpoint includes (p s : string) : bool :=
  is_prefix p s ||
  match s with
  | EmptyString => false
  | String _ s' => includes p s'
  end.

(** The lower case of a code unit below 256: the capitals A to Z and the
    capitals of Latin-1 from 192 to 222, the multiplication sign at 215
    apart, lie 32 below their small letters; no other code unit below 256
    has a lower case of its own. *)
Definition lower_char (c : ascii) : ascii :=
  let n := nat_of_ascii c in
  if ((65 <=? n) && (n <=? 90))%nat then ascii_of_nat (n + 32)
  else if ((192 <=? n) && (n <=? 222) && negb (n =? 215))%nat then ascii_of_nat (n + 32)
  else c.

(** [s.toLowerCase()] *)
Fixpoint toLowerCase (s : string) : string :=
  match s with
  | EmptyString => EmptyString
  | String c r => String (lower_char c) (toLowerCase r)
  end.

(** [s.replace(/_/g, ' ')] *)
Fixpoint underscores_to_spaces (s : string) : string :=
  match s with
  | EmptyString => EmptyString
  | String c r =>
      String (if Ascii.eqb c "_" then " "%char else c) (underscores_to_spaces r)
  end.

(** The decimal text of a count, as a template literal prints it. *)
Definition decimal (n : N) : string := NilEmpty.string_of_uint (N.to_uint n).

End Text.

(* ====================================================================== *)
(** ** AccountsTable.jsx *)
(* ====================================================================== *)

Module AccountsTable.

Inductive band : Type := red | orange | yellow.

(** [ScorePill]: the background class chosen for a numeric score. *)
Definition ScorePill (score : Q) : band :=
  if Qle_bool 70 score then red
  else if Qle_bool 40 score then orange
  else yellow.

(** The dash shown for a missing value (an em dash in the source). *)
Definition dash : JsVal := JStr "-".

Record row : Type := {
  account_id : string;
  suspicion_score : JsVal;
  pattern_chips : list string;
  graph_cell : JsVal;
  ml_cell : JsVal;
  quantum_cell : JsVal;
  ring_cell : JsVal
}.

Inductive view : Type :=
| Empty
| Table (shown total : nat) (rows : list row).

Definition as_string (v : JsVal) : result string :=
  match v with
  | JStr s => Ok s
  | _ => Throw
  end.

(** The filter predicate: [a.account_id.toLowerCase().includes(...)];
    only a string has [toLowerCase]. *)
Definition matches (search : string) (a : JsVal) : result bool :=
  id <- get a "account_id" ;;
  s <- as_string id ;;
  Ok (Text.includes (Text.toLowerCase search) (Text.toLowerCase s)).

Fixpoint filterM (f : JsVal -> result bool) (l : list JsVal) : result (list JsVal) :=
  match l with
  | [] => Ok []
  | a :: l' =>
      b <- f a ;;
      rest <- filterM f l' ;;
      Ok (if b then a :: rest else rest)
  end.

(** One [<tr>]: [cs] is [a.component_scores || {}], and a missing
    sub-score or ring is shown as a dash. *)
Definition render_row (a : JsVal) : result row :=
  id <- get a "account_id" ;;
  id_s <- as_string id ;;
  score <- get a "suspicion_score" ;;
  score_c <- child score ;;
  detected_patterns <- get a "detected_patterns" ;;
  chips <- map_arr (or_else detected_patterns (JArr []))
             (fun p => s <- as_string p ;; Ok (Text.underscores_to_spaces s)) ;;
  component_scores <- get a "component_scores" ;;
  let cs := or_else component_scores (JObj []) in
  graph <- get cs "graph" ;;
  graph_c <- child (coalesce graph dash) ;;
  ml <- get cs "ml" ;;
  ml_c <- child (coalesce ml dash) ;;
  quantum <- get cs "quantum" ;;
  quantum_c <- child (coalesce quantum dash) ;;
  ring_id <- get a "ring_id" ;;
  ring_c <- child (or_else ring_id dash) ;;
  Ok {| account_id := id_s;
        suspicion_score := score_c;
        pattern_chips := chips;
        graph_cell := graph_c;
        ml_cell := ml_c;
        quantum_cell := quantum_c;
        ring_cell := ring_c |}.

(** [AccountsTable({accounts})] with the search box holding [search]. *)
Definition render (search : string) (accounts : JsVal) : result view :=
  match accounts with
  | JArr [] => Ok Empty
  | JArr l =>
      filtered <- filterM (matches search) l ;;
      rows <- mapM render_row filtered ;;
      Ok (Table (List.length filtered) (List.length l) rows)
  | _ => if has_length accounts then Throw else Ok Empty
  end.

End AccountsTable.

(* ====================================================================== *)
(** ** AgentsChart.jsx *)
(* ====================================================================== *)

Module AgentsChart.

Record dataset : Type := { label : string; data : list JsVal }.

Record chart : Type := {
  labels : list JsVal;
  datasets : list dataset;
  y_max : Q
}.

Inductive view : Type :=
| NoData
| Bar (c : chart).

(** [a.component_scores?.k || 0] *)
Definition component (k : string) (a : JsVal) : result JsVal :=
  cs <- get a "component_scores" ;;
  v <- get_opt cs k ;;
  Ok (or_else v (JNum 0%Q)).

Definition render (accounts : JsVal) : result view :=
  match accounts with
  | JArr [] => Ok NoData
  | JArr l =>
      let top := firstn 15 l in
      labels <- mapM (fun a => get a "account_id") top ;;
      g <- mapM (component "graph") top ;;
      m <- mapM (component "ml") top ;;
      q <- mapM (component "quantum") top ;;
      Ok (Bar {| labels := labels;
                 datasets := [ {| label := "Graph"; data := g |};
                               {| label := "ML"; data := m |};
                               {| label := "Quantum"; data := q |} ];
                 y_max := 100%Q |})
  | _ => if has_length accounts then Throw else Ok NoData
  end.

End AgentsChart.

(* ====================================================================== *)
(** ** QuantumPanel.jsx *)
(* ====================================================================== *)

Module QuantumPanel.

Record summary_bar : Type := {
  backend : string;
  algorithm : string;
  circuits_executed : JsVal;
  configuration : string
}.

Inductive view (Card : Type) : Type :=
| Unavailable (message : JsVal)
| Analysis (bar : summary_bar) (cards : list Card) (no_circuits_notice : bool).
Arguments Unavailable {Card} message.
Arguments Analysis {Card} bar cards no_circuits_notice.

Definition default_message : string :=
  "Install qiskit + qiskit-aer for quantum features".

(** The text of the Configuration entry of the summary bar, as the JSX
    spells it. *)
Definition configuration_text : string := "2 layers &middot; 1024 shots".

Section Render.

Context {Card : Type}.

(** The card of one circuit result, with its position. *)
Variable CircuitCard : JsVal -> nat -> result Card.

Definition render (data : JsVal) : result (view Card) :=
  available <- get_opt data "available" ;;
  if negb (truthy available) then
    message <- get_opt data "message" ;;
    shown <- child (or_else message (JStr default_message)) ;;
    Ok (Unavailable shown)
  else
    results_field <- get data "results" ;;
    let results := or_else results_field (JArr []) in
    executed <- get data "circuits_executed" ;;
    executed_c <- child executed ;;
    cards <- mapi_arr results CircuitCard ;;
    Ok (Analysis
          {| backend := "Qiskit Aer Simulator";
             algorithm := "QAOA Max-Cut";
             circuits_executed := executed_c;
             configuration := configuration_text |}
          cards
          (match cards with [] => true | _ => false end)).

End Render.

End QuantumPanel.

(* ====================================================================== *)
(** ** DisruptionPanel.jsx *)
(* ====================================================================== *)

Module DisruptionPanel.

Record centrality_item : Type := { item_account : JsVal; item_score : JsVal }.

Record centrality_card : Type := {
  title : string;
  description : string;
  items : list centrality_item
}.

Record panel (Detail : Type) : Type := {
  kpis : list (string * JsVal);
  cards : list centrality_card;
  articulation : option (JsVal * list JsVal);
  selector : list (JsVal * JsVal);
  detail : option Detail
}.
Arguments kpis {Detail} p.
Arguments cards {Detail} p.
Arguments articulation {Detail} p.
Arguments selector {Detail} p.
Arguments detail {Detail} p.

Inductive view (Detail : Type) : Type :=
| NoData
| Panel (p : panel Detail).
Arguments NoData {Detail}.
Arguments Panel {Detail} p.

(** One row of a [CentralityCard]. *)
Definition centrality_row (item : JsVal) : result centrality_item :=
  account_id <- get item "account_id" ;;
  account_c <- child account_id ;;
  score <- get item "score" ;;
  Ok {| item_account := account_c; item_score := score |}.

(** [(items || []).slice(0, 5).map(...)] *)
Definition first_five (items : JsVal) : result (list centrality_item) :=
  match or_else items (JArr []) with
  | JArr l => mapM centrality_row (firstn 5 l)
  | _ => Throw
  end.

Definition CentralityCard (title description : string) (items : JsVal)
  : result centrality_card :=
  rows <- first_five items ;;
  Ok {| title := title; description := description; items := rows |}.

(** The three cards of the Network Centrality grid. *)
Definition centrality_cards (network_stats : JsVal) : result (list centrality_card) :=
  top_betweenness <- get network_stats "top_betweenness" ;;
  c1 <- CentralityCard "Betweenness Centrality"
          "Nodes that control the most information flow" top_betweenness ;;
  top_degree <- get network_stats "top_degree_centrality" ;;
  c2 <- CentralityCard "Degree Centrality"
          "Most connected nodes in the network" top_degree ;;
  top_closeness <- get network_stats "top_closeness" ;;
  c3 <- CentralityCard "Closeness Centrality"
          "Nodes that can reach all others fastest" top_closeness ;;
  Ok [c1; c2; c3].

Definition articulation_box (network_stats : JsVal)
  : result (option (JsVal * list JsVal)) :=
  count <- get network_stats "articulation_point_count" ;;
  above <- positive count ;;
  if above then
    count_c <- child count ;;
    points <- get network_stats "articulation_points" ;;
    shown <- map_arr points child ;;
    Ok (Some (count_c, shown))
  else Ok None.

Definition global_kpis (global_summary : JsVal) : result (list (string * JsVal)) :=
  rings <- get global_summary "total_rings_analyzed" ;;
  rings_c <- child rings ;;
  nodes <- get global_summary "unique_critical_nodes" ;;
  nodes_c <- child nodes ;;
  avg <- get global_summary "avg_disruption_potential" ;;
  resilience <- get global_summary "network_resilience_score" ;;
  Ok [ ("Rings Analyzed", rings_c); ("Critical Nodes", nodes_c);
       ("Avg Disruption", avg); ("Net Resilience", resilience) ].

Definition selector_button (s : JsVal) : result (JsVal * JsVal) :=
  ring_id <- get s "ring_id" ;;
  ring_c <- child ring_id ;;
  pct <- get s "max_disruption_pct" ;;
  pct_c <- child pct ;;
  Ok (ring_c, pct_c).

Section Render.

Context {Detail : Type}.

(** The detail pane of the selected ring. *)
Variable RingDisruptionDetail : JsVal -> result Detail.

(** The ring selector with the detail of [strategies[selectedRing]]; it is
    rendered when [strategies.length > 0]. *)
Definition ring_part (selectedRing : nat) (strategies : JsVal)
  : result (list (JsVal * JsVal) * option Detail) :=
  match strategies with
  | JArr [] => Ok ([], None)
  | JArr l =>
      buttons <- mapM selector_button l ;;
      let strat := or_else (nth selectedRing l JUndefined) JNull in
      if truthy strat then
        d <- RingDisruptionDetail strat ;;
        Ok (buttons, Some d)
      else Ok (buttons, None)
  | JStr s => if s =? "" then Ok ([], None) else Throw
  | JObj fields =>
      match lookup "length" fields with
      | Some n => above <- positive n ;; if above then Throw else Ok ([], None)
      | None => Ok ([], None)
      end
  | _ => Ok ([], None)
  end.

(** [DisruptionPanel({data})] with ring number [selectedRing] selected. *)
Definition render (selectedRing : nat) (data : JsVal) : result (view Detail) :=
  if negb (truthy data) then Ok NoData
  else
    strategies <- get data "strategies" ;;
    if negb (truthy strategies) then Ok NoData
    else
      network_stats <- get data "network_stats" ;;
      global_summary <- get data "global_summary" ;;
      k <- global_kpis global_summary ;;
      c <- centrality_cards network_stats ;;
      a <- articulation_box network_stats ;;
      r <- ring_part selectedRing strategies ;;
      Ok (Panel {| kpis := k; cards := c; articulation := a;
                   selector := fst r; detail := snd r |}).

End Render.

End DisruptionPanel.

(* ====================================================================== *)
(** ** RingsTable.jsx: [PatternBadge] and [ScorePill] *)
(* ====================================================================== *)

Module RingsTable.

(** The [colors] table of [PatternBadge]. *)
Definition colors : list (string * string) :=
  [ ("cycle", "text-cyan-400 bg-cyan-500/10 border-cyan-500/30");
    ("cyclic_flow", "text-red-400 bg-red-500/10 border-red-500/30");
    ("smurfing_fan_in", "text-orange-400 bg-orange-500/10 border-orange-500/30");
    ("smurfing_fan_out", "text-orange-400 bg-orange-500/10 border-orange-500/30");
    ("shell_network", "text-yellow-400 bg-yellow-500/10 border-yellow-500/30");
    ("shell_chain", "text-yellow-400 bg-yellow-500/10 border-yellow-500/30") ].

Definition neutral : string := "text-gray-400 bg-gray-500/10 border-gray-500/30".

(** The members an object literal inherits from [Object.prototype]. *)
Definition object_prototype : list string :=
  [ "constructor"; "__proto__"; "hasOwnProperty"; "isPrototypeOf";
    "propertyIsEnumerable"; "toLocaleString"; "toString"; "valueOf";
    "__defineGetter__"; "__defineSetter__"; "__lookupGetter__";
    "__lookupSetter__" ].

Fixpoint assoc (k : string) (l : list (string * string)) : option string :=
  match l with
  | [] => None
  | (k', v) :: rest => if k =? k' then Some v else assoc k rest
  end.

Definition mem (k : string) (l : list string) : bool :=
  existsb (fun x => k =? x) l.

(** What [colors[pattern] || neutral] evaluates to. *)
Inductive badge_class : Type :=
| Own (cls : string)
| Neutral
| Inherited (member : string).

Record badge : Type := { cls : badge_class; label : option string }.

(** [PatternBadge({pattern})]; [None] is an [undefined] pattern. *)
Definition PatternBadge (pattern : option string) : badge :=
  match pattern with
  | None => {| cls := Neutral; label := None |}
  | Some p =>
      {| cls := match assoc p colors with
                | Some c => Own c
                | None => if mem p object_prototype then Inherited p else Neutral
                end;
         label := Some (Text.underscores_to_spaces p) |}
  end.

(** The copy of [ScorePill] that colours ring risk and member scores. *)
Definition ScorePill (score : Q) : AccountsTable.band :=
  if Qle_bool 70 score then AccountsTable.red
  else if Qle_bool 40 score then AccountsTable.orange
  else AccountsTable.yellow.

End RingsTable.

(* ====================================================================== *)
(** ** GraphView.jsx: the ring groups of [searchIndex] *)
(* ====================================================================== *)

Module GraphView.

(** A node of [data.nodes]; [ring_id] is [None] for [null] or a missing
    property. *)
Record node : Type := {
  id : string;
  score : Q;
  ring_id : option string;
  suspicious : bool;
  patterns : list string
}.

(** A property of the [rings] object. *)
Record group : Type := { members : list string; scores : list Q }.

(** The guard [n.ring_id && n.ring_id !== 'N/A' && n.ring_id !==
    'STANDALONE']: the key the node is filed under, if any. *)
Definition ring_key (n : node) : option string :=
  match ring_id n with
  | Some r =>
      if (r =? "") || (r =? "N/A") || (r =? "STANDALONE") then None else Some r
  | None => None
  end.

(** [rings[k].members.push(id); rings[k].scores.push(sc)] after the
    property has been created on first use. *)
Fixpoint file_under (k : string) (i : string) (sc : Q) (rings : list (string * group))
  : list (string * group) :=
  match rings with
  | [] => [(k, {| members := [i]; scores := [sc] |})]
  | (k', g) :: rest =>
      if k =? k' then
        (k', {| members := members g ++ [i]; scores := scores g ++ [sc] |}) :: rest
      else (k', g) :: file_under k i sc rest
  end.

(** The second [forEach]: [rings] starts as an object literal, so a key
    that names a member of [Object.prototype] finds that member instead of
    a group and the [push] raises. *)
Fixpoint group_nodes (nodes : list node) (rings : list (string * group))
  : result (list (string * group)) :=
  match nodes with
  | [] => Ok rings
  | n :: rest =>
      match ring_key n with
      | None => group_nodes rest rings
      | Some k =>
          if RingsTable.mem k RingsTable.object_prototype then Throw
          else group_nodes rest (file_under k (id n) (score n) rings)
      end
  end.

Definition rings_of (nodes : list node) : result (list (string * group)) :=
  group_nodes nodes [].

(** [rings[k]?.members ?? []] *)
Fixpoint members_of (k : string) (rings : list (string * group)) : list string :=
  match rings with
  | [] => []
  | (k', g) :: rest => if k =? k' then members g else members_of k rest
  end.

Definition filed_under (k : string) (n : node) : bool :=
  match ring_key n with
  | Some k' => k =? k'
  | None => false
  end.

(** An entry of the search index of type [ring] (the display strings
    [desc], [icon] and [color] are left out). *)
Record ring_item : Type := {
  item_id : string;
  item_label : string;
  item_members : list string
}.

(** The items pushed for [Object.entries(rings)], for ring ids that are not
    array indices (those would be listed first, in numeric order). *)
Definition ring_items (nodes : list node) : result (list ring_item) :=
  rings <- rings_of nodes ;;
  Ok (map (fun e => {| item_id := fst e; item_label := fst e;
                       item_members := members (snd e) |}) rings).

End GraphView.

(* ====================================================================== *)
(** ** WhatIfSimulator.jsx: selection state and [runSimulation] *)
(* ====================================================================== *)

Module WhatIfSimulator.

(** The component state; [selectedNodes] is a [Set], kept in insertion
    order, and [simResult] is [null] while there is no result. *)
Record state : Type := {
  selectedNodes : list string;
  simResult : JsVal;
  loading : bool;
  error : option string
}.

Definition initial : state :=
  {| selectedNodes := []; simResult := JNull; loading := false; error := None |}.

Record request : Type := {
  url : string;
  method : string;
  body : JsVal
}.

(** What [fetch] and the two [json()] calls come to. *)
Inductive response : Type :=
| Success (data : JsVal)
| Refused (detail : option string)
| Failed (message : string).

Definition remove (x : string) (l : list string) : list string :=
  filter (fun y => negb (x =? y)) l.

Definition toggleNode (nodeId : string) (st : state) : state :=
  {| selectedNodes :=
       if RingsTable.mem nodeId (selectedNodes st)
       then remove nodeId (selectedNodes st)
       else selectedNodes st ++ [nodeId];
     simResult := JNull;
     loading := loading st;
     error := error st |}.

Definition clearSelection (st : state) : state :=
  {| selectedNodes := []; simResult := JNull;
     loading := loading st; error := error st |}.

(** The Run Simulation button sits in a block rendered under
    [selectedNodes.size > 0]. *)
Definition run_button_shown (st : state) : bool :=
  match selectedNodes st with
  | [] => false
  | _ => true
  end.

(** The results are rendered under [simResult &&]. *)
Definition results_shown (st : state) : bool := truthy (simResult st).

(** The colour of that bar and of the score beside it. *)
Definition score_bar_band (score : Q) : AccountsTable.band :=
  if Qle_bool 70 score then AccountsTable.red
  else if Qle_bool 40 score then AccountsTable.orange
  else AccountsTable.yellow.

Section Run.

Variable API_BASE : string.

(** The server behind [fetch]. *)
Variable server : request -> response.

Definition whatif_request (nodes : list string) : request :=
  {| url := API_BASE ++ "/api/whatif";
     method := "POST";
     body := JObj [("nodes", JArr (map JStr nodes))] |}.

(** [runSimulation]: the state it leaves and the requests it sent. *)
Definition runSimulation (st : state) : state * list request :=
  match selectedNodes st with
  | [] => (st, [])
  | _ =>
      let req := whatif_request (selectedNodes st) in
      match server req with
      | Success data =>
          ({| selectedNodes := selectedNodes st; simResult := data;
              loading := false; error := None |}, [req])
      | Refused detail =>
          ({| selectedNodes := selectedNodes st; simResult := simResult st;
              loading := false;
              error := Some (match detail with
                             | Some d => if d =? "" then "Simulation failed" else d
                             | None => "Simulation failed"
                             end) |}, [req])
      | Failed message =>
          ({| selectedNodes := selectedNodes st; simResult := simResult st;
              loading := false; error := Some message |}, [req])
      end
  end.

End Run.

End WhatIfSimulator.

(* ====================================================================== *)
(** ** App.jsx: the result area *)
(* ====================================================================== *)

Module App.

Inductive Tab : Type :=
| graph | rings | accounts | quantum | disruption | crimeteam | whatif
| agents | n8n.

Section Render.

Context {Stats Graph Rings Card Detail Crime WhatIf N8n : Type}.

(** The components rendered by [App] that are taken as given. *)
Variable StatsGrid : JsVal -> result Stats.
Variable GraphView : JsVal -> result Graph.
Variable RingsTable : JsVal -> JsVal -> JsVal -> result Rings.
Variable CircuitCard : JsVal -> nat -> result Card.
Variable RingDisruptionDetail : JsVal -> result Detail.
Variable CrimeTeamPanel : JsVal -> result Crime.
Variable WhatIfSimulator : JsVal -> JsVal -> JsVal -> result WhatIf.
Variable N8nPanel : JsVal -> result N8n.

Inductive tab_view : Type :=
| VGraph (v : Graph)
| VRings (v : Rings)
| VAccounts (v : AccountsTable.view)
| VQuantum (v : QuantumPanel.view Card)
| VDisruption (v : DisruptionPanel.view Detail)
| VCrime (v : Crime)
| VWhatIf (v : WhatIf)
| VAgents (v : AgentsChart.view)
| VN8n (v : N8n).

(** The panel of the active tab, as freshly mounted (empty search box,
    first ring selected). *)
Definition tab_content (results : JsVal) (activeTab : Tab) : result tab_view :=
  match activeTab with
  | graph =>
      d <- get results "graph_data" ;; v <- GraphView d ;; Ok (VGraph v)
  | rings =>
      r <- get results "fraud_rings" ;;
      d <- get results "graph_data" ;;
      a <- get results "suspicious_accounts" ;;
      v <- RingsTable r d a ;; Ok (VRings v)
  | accounts =>
      a <- get results "suspicious_accounts" ;;
      v <- AccountsTable.render "" a ;; Ok (VAccounts v)
  | quantum =>
      q <- get results "quantum_analysis" ;;
      v <- QuantumPanel.render CircuitCard q ;; Ok (VQuantum v)
  | disruption =>
      d <- get results "disruption" ;;
      v <- DisruptionPanel.render RingDisruptionDetail 0 d ;; Ok (VDisruption v)
  | crimeteam =>
      c <- get results "crime_team" ;; v <- CrimeTeamPanel c ;; Ok (VCrime v)
  | whatif =>
      d <- get results "graph_data" ;;
      a <- get results "suspicious_accounts" ;;
      r <- get results "fraud_rings" ;;
      v <- WhatIfSimulator d a r ;; Ok (VWhatIf v)
  | agents =>
      a <- get results "suspicious_accounts" ;;
      v <- AgentsChart.render a ;; Ok (VAgents v)
  | n8n =>
      s <- get results "summary" ;; v <- N8nPanel s ;; Ok (VN8n v)
  end.

Record result_area : Type := {
  stats : Stats;
  json : JsVal;
  content : tab_view
}.

(** The block rendered under [results &&]: statistics, JSON output and the
    active tab.  An exception in any of them takes the whole area down. *)
Definition render (results : JsVal) (activeTab : Tab) : result (option result_area) :=
  if negb (truthy results) then Ok None
  else
    summary <- get results "summary" ;;
    s <- StatsGrid summary ;;
    j <- JsonOutputPanel.outputJson results ;;
    c <- tab_content results activeTab ;;
    Ok (Some {| stats := s; json := j; content := c |}).

End Render.

End App.

(* ====================================================================== *)
(** ** The scoring core, as the specification describes it *)
(* ====================================================================== *)

Module Core.

(** Modelled from the spec: the pattern types of a Ring (rings are created
    by the structural scorer of the analysis service). *)
Definition pattern_types : list string := ["cycle"; "fan_in"; "fan_out"; "shell"].

(** Modelled from the spec: the Ring record of the core output,
    [{ring_id, member_accounts[], pattern_type, risk_score}] (rings are
    created and scored by the analysis service). *)
Record Ring : Type := {
  ring_id : string;
  member_accounts : list string;
  pattern_type : string;
  risk_score : Q
}.


Module PartitionOptimizer.

(** Modelled from the spec: the sample budget of the partition optimizer
    (the optimizer is part of the analysis service, which is not in the
    frontend tree); the default is 512 samples per ring. *)
Definition SHOTS : N := 512.

End PartitionOptimizer.

Module Aggregator.

(** Modelled from the spec: the classification of an Account, one of
    Clean, Suspicious and Confirmed Mule (assigned by the aggregator of the
    analysis service). *)
Inductive classification : Type := Clean | Suspicious | ConfirmedMule.

(** Modelled from the spec: the aggregator of the analysis service.  With a
    quantum score the weights are 0.40, 0.35 and 0.25, without one 0.55 and
    0.45. *)
Definition final_score (graph ml : Q) (quantum : option Q) : Q :=
  match quantum with
  | Some q => (40 # 100) * graph + (35 # 100) * ml + (25 # 100) * q
  | None => (55 # 100) * graph + (45 # 100) * ml
  end%Q.

(** Modelled from the spec: the classification thresholds of the
    aggregator: 60 and above is a confirmed mule, 25 and above is
    suspicious, anything lower is clean. *)
Definition classify (final : Q) : classification :=
  if Qle_bool 60 final then ConfirmedMule
  else if Qle_bool 25 final then Suspicious
  else Clean.

End Aggregator.

Module Scoring.

(** Modelled from the spec: the ML score of the anomaly ensemble, the
    average of outlier score and classifier probability times 100; below
    the minimum account count there is no classifier and the outlier score
    stands alone. *)
Definition ml_score (outlier : Q) (classifier : option Q) : Q :=
  match classifier with
  | Some p => ((outlier + p) / 2) * 100
  | None => outlier * 100
  end%Q.

(** Modelled from the spec: the graph score of the structural scorer, a
    weighted combination of the normalized components (cycle membership,
    fan-in/out, shell density, pagerank, betweenness), given as pairs of
    weight and component. *)
Fixpoint graph_score (parts : list (Q * Q)) : Q :=
  match parts with
  | [] => 0
  | (w, c) :: rest => w * c + graph_score rest
  end%Q.

(** Modelled from the spec: what the stages of the analysis service hand
    to the aggregator for one account: the weighted components of the graph
    score, the two outputs of the anomaly ensemble, the quantum score if
    the ring was optimized, the detected patterns and the ring. *)
Record inputs : Type := {
  account_id : string;
  parts : list (Q * Q);
  outlier : Q;
  classifier : option Q;
  quantum : option Q;
  detected_patterns : list string;
  ring_id : option string
}.

Definition graph_of (i : inputs) : Q := graph_score (parts i).
Definition ml_of (i : inputs) : Q := ml_score (outlier i) (classifier i).
Definition final_of (i : inputs) : Q :=
  Aggregator.final_score (graph_of i) (ml_of i) (quantum i).




End Scoring.

Module CounterfactualSimulator.

(** Modelled from the spec: an Edge of the transaction graph, the
    aggregate of the transactions of an ordered pair, and the graph over
    account ids (built by the analysis service). *)
Record Edge : Type := {
  sender : string;
  receiver : string;
  total_amount : Q;
  tx_count : nat
}.

Record Graph : Type := { nodes : list string; edges : list Edge }.

Definition mem (x : string) (l : list string) : bool :=
  existsb (fun y => x =? y) l.

(** Modelled from the spec: functional removal of a node set, on a copy of
    the graph: the nodes go, and with them every edge that touches one. *)
Definition remove_nodes (removed : list string) (g : Graph) : Graph :=
  {| nodes := filter (fun n => negb (mem n removed)) (nodes g);
     edges := filter (fun e => negb (mem (sender e) removed)
                               && negb (mem (receiver e) removed)) (edges g) |}.

(** Modelled from the spec: the connected components of the undirected
    projection, for the snapshot statistics of the simulator: every node
    starts alone and each edge joins the parts of its two ends. *)
Definition join (parts : list (list string)) (e : Edge) : list (list string) :=
  let touches p := mem (sender e) p || mem (receiver e) p in
  match filter touches parts with
  | [] => parts
  | hit => List.concat hit :: filter (fun p => negb (touches p)) parts
  end.

Definition components (g : Graph) : list (list string) :=
  fold_left join (edges g) (map (fun n => [n]) (nodes g)).

(** Modelled from the spec: the snapshot statistics of the simulator:
    node and edge counts, connected components, largest component size,
    density, average degree. *)
Record snapshot : Type := {
  node_count : nat;
  edge_count : nat;
  component_count : nat;
  largest_component : nat;
  density : Q;
  average_degree : Q
}.

Definition of_nat (n : nat) : Q := inject_Z (Z.of_nat n).

(** Modelled from the spec: the snapshot the simulator takes of a graph,
    before and after the removal. *)
Definition snapshot_of (g : Graph) : snapshot :=
  let n := List.length (nodes g) in
  let m := List.length (edges g) in
  let parts := components g in
  {| node_count := n;
     edge_count := m;
     component_count := List.length parts;
     largest_component := fold_right Nat.max 0 (map (@List.length string) parts);
     density := if (n <=? 1)%nat then 0%Q else (of_nat m / of_nat (n * (n - 1)))%Q;
     average_degree := if (n =? 0)%nat then 0%Q else (of_nat (2 * m) / of_nat n)%Q |}.

(** Modelled from the spec: the percentage delta of a metric, as the
    simulator reports it; a metric that was zero has none. *)
Definition pct (before after : Q) : Q :=
  if Qeq_bool before 0 then 0%Q else ((after - before) / before * 100)%Q.

Record deltas : Type := {
  d_nodes : Q;
  d_edges : Q;
  d_components : Q;
  d_largest : Q;
  d_density : Q;
  d_degree : Q
}.

(** Modelled from the spec: the delta metrics of a simulation, one
    percentage delta per snapshot statistic. *)
Definition delta (b a : snapshot) : deltas :=
  {| d_nodes := pct (of_nat (node_count b)) (of_nat (node_count a));
     d_edges := pct (of_nat (edge_count b)) (of_nat (edge_count a));
     d_components := pct (of_nat (component_count b)) (of_nat (component_count a));
     d_largest := pct (of_nat (largest_component b)) (of_nat (largest_component a));
     d_density := pct (density b) (density a);
     d_degree := pct (average_degree b) (average_degree a) |}.

(** Modelled from the spec: the monetary flow and the transaction count
    carried by a set of edges, for the flow disruption of the simulator. *)
Fixpoint flow (es : list Edge) : Q :=
  match es with
  | [] => 0%Q
  | e :: rest => (total_amount e + flow rest)%Q
  end.

Fixpoint transactions (es : list Edge) : nat :=
  match es with
  | [] => 0
  | e :: rest => tx_count e + transactions rest
  end.

(** Modelled from the spec: the SimulationResult, restricted to the
    snapshots, the delta metrics and the flow disruption. *)
Record SimulationResult : Type := {
  before : snapshot;
  after : snapshot;
  change : deltas;
  disrupted_flow : Q;
  disrupted_transactions : nat
}.

(** Modelled from the spec: the simulator of the analysis service (served
    at [/api/whatif]): snapshots before and after the removal, their
    percentage deltas, and the flow and transactions carried by the edges
    that went. *)
Definition simulate (g : Graph) (removed : list string) : SimulationResult :=
  let g' := remove_nodes removed g in
  {| before := snapshot_of g;
     after := snapshot_of g';
     change := delta (snapshot_of g) (snapshot_of g');
     disrupted_flow := (flow (edges g) - flow (edges g'))%Q;
     disrupted_transactions := transactions (edges g) - transactions (edges g') |}.

Definition all_zero (d : deltas) : Prop :=
  (d_nodes d == 0 /\ d_edges d == 0 /\ d_components d == 0
   /\ d_largest d == 0 /\ d_density d == 0 /\ d_degree d == 0)%Q.

End CounterfactualSimulator.

End Core.

(* ====================================================================== *)
(** ** What a failed later stage leaves in the result *)
(* ====================================================================== *)

Module Stage.











(** The account and the ring of the JSON output for records of the core. *)
Definition exported_account (i : Core.Scoring.inputs) : JsVal :=
  JObj [ ("account_id", JStr (Core.Scoring.account_id i));
         ("suspicion_score", JNum (Core.Scoring.final_of i));
         ("detected_patterns", JArr (map JStr (Core.Scoring.detected_patterns i)));
         ("ring_id",
           match Core.Scoring.ring_id i with
           | Some r => if r =? "" then JStr "STANDALONE" else JStr r
           | None => JStr "STANDALONE"
           end) ].

Definition exported_ring (r : Core.Ring) : JsVal :=
  JObj [ ("ring_id", JStr (Core.ring_id r));
         ("member_accounts", JArr (map JStr (Core.member_accounts r)));
         ("pattern_type",
           if Core.pattern_type r =? "" then JStr "unknown"
           else JStr (Core.pattern_type r));
         ("risk_score", JNum (Core.risk_score r)) ].


End Stage.

(* ====================================================================== *)
(** ** Sample data *)
(* ====================================================================== *)

Module Samples.

(** A quantum analysis that ran. *)
Definition quantum_ran : JsVal :=
  JObj [ ("available", JBool true);
         ("circuits_executed", JNum 3%Q);
         ("results", JArr []) ].



(** A result whose only ring carries a pattern type of the badge table. *)
Definition one_ring : JsVal :=
  JObj [ ("suspicious_accounts", JArr []);
         ("fraud_rings",
           JArr [ JObj [ ("ring_id", JStr "RING_001");
                         ("member_accounts", JArr [JStr "ACC_001"; JStr "ACC_002"]);
                         ("pattern_type", JStr "smurfing_fan_in");
                         ("risk_score", JNum 80%Q) ] ]) ].



(** A ring of the core output and a result of the earlier stages that
    holds one Account record and one Ring record. *)
Definition ring : Core.Ring :=
  {| Core.ring_id := "RING_001";
     Core.member_accounts := ["ACC_001"; "ACC_002"; "ACC_003"];
     Core.pattern_type := "cycle";
     Core.risk_score := 82%Q |}.



(** A graph of three accounts in a cycle. *)
Definition triangle : Core.CounterfactualSimulator.Graph :=
  {| Core.CounterfactualSimulator.nodes := ["A"; "B"; "C"];
     Core.CounterfactualSimulator.edges :=
       [ {| Core.CounterfactualSimulator.sender := "A";
            Core.CounterfactualSimulator.receiver := "B";
            Core.CounterfactualSimulator.total_amount := 1000%Q;
            Core.CounterfactualSimulator.tx_count := 1 |};
         {| Core.CounterfactualSimulator.sender := "B";
            Core.CounterfactualSimulator.receiver := "C";
            Core.CounterfactualSimulator.total_amount := 1000%Q;
            Core.CounterfactualSimulator.tx_count := 1 |};
         {| Core.CounterfactualSimulator.sender := "C";
            Core.CounterfactualSimulator.receiver := "A";
            Core.CounterfactualSimulator.total_amount := 1000%Q;
            Core.CounterfactualSimulator.tx_count := 1 |} ] |}.

(** A server that answers every simulation request with an empty result. *)
Definition echo (r : WhatIfSimulator.request) : WhatIfSimulator.response :=
  WhatIfSimulator.Success (JObj []).

(** Nodes of a graph: one in a ring, two in none. *)
Definition graph_nodes : list GraphView.node :=
  [ {| GraphView.id := "ACC_001"; GraphView.score := 80%Q;
       GraphView.ring_id := Some "RING_001"; GraphView.suspicious := true;
       GraphView.patterns := [] |};
    {| GraphView.id := "ACC_002"; GraphView.score := 30%Q;
       GraphView.ring_id := Some "STANDALONE"; GraphView.suspicious := true;
       GraphView.patterns := [] |};
    {| GraphView.id := "ACC_003"; GraphView.score := 5%Q;
       GraphView.ring_id := Some "N/A"; GraphView.suspicious := false;
       GraphView.patterns := [] |} ].

Definition LF : string := String (ascii_of_nat 10) EmptyString.

Definition quoted (s : string) : string :=
  String SyntaxJson.quote (s ++ String SyntaxJson.quote EmptyString).

Definition lines (l : list string) : string := String.concat LF l.

(** An analysis result with one suspicious account that is in no ring. *)
Definition one_account : JsVal :=
  JObj [ ("suspicious_accounts",
           JArr [ JObj [ ("account_id", JStr "ACC_001");
                         ("suspicion_score", JNum 72%Q);
                         ("detected_patterns", JArr []);
                         ("ring_id", JNull);
                         ("component_scores",
                           JObj [ ("graph", JNum 85%Q); ("ml", JNum 92%Q);
                                  ("quantum", JNull) ]) ] ]);
         ("fraud_rings", JArr []);
         ("summary",
           JObj [ ("total_accounts_analyzed", JNum 5%Q);
                  ("suspicious_accounts_flagged", JNum 1%Q);
                  ("fraud_rings_detected", JNum 0%Q);
                  ("processing_time_seconds", JNum 1%Q) ]) ].

(** The record exported for that account. *)
Definition exported_account : JsVal :=
  JObj [ ("account_id", JStr "ACC_001");
         ("suspicion_score", JNum 72%Q);
         ("detected_patterns", JArr []);
         ("ring_id", JStr "STANDALONE") ].

(** [outputJson] for [one_account]. *)
Definition one_account_output : JsVal :=
  JObj [ ("suspicious_accounts", JArr [exported_account]);
         ("fraud_rings", JArr []);
         ("summary",
           JObj [ ("total_accounts_analyzed", JNum 5%Q);
                  ("suspicious_accounts_flagged", JNum 1%Q);
                  ("fraud_rings_detected", JNum 0%Q);
                  ("processing_time_seconds", JNum 1%Q) ]) ].

(** [JSON.stringify(outputJson, null, 2)] for [one_account]. *)
Definition rawJson : string :=
  lines
    [ "{";
      "  " ++ quoted "suspicious_accounts" ++ ": [";
      "    {";
      "      " ++ quoted "account_id" ++ ": " ++ quoted "ACC_001" ++ ",";
      "      " ++ quoted "suspicion_score" ++ ": 72,";
      "      " ++ quoted "detected_patterns" ++ ": [],";
      "      " ++ quoted "ring_id" ++ ": " ++ quoted "STANDALONE";
      "    }";
      "  ],";
      "  " ++ quoted "fraud_rings" ++ ": [],";
      "  " ++ quoted "summary" ++ ": {";
      "    " ++ quoted "total_accounts_analyzed" ++ ": 5,";
      "    " ++ quoted "suspicious_accounts_flagged" ++ ": 1,";
      "    " ++ quoted "fraud_rings_detected" ++ ": 0,";
      "    " ++ quoted "processing_time_seconds" ++ ": 1";
      "  }";
      "}" ].

(** The same text with the line break and indentation after
    ["STANDALONE"] gone. *)
Definition rawJson_shown : string :=
  lines
    [ "{";
      "  " ++ quoted "suspicious_accounts" ++ ": [";
      "    {";
      "      " ++ quoted "account_id" ++ ": " ++ quoted "ACC_001" ++ ",";
      "      " ++ quoted "suspicion_score" ++ ": 72,";
      "      " ++ quoted "detected_patterns" ++ ": [],";
      "      " ++ quoted "ring_id" ++ ": " ++ quoted "STANDALONE" ++ "}";
      "  ],";
      "  " ++ quoted "fraud_rings" ++ ": [],";
      "  " ++ quoted "summary" ++ ": {";
      "    " ++ quoted "total_accounts_analyzed" ++ ": 5,";
      "    " ++ quoted "suspicious_accounts_flagged" ++ ": 1,";
      "    " ++ quoted "fraud_rings_detected" ++ ": 0,";
      "    " ++ quoted "processing_time_seconds" ++ ": 1";
      "  }";
      "}" ].

End Samples.

(* ====================================================================== *)
(** ** Array.prototype.sort *)
(* ====================================================================== *)

Module JsSort.

Section Sort.

Context {A : Type}.

(** The comparator: negative puts the first argument first, positive the
    second, zero keeps them as they are. *)
Variable cmp : A -> A -> Z.

(** [sort] is stable, and for a consistent comparator the sorted order is
    unique: it is the order a stable insertion sort produces. *)
Fixpoint insert (x : A) (l : list A) : list A :=
  match l with
  | [] => [x]
  | y :: rest => if (cmp x y <=? 0)%Z then x :: y :: rest else y :: insert x rest
  end.

Fixpoint sort (l : list A) : list A :=
  match l with
  | [] => []
  | x :: rest => insert x (sort rest)
  end.

End Sort.

End JsSort.

(* ====================================================================== *)
(** ** RingsTable.jsx: search, sort order and [toggleSort] *)
(* ====================================================================== *)

Module RingsList.

(** A fraud ring as the table reads it. *)
Record ring : Type := {
  ring_id : string;
  pattern_type : string;
  member_accounts : list string;
  risk_score : Q
}.

(** The keys the column headers pass to [toggleSort]. *)
Inductive SortKey : Type := by_ring_id | by_pattern_type | by_members | by_risk_score.

Inductive SortDir : Type := asc | desc.

Record state : Type := {
  search : string;
  sortKey : SortKey;
  sortDir : SortDir
}.

Definition initial : state :=
  {| search := ""; sortKey := by_risk_score; sortDir := desc |}.

Definition same_key (a b : SortKey) : bool :=
  match a, b with
  | by_ring_id, by_ring_id | by_pattern_type, by_pattern_type
  | by_members, by_members | by_risk_score, by_risk_score => true
  | _, _ => false
  end.

Definition flip (d : SortDir) : SortDir :=
  match d with
  | asc => desc
  | desc => asc
  end.

(** [toggleSort]: the same column again turns the direction round, another
    column is sorted downwards. *)
Definition toggleSort (key : SortKey) (st : state) : state :=
  if same_key (sortKey st) key
  then {| search := search st; sortKey := sortKey st; sortDir := flip (sortDir st) |}
  else {| search := search st; sortKey := key; sortDir := desc |}.

(** The filter predicate for a query already in lower case. *)
Definition matches (q : string) (r : ring) : bool :=
  Text.includes q (Text.toLowerCase (ring_id r))
  || Text.includes q (Text.toLowerCase (pattern_type r))
  || existsb (fun a => Text.includes q (Text.toLowerCase a)) (member_accounts r).

(** [av < bv] and [av > bv] for the key of the column. *)
Definition less (key : SortKey) (a b : ring) : bool :=
  match key with
  | by_members =>
      (List.length (member_accounts a) <? List.length (member_accounts b))%nat
  | by_risk_score => negb (Qle_bool (risk_score b) (risk_score a))
  | by_ring_id => String.ltb (ring_id a) (ring_id b)
  | by_pattern_type => String.ltb (pattern_type a) (pattern_type b)
  end.

(** The comparator handed to [list.sort]. *)
Definition compare (key : SortKey) (dir : SortDir) (a b : ring) : Z :=
  if less key a b then match dir with asc => (-1)%Z | desc => 1%Z end
  else if less key b a then match dir with asc => 1%Z | desc => (-1)%Z end
  else 0%Z.

(** [filtered]: the rings that match the search, in sort order. *)
Definition filtered (st : state) (rings : list ring) : list ring :=
  let list :=
    match search st with
    | EmptyString => rings
    | _ => filter (matches (Text.toLowerCase (search st))) rings
    end in
  JsSort.sort (compare (sortKey st) (sortDir st)) list.

(** What the table shows: nothing but a notice without rings, otherwise the
    counter [filtered.length of rings.length] and a row per filtered ring. *)
Inductive view : Type :=
| Empty
| Table (shown total : nat) (rows : list ring).

Definition render (st : state) (rings : list ring) : view :=
  match rings with
  | [] => Empty
  | _ => Table (List.length (filtered st rings)) (List.length rings) (filtered st rings)
  end.

End RingsList.

(* ====================================================================== *)
(** ** DisruptionPanel.jsx: [DisruptionMeter] *)
(* ====================================================================== *)

Module DisruptionMeter.

Inductive colour : Type := red | orange | yellow.

(** [value > 60], [value > 30], else. *)
Definition colour_of (value : Q) : colour :=
  if negb (Qle_bool value 60) then red
  else if negb (Qle_bool value 30) then orange
  else yellow.

(** Ten times the smallest double above zero, 2^-1074. *)
Definition underflow : Q := 10 # (Pos.pow 2 1074).

(** [value / 20] as [Math.ceil] sees it.  The division of doubles rounds
    to the nearest double: a value above zero of at most [underflow] has a
    quotient of at most 2^-1075, half the smallest double, and that is
    rounded to zero.  Above [underflow] the rounded quotient is above zero,
    and it is above 1, 2, 3 or 4 exactly when the quotient of the real
    numbers is: the first double above 20, 40, 60 and 80 gives a quotient
    that lies 0.8 of a step above 1, 2, 3 and 4 and is rounded upwards. *)
Definition quotient (value : Q) : Q :=
  if negb (Qle_bool value 0) && Qle_bool value underflow then 0%Q
  else (value / 20)%Q.

(** Bar [i] of the five is lit when [i < Math.ceil(value / 20)]. *)
Definition lit (value : Q) (i : nat) : bool :=
  (Z.of_nat i <? Qceiling (quotient value))%Z.

(** The height of bar [i] in pixels. *)
Definition height (value : Q) (i : nat) : nat :=
  8 + (if lit value i then i * 3 else 0).

Definition bars (value : Q) : list bool := map (lit value) (seq 0 5).

Definition lit_count (value : Q) : nat :=
  List.length (filter (fun b => b) (bars value)).

End DisruptionMeter.

(* ====================================================================== *)
(** ** CrimeTeamPanel.jsx: [ActionsPanel] and [FormattedText] *)
(* ====================================================================== *)

Module CrimeTeam.

Record action : Type := {
  priority : string;
  title : string
}.

(** [priorityOrder[p] || 9]: a number for a priority of the table, 9 for
    one that is unknown or whose number is 0, and no number for a name
    that finds a member of [Object.prototype] instead. *)
Definition rank (p : string) : option Z :=
  if p =? "CRITICAL" then Some 9%Z
  else if p =? "HIGH" then Some 1%Z
  else if p =? "MEDIUM" then Some 2%Z
  else if p =? "STANDARD" then Some 3%Z
  else if RingsTable.mem p RingsTable.object_prototype then None
  else Some 9%Z.

(** The comparator of [ActionsPanel]: the difference of the ranks, which
    is [NaN] and counts as zero when a rank is no number. *)
Definition compare (a b : action) : Z :=
  match rank (priority a), rank (priority b) with
  | Some x, Some y => (x - y)%Z
  | _, _ => 0%Z
  end.

(** [sorted], the order the action cards are shown in. *)
Definition sorted (actions : list action) : list action :=
  JsSort.sort compare actions.

Definition star : ascii := "*"%char.

Definition not_star (c : ascii) : bool := negb (Ascii.eqb c star).

(** The pattern of [FormattedText] tried at one position: two stars, one
    or more characters that are no star, two stars.  The run of other
    characters can only end at a star, so the longest run is the only
    candidate. *)
Definition bold_at (s : string) : option (string * string) :=
  match s with
  | String a (String b r) =>
      if Ascii.eqb a star && Ascii.eqb b star then
        match SyntaxJson.take_while not_star r with
        | (EmptyString, _) => None
        | (inner, String c (String d rest)) =>
            if Ascii.eqb c star && Ascii.eqb d star
            then Some (String a (String b (inner ++ String c (String d EmptyString))), rest)
            else None
        | _ => None
        end
      else None
  | _ => None
  end.

(** The leftmost match in [s]: the text before it, the match, the rest. *)
Fixpoint find_bold (s : string) : option (string * string * string) :=
  match bold_at s with
  | Some (m, rest) => Some (EmptyString, m, rest)
  | None =>
      match s with
      | EmptyString => None
      | String c r =>
          match find_bold r with
          | Some (gap, m, rest) => Some (String c gap, m, rest)
          | None => None
          end
      end
  end.

(** [text.split(pattern)] with the match captured: the pieces between the
    matches with the matches between them. *)
Fixpoint split_from (fuel : nat) (s : string) : list string :=
  match fuel with
  | O => [s]
  | S fuel' =>
      match find_bold s with
      | Some (gap, m, rest) => gap :: m :: split_from fuel' rest
      | None => [s]
      end
  end.

Definition split_bold (text : string) : list string :=
  split_from (S (String.length text)) text.

Fixpoint ends_with_stars (s : string) : bool :=
  match s with
  | String a (String b EmptyString) => Ascii.eqb a star && Ascii.eqb b star
  | String _ r => ends_with_stars r
  | EmptyString => false
  end.

(** [part.startsWith('**') && part.endsWith('**')] *)
Definition looks_bold (part : string) : bool :=
  Text.is_prefix "**" part && ends_with_stars part.

Fixpoint drop_last_two (s : string) : string :=
  match s with
  | String a (String b EmptyString) => EmptyString
  | String a r => String a (drop_last_two r)
  | EmptyString => EmptyString
  end.

(** [part.slice(2, -2)] *)
Definition slice_2_m2 (part : string) : string :=
  match part with
  | String _ (String _ r) =>
      match r with
      | EmptyString | String _ EmptyString => EmptyString
      | _ => drop_last_two r
      end
  | _ => EmptyString
  end.

Inductive inline : Type :=
| Strong (s : string)
| Span (s : string)
| Br.

(** [part.split(LF)] *)
Fixpoint split_lines (s : string) : list string :=
  match s with
  | EmptyString => [EmptyString]
  | String c r =>
      if Ascii.eqb c (ascii_of_nat 10) then EmptyString :: split_lines r
      else match split_lines r with
           | l :: ls => String c l :: ls
           | [] => [String c EmptyString]
           end
  end.

Fixpoint spans (first : bool) (ls : list string) : list inline :=
  match ls with
  | [] => []
  | l :: rest => (if first then [Span l] else [Br; Span l]) ++ spans false rest
  end.

Definition render_part (part : string) : list inline :=
  if looks_bold part then [Strong (slice_2_m2 part)]
  else spans true (split_lines part).

(** [FormattedText({text})] *)
Definition FormattedText (text : string) : list inline :=
  flat_map render_part (split_bold text).

(** The characters a reader sees, a line break for each [<br />]. *)
Definition shown (i : inline) : string :=
  match i with
  | Strong s | Span s => s
  | Br => String (ascii_of_nat 10) EmptyString
  end.

Definition visible (l : list inline) : string :=
  String.concat "" (map shown l).

End CrimeTeam.

(* ====================================================================== *)
(** ** Pipeline.jsx *)
(* ====================================================================== *)

Module Pipeline.

(** The labels of [steps]. *)
Definition steps : list string :=
  [ "CSV Parse"; "Graph Agent"; "ML Agent"; "Quantum Agent"; "Aggregator";
    "Disruption"; "Crime Team" ].

Inductive status : Type := Done | Active | Pending.

(** [isDone], [isActive], [isPending] for step [i]. *)
Definition status_of (step : Z) (i : nat) : status :=
  if (Z.of_nat i <? step)%Z then Done
  else if (Z.of_nat i =? step)%Z then Active
  else Pending.

(** [Pipeline({step})]: nothing below zero, otherwise a status per step. *)
Definition render (step : Z) : option (list status) :=
  if (step <? 0)%Z then None
  else Some (map (status_of step) (seq 0 (List.length steps))).

End Pipeline.

(* ====================================================================== *)
(** ** App.jsx: [handleUpload] and [reset] *)
(* ====================================================================== *)

Module AppState.

Record state : Type := {
  results : JsVal;
  loading : bool;
  pipelineStep : Z;
  activeTab : App.Tab;
  error : option string
}.

Definition initial : state :=
  {| results := JNull; loading := false; pipelineStep := (-1)%Z;
     activeTab := App.graph; error := None |}.

(** What the request to [/api/analyze] came to. *)
Inductive outcome : Type :=
| Analysed (data : JsVal)
| Rejected (detail : option string)
| Broken (message : string).

(** The state [handleUpload] leaves when it has run to its end: results
    and error are cleared first, the steps 0 to 6 are shown, and the
    request decides the rest. *)
Definition handleUpload (o : outcome) (st : state) : state :=
  match o with
  | Analysed data =>
      {| results := data; loading := false; pipelineStep := 7%Z;
         activeTab := activeTab st; error := None |}
  | Rejected detail =>
      {| results := JNull; loading := false; pipelineStep := (-1)%Z;
         activeTab := activeTab st;
         error := Some (match detail with
                        | Some d => if d =? "" then "Analysis failed" else d
                        | None => "Analysis failed"
                        end) |}
  | Broken message =>
      {| results := JNull; loading := false; pipelineStep := (-1)%Z;
         activeTab := activeTab st; error := Some message |}
  end.

Definition reset (st : state) : state :=
  {| results := JNull; loading := loading st; pipelineStep := (-1)%Z;
     activeTab := App.graph; error := None |}.

Definition setActiveTab (t : App.Tab) (st : state) : state :=
  {| results := results st; loading := loading st;
     pipelineStep := pipelineStep st; activeTab := t; error := error st |}.

Inductive event : Type :=
| Upload (o : outcome)
| Reset
| SelectTab (t : App.Tab).

Definition step (st : state) (e : event) : state :=
  match e with
  | Upload o => handleUpload o st
  | Reset => reset st
  | SelectTab t => setActiveTab t st
  end.

(** The state after a sequence of events, from the first render. *)
Definition after (events : list event) : state := fold_left step events initial.

(** The error banner and the result area are rendered under [error &&] and
    [results &&]. *)
Definition banner_shown (st : state) : bool :=
  match error st with
  | Some m => negb (m =? "")
  | None => false
  end.

Definition area_shown (st : state) : bool := truthy (results st).

End AppState.

(* ====================================================================== *)
(** ** WhatIfSimulator.jsx: a session of clicks *)
(* ====================================================================== *)

Module WhatIfSession.

(** A click on an account button or on the cross of a chip, on Clear, or
    on Run Simulation, the last with the server as it answers then. *)
Inductive click : Type :=
| Toggle (nodeId : string)
| Clear
| Run (server : WhatIfSimulator.request -> WhatIfSimulator.response).

Section Session.

Variable API_BASE : string.

Definition step (st : WhatIfSimulator.state) (c : click) : WhatIfSimulator.state :=
  match c with
  | Toggle n => WhatIfSimulator.toggleNode n st
  | Clear => WhatIfSimulator.clearSelection st
  | Run server => fst (WhatIfSimulator.runSimulation API_BASE server st)
  end.

(** The state after a sequence of clicks on the freshly mounted panel,
    each handler having run to its end. *)
Definition after (clicks : list click) : WhatIfSimulator.state :=
  fold_left step clicks WhatIfSimulator.initial.

End Session.

End WhatIfSession.

(* ====================================================================== *)
(** ** GraphView.jsx: the pattern entries of [searchIndex] *)
(* ====================================================================== *)

Module GraphPatterns.

(** [patternSet.add(p)]: a [Set] keeps the first occurrence. *)
Definition add (p : string) (set : list string) : list string :=
  if RingsTable.mem p set then set else (set ++ [p])%list.

(** The third [forEach]: every pattern of every node, in order. *)
Definition patternSet (nodes : list GraphView.node) : list string :=
  fold_left (fun set n => fold_left (fun s p => add p s) (GraphView.patterns n) set)
            nodes [].

Record pattern_item : Type := {
  item_id : string;
  item_label : string;
  item_members : list string
}.

(** The entry pushed for pattern [p]. *)
Definition item_of (nodes : list GraphView.node) (p : string) : pattern_item :=
  {| item_id := p;
     item_label := Text.underscores_to_spaces p;
     item_members :=
       map GraphView.id
           (filter (fun n => RingsTable.mem p (GraphView.patterns n)) nodes) |}.

Definition pattern_items (nodes : list GraphView.node) : list pattern_item :=
  map (item_of nodes) (patternSet nodes).

End GraphPatterns.

(* ====================================================================== *)
(** ** CrimeTeamPanel.jsx: [RiskBar] *)
(* ====================================================================== *)

Module RiskBar.

(** [max > 0 ? (value / max) * 100 : 0] *)
Definition pct (value max : Q) : Q :=
  if negb (Qle_bool max 0) then ((value / max) * 100)%Q else 0%Q.

(** The height of the bar in percent, [Math.max(pct, 8)]. *)
Definition height (value max : Q) : Q :=
  let p := pct value max in
  if Qle_bool p 8 then 8%Q else p.

End RiskBar.

(* ====================================================================== *)
(** ** Further sample data *)
(* ====================================================================== *)

Module Cases.

Definition act (p t : string) : CrimeTeam.action :=
  {| CrimeTeam.priority := p; CrimeTeam.title := t |}.

Definition actions : list CrimeTeam.action :=
  [ act "CRITICAL" "Freeze ACC_001"; act "MEDIUM" "Review ring"; act "HIGH" "File report" ].

(** Accounts of a result: well formed, and one without an account id. *)
Definition account (id : string) (score : Q) : JsVal :=
  JObj [ ("account_id", JStr id); ("suspicion_score", JNum score) ].

Definition nameless : JsVal := JObj [ ("suspicion_score", JNum 50%Q) ].

(** Nodes of a graph with their patterns. *)
Definition pattern_nodes : list GraphView.node :=
  [ {| GraphView.id := "ACC_001"; GraphView.score := 80%Q;
       GraphView.ring_id := Some "RING_001"; GraphView.suspicious := true;
       GraphView.patterns := ["cycle"; "shell_chain"] |};
    {| GraphView.id := "ACC_002"; GraphView.score := 70%Q;
       GraphView.ring_id := Some "RING_001"; GraphView.suspicious := true;
       GraphView.patterns := ["cycle"] |} ].

(** A disruption output with strategies but no global summary. *)
Definition disruption_partial : JsVal :=
  JObj [ ("strategies", JArr [ JObj [ ("ring_id", JStr "RING_001") ] ]);
         ("network_stats", JObj []) ].

End Cases.

(* ====================================================================== *)
(** ** Measures used in the statements *)
(* ====================================================================== *)

Module Measure.

(** A text without its whitespace characters. *)
Fixpoint drop_space (s : string) : string :=
  match s with
  | EmptyString => EmptyString
  | String c r =>
      if SyntaxJson.is_space c then drop_space r else String c (drop_space r)
  end.

(** The texts of a list one after the other. *)
Fixpoint join (l : list string) : string :=
  match l with
  | [] => EmptyString
  | x :: rest => x ++ join rest
  end.

(** Whether a key token sits at the head of a list of tokens, and whether
    a list starts with the colon. *)
Definition is_key (t : SyntaxJson.token) : bool :=
  match SyntaxJson.type t with
  | SyntaxJson.key => true
  | _ => false
  end.

Definition starts_with_colon (l : list SyntaxJson.token) : bool :=
  match l with
  | t :: _ =>
      match SyntaxJson.type t with
      | SyntaxJson.punct => SyntaxJson.text t =? ":"
      | _ => false
      end
  | [] => false
  end.

(** Every key in a list of tokens has the colon right behind it. *)
Definition colon_follows_keys (l : list SyntaxJson.token) : Prop :=
  forall l1 t l2, l = (l1 ++ t :: l2)%list ->
    is_key t = true -> starts_with_colon l2 = true.

(** A section of a result that [map] cannot be called on, or that holds an
    entry without properties: a truthy value that is no array, or an array
    with [null] or [undefined] in it. *)
Definition unmappable (v : JsVal) : bool :=
  match or_else v (JArr []) with
  | JArr l => existsb nullish l
  | _ => true
  end.

Definition has_string_id (a : JsVal) : bool :=
  match JsonOutputPanel.field "account_id" a with
  | JStr _ => true
  | _ => false
  end.

Definition contains_star (s : string) : bool :=
  Text.includes "*" s.

(** The number an action is sorted by, when its priority has one. *)
Definition rank_number (a : CrimeTeam.action) : Z :=
  match CrimeTeam.rank (CrimeTeam.priority a) with
  | Some x => x
  | None => 9%Z
  end.

End Measure.

(* ====================================================================== *)
(** * Properties *)
(* ====================================================================== *)

(** ** The tokenizer *)

Section TokenizerFacts.

Import SyntaxJson.

Lemma take_while_split p s a b :
  take_while p s = (a, b) -> s = a ++ b.
Proof.
  revert a b; induction s as [|c r IH]; simpl; intros a b H.
  - inversion H; reflexivity.
  - destruct (p c).
    + destruct (take_while p r) as [a' b'] eqn:E.
      inversion H; subst. simpl. f_equal. now apply IH.
    + inversion H; reflexivity.
Qed.

Lemma strip_prefix_split p s rest :
  strip_prefix p s = Some rest -> s = p ++ rest.
Proof.
  revert s; induction p as [|a p IH]; simpl; intros s H.
  - now inversion H.
  - destruct s as [|b s]; [discriminate|].
    destruct (Ascii.eqb a b) eqn:E; [|discriminate].
    apply Ascii.eqb_eq in E; subst. f_equal. now apply IH.
Qed.

Lemma string_body_split : forall n s b rest,
  (String.length s <= n)%nat ->
  string_body s = Some (b, rest) -> s = b ++ rest.
Proof.
  induction n as [|n IH]; intros s b rest Hn H.
  - destruct s; simpl in *; [discriminate | lia].
  - destruct s as [|c r]; simpl in *; [discriminate|].
    destruct (Ascii.eqb c quote).
    + inversion H; reflexivity.
    + destruct (Ascii.eqb c backslash).
      * destruct r as [|d r']; [discriminate|].
        destruct (is_line_terminator d); [discriminate|].
        destruct (string_body r') as [[b' rest']|] eqn:E; [|discriminate].
        inversion H; subst. simpl. do 2 f_equal.
        apply (IH r'); [simpl in Hn; lia | exact E].
      * destruct (string_body r) as [[b' rest']|] eqn:E; [|discriminate].
        inversion H; subst. simpl. f_equal.
        apply (IH r); [lia | exact E].
Qed.

Lemma append_assoc (a b c : string) : (a ++ b) ++ c = a ++ (b ++ c).
Proof. induction a; simpl; congruence. Qed.

Lemma append_nil_r (a : string) : a ++ "" = a.
Proof. induction a; simpl; congruence. Qed.

Lemma length_append (a b : string) :
  String.length (a ++ b) = (String.length a + String.length b)%nat.
Proof. induction a; simpl; congruence. Qed.

Lemma alt_string_split s m rest :
  alt_string s = Some (m, rest) -> s = m0 m ++ rest /\ m0 m <> "".
Proof.
  unfold alt_string. destruct s as [|c r]; [discriminate|].
  destruct (Ascii.eqb c quote); [|discriminate].
  destruct (string_body r) as [[b r1]|] eqn:E; [|discriminate].
  apply (string_body_split (String.length r)) in E; [|lia].
  destruct (take_while is_space r1) as [sp r2] eqn:T.
  apply take_while_split in T.
  intros H.
  assert (Hk : forall m' rest',
             Some (m', rest') = Some (m, rest) ->
             String c r = m0 m' ++ rest' -> m0 m' <> "" ->
             String c r = m0 m ++ rest /\ m0 m <> "").
  { intros m' rest' K; inversion K; subst; auto. }
  destruct r2 as [|x r3].
  - apply (Hk _ _ H); simpl; [|discriminate].
    f_equal. rewrite E, T. now rewrite append_assoc.
  - destruct x as [[] [] [] [] [] [] [] []];
      (apply (Hk _ _ H); simpl;
       [f_equal; rewrite E, T; now rewrite ?append_assoc | discriminate]).
Qed.

Lemma opt_fraction_split s a b : opt_fraction s = (a, b) -> s = a ++ b.
Proof.
  unfold opt_fraction. destruct s as [|c r]; [intros H; inversion H; reflexivity|].
  destruct (Ascii.eqb c ".") eqn:Ec.
  - apply Ascii.eqb_eq in Ec; subst c.
    destruct (take_while is_digit r) as [d r'] eqn:T.
    apply take_while_split in T.
    destruct d; intros H; inversion H; subst; reflexivity.
  - assert (Hc : c <> "."%char) by (intros ->; rewrite Ascii.eqb_refl in Ec; discriminate).
    destruct c as [[] [] [] [] [] [] [] []];
      try (intros H; inversion H; reflexivity); now elim Hc.
Qed.

Lemma opt_exponent_split s a b : opt_exponent s = (a, b) -> s = a ++ b.
Proof.
  unfold opt_exponent. destruct s as [|e r]; [intros H; inversion H; reflexivity|].
  destruct (Ascii.eqb e "e" || Ascii.eqb e "E"); [|intros H; inversion H; reflexivity].
  assert (Hsg : forall sg r1,
             match r with
             | String c r' =>
                 if Ascii.eqb c "+" || Ascii.eqb c "-" then (String c EmptyString, r')
                 else (EmptyString, r)
             | EmptyString => (EmptyString, r)
             end = (sg, r1) -> r = sg ++ r1).
  { intros sg r1. destruct r as [|c r'].
    - intros H; inversion H; reflexivity.
    - destruct (Ascii.eqb c "+" || Ascii.eqb c "-"); intros H; inversion H; reflexivity. }
  destruct (match r with
            | String c r' =>
                if Ascii.eqb c "+" || Ascii.eqb c "-" then (String c EmptyString, r')
                else (EmptyString, r)
            | EmptyString => (EmptyString, r)
            end) as [sg r1] eqn:S1.
  specialize (Hsg _ _ eq_refl).
  destruct (take_while is_digit r1) as [d r2] eqn:T.
  apply take_while_split in T.
  destruct d; intros H; inversion H; subst; try reflexivity.
  simpl. f_equal. now rewrite append_assoc.
Qed.

Lemma alt_number_split s m rest :
  alt_number s = Some (m, rest) -> s = m0 m ++ rest /\ m0 m <> "".
Proof.
  unfold alt_number.
  set (sr := match s with String "-" r => ("-", r) | _ => (EmptyString, s) end).
  assert (Hsr : s = fst sr ++ snd sr).
  { subst sr. destruct s as [|c r]; [reflexivity|].
    destruct c as [[] [] [] [] [] [] [] []]; reflexivity. }
  assert (Hsign : fst sr = "" \/ fst sr = "-").
  { subst sr. destruct s as [|c r]; [now left|].
    destruct c as [[] [] [] [] [] [] [] []]; simpl; auto. }
  destruct sr as [sign r0]; simpl in *.
  destruct (take_while is_digit r0) as [int r1] eqn:T.
  apply take_while_split in T.
  destruct int as [|i0 int]; [discriminate|].
  destruct (opt_fraction r1) as [frac r2] eqn:F.
  apply opt_fraction_split in F.
  destruct (opt_exponent r2) as [ex r3] eqn:X.
  apply opt_exponent_split in X.
  intros H; inversion H; subst m rest; simpl m0.
  split.
  - rewrite Hsr, T, F, X. rewrite append_assoc. simpl. now rewrite !append_assoc.
  - destruct Hsign as [-> | ->]; discriminate.
Qed.

Lemma word_at_split w prev s rest :
  word_at w prev s = Some rest -> s = w ++ rest.
Proof.
  unfold word_at. destruct (is_word_opt prev); [discriminate|].
  destruct (strip_prefix w s) as [r|] eqn:E; [|discriminate].
  destruct (is_word_opt (head r)); [discriminate|].
  intros H; inversion H; subst. now apply strip_prefix_split.
Qed.

Lemma match_at_split prev s m rest :
  match_at prev s = Some (m, rest) -> s = m0 m ++ rest /\ m0 m <> "".
Proof.
  unfold match_at, first_of.
  destruct (alt_string s) as [[m1' r1]|] eqn:A1.
  { intros H; inversion H; subst. now apply alt_string_split. }
  destruct (alt_number s) as [[m2' r2]|] eqn:A2.
  { intros H; inversion H; subst. now apply alt_number_split. }
  destruct (alt_bool prev s) as [[m3' r3]|] eqn:A3.
  { intros H; inversion H; subst. unfold alt_bool in A3.
    destruct (word_at "true" prev s) eqn:W1.
    - inversion A3; subst; simpl. split; [now apply word_at_split in W1 | discriminate].
    - destruct (word_at "false" prev s) eqn:W2; [|discriminate].
      inversion A3; subst; simpl. split; [now apply word_at_split in W2 | discriminate]. }
  destruct (alt_null prev s) as [[m4' r4]|] eqn:A4.
  { intros H; inversion H; subst. unfold alt_null in A4.
    destruct (word_at "null" prev s) eqn:W1; [|discriminate].
    inversion A4; subst; simpl. split; [now apply word_at_split in W1 | discriminate]. }
  unfold alt_punct. destruct s as [|c r]; [discriminate|].
  destruct (is_structural c); [|discriminate].
  intros H; inversion H; subst; simpl. split; [reflexivity | discriminate].
Qed.

(** A match found by [exec] splits the text into the skipped part, the
    match and the rest, and the match is not empty. *)
Lemma exec_split : forall s prev gap m rest,
  exec prev s = Some (gap, m, rest) ->
  s = gap ++ m0 m ++ rest /\ m0 m <> "".
Proof.
  induction s as [|c r IH]; intros prev gap m rest H; simpl in H.
  - destruct (match_at prev "") as [[m' r']|] eqn:E; [|discriminate].
    inversion H; subst. now apply match_at_split in E.
  - destruct (match_at prev (String c r)) as [[m' r']|] eqn:E.
    + inversion H; subst. now apply match_at_split in E.
    + destruct (exec (Some c) r) as [[[g' m'] r']|] eqn:X; [|discriminate].
      inversion H; subst. apply IH in X. destruct X as [X1 X2].
      split; [simpl; now f_equal | exact X2].
Qed.

Lemma exec_rest_shorter prev s gap m rest :
  exec prev s = Some (gap, m, rest) ->
  (String.length rest < String.length s)%nat.
Proof.
  intros H. apply exec_split in H. destruct H as [-> Hne].
  rewrite !length_append. destruct (m0 m); [congruence | simpl; lia].
Qed.

(** The loop never uses up fuel above the length of the text: the
    tokenizer terminates on every input. *)
Lemma loop_fuel : forall fuel1 fuel2 prev s,
  (String.length s < fuel1)%nat -> (String.length s < fuel2)%nat ->
  loop fuel1 prev s = loop fuel2 prev s.
Proof.
  induction fuel1 as [|f1 IH]; intros fuel2 prev s H1 H2; [lia|].
  destruct fuel2 as [|f2]; [lia|]. simpl.
  destruct (exec prev s) as [[[gap m] rest]|] eqn:E; [|reflexivity].
  pose proof (exec_rest_shorter _ _ _ _ _ E) as Hlt.
  do 2 f_equal. apply IH; lia.
Qed.

End TokenizerFacts.

(** ** Evaluation in the exception monad *)

Lemma bind_ok {A B} (r : result A) (k : A -> result B) (b : B) :
  bind r k = Ok b -> exists a, r = Ok a /\ k a = Ok b.
Proof. destruct r as [a|]; simpl; [eauto | discriminate]. Qed.

Ltac bind_inv H :=
  repeat match type of H with
         | bind ?r ?k = Ok ?b =>
             let a := fresh "v" in
             let E := fresh "E" in
             apply bind_ok in H; destruct H as [a [E H]]
         end.

Lemma mapM_In {A B} (f : A -> result B) : forall l bs b,
  mapM f l = Ok bs -> In b bs -> exists a, In a l /\ f a = Ok b.
Proof.
  induction l as [|a l IH]; simpl; intros bs b H Hin.
  - inversion H; subst; contradiction.
  - bind_inv H. inversion H; subst. destruct Hin as [<- | Hin].
    + exists a; auto.
    + destruct (IH _ _ E0 Hin) as [a' [Ha' Hf]]. exists a'; auto.
Qed.

Lemma get_field v k x : get v k = Ok x -> x = JsonOutputPanel.field k v.
Proof. destruct v; simpl; intros H; inversion H; reflexivity. Qed.

Lemma truthy_not_nullish v : truthy v = true -> nullish v = false.
Proof. destruct v; simpl; congruence. Qed.

Lemma get_is v k : nullish v = false -> get v k = Ok (JsonOutputPanel.field k v).
Proof. destruct v; simpl; try discriminate; reflexivity. Qed.

Lemma get_opt_is v k : get_opt v k = Ok (JsonOutputPanel.field k v).
Proof. destruct v; reflexivity. Qed.

Lemma includes_empty s : Text.includes "" s = true.
Proof. destruct s; reflexivity. Qed.

Lemma summary_out_total results :
  nullish results = false -> exists s, JsonOutputPanel.summary_out results = Ok s.
Proof.
  intros N. unfold JsonOutputPanel.summary_out.
  rewrite !(get_is results) by assumption. cbn [bind].
  rewrite !get_opt_is. cbn [bind]. eauto.
Qed.

Lemma truthy_or_else a b : truthy b = true -> truthy (or_else a b) = true.
Proof. unfold or_else. destruct (truthy a) eqn:E; auto. Qed.





(** ** The exported JSON output *)

Lemma account_out_shape a out :
  JsonOutputPanel.account_out a = Ok out ->
  out = JObj
          [ ("account_id", JsonOutputPanel.field "account_id" a);
            ("suspicion_score",
              coalesce (coalesce (JsonOutputPanel.field "suspicion_score" a)
                                 (JsonOutputPanel.field "score" a)) (JNum 0%Q));
            ("detected_patterns",
              or_else (or_else (JsonOutputPanel.field "detected_patterns" a)
                               (JsonOutputPanel.field "patterns" a)) (JArr []));
            ("ring_id",
              or_else (JsonOutputPanel.field "ring_id" a) (JStr "STANDALONE")) ].
Proof.
  unfold JsonOutputPanel.account_out.
  destruct a; simpl; try discriminate; intros H; inversion H; reflexivity.
Qed.

Lemma ring_out_shape r out :
  JsonOutputPanel.ring_out r = Ok out ->
  out = JObj
          [ ("ring_id", JsonOutputPanel.field "ring_id" r);
            ("member_accounts",
              or_else (or_else (JsonOutputPanel.field "member_accounts" r)
                               (JsonOutputPanel.field "accounts" r)) (JArr []));
            ("pattern_type",
              or_else (or_else (JsonOutputPanel.field "pattern_type" r)
                               (JsonOutputPanel.field "type" r)) (JStr "unknown"));
            ("risk_score",
              coalesce (coalesce (JsonOutputPanel.field "risk_score" r)
                                 (JsonOutputPanel.field "score" r)) (JNum 0%Q)) ].
Proof.
  unfold JsonOutputPanel.ring_out.
  destruct r; simpl; try discriminate; intros H; inversion H; reflexivity.
Qed.

Lemma section_of_array name v l :
  or_else (JsonOutputPanel.field name v) (JArr []) = JArr l ->
  JsonOutputPanel.section name v = l.
Proof.
  unfold or_else, JsonOutputPanel.field, JsonOutputPanel.section.
  destruct v as [| | b | x | s | l0 | fields]; simpl;
    try (intros H; inversion H; reflexivity).
  destruct (lookup name fields) as [x|]; simpl;
    [|intros H; inversion H; reflexivity].
  destruct (truthy x) eqn:T.
  - intros ->. reflexivity.
  - intros H; inversion H; subst.
    destruct x; try reflexivity; discriminate.
Qed.

Lemma map_arr_section {B} name v (f : JsVal -> result B) bs :
  map_arr (or_else (JsonOutputPanel.field name v) (JArr [])) f = Ok bs ->
  mapM f (JsonOutputPanel.section name v) = Ok bs.
Proof.
  destruct (or_else (JsonOutputPanel.field name v) (JArr [])) eqn:E;
    simpl; try discriminate.
  apply section_of_array in E. now rewrite E.
Qed.

Lemma section_of_falsy name v :
  truthy v = false -> JsonOutputPanel.section name v = [].
Proof. destruct v; simpl; try reflexivity; discriminate. Qed.

(** The two array sections of the output are the sections of the result,
    mapped through their arrow functions in order. *)
Lemma outputJson_sections results out :
  JsonOutputPanel.outputJson results = Ok out ->
  mapM JsonOutputPanel.account_out
    (JsonOutputPanel.section "suspicious_accounts" results)
  = Ok (JsonOutputPanel.section "suspicious_accounts" out)
  /\ mapM JsonOutputPanel.ring_out (JsonOutputPanel.section "fraud_rings" results)
     = Ok (JsonOutputPanel.section "fraud_rings" out).
Proof.
  unfold JsonOutputPanel.outputJson.
  destruct (truthy results) eqn:T; simpl negb; cbv iota.
  - intros H.
    apply bind_ok in H. destruct H as [sa [G1 H]]. apply get_field in G1. subst sa.
    apply bind_ok in H. destruct H as [accounts [M1 H]].
    apply bind_ok in H. destruct H as [fr [G2 H]]. apply get_field in G2. subst fr.
    apply bind_ok in H. destruct H as [rings [M2 H]].
    apply bind_ok in H. destruct H as [summary [_ H]].
    inversion H; subst out. simpl JsonOutputPanel.section.
    split; now apply map_arr_section.
  - intros H; inversion H; subst out.
    rewrite (section_of_falsy "suspicious_accounts" results T).
    rewrite (section_of_falsy "fraud_rings" results T).
    split; reflexivity.
Qed.

Lemma exported_account results out a :
  JsonOutputPanel.outputJson results = Ok out ->
  In a (JsonOutputPanel.section "suspicious_accounts" out) ->
  exists src,
    In src (JsonOutputPanel.section "suspicious_accounts" results)
    /\ JsonOutputPanel.account_out src = Ok a.
Proof.
  intros H Hin. apply outputJson_sections in H. destruct H as [H _].
  apply (mapM_In _ _ _ _ H Hin).
Qed.

Lemma exported_ring results out r :
  JsonOutputPanel.outputJson results = Ok out ->
  In r (JsonOutputPanel.section "fraud_rings" out) ->
  exists src,
    In src (JsonOutputPanel.section "fraud_rings" results)
    /\ JsonOutputPanel.ring_out src = Ok r.
Proof.
  intros H Hin. apply outputJson_sections in H. destruct H as [_ H].
  apply (mapM_In _ _ _ _ H Hin).
Qed.

Lemma mapM_covers {A B} (f : A -> result B) : forall l bs a,
  mapM f l = Ok bs -> In a l -> exists b, In b bs /\ f a = Ok b.
Proof.
  induction l as [|x l IH]; simpl; intros bs a H Hin; [contradiction|].
  apply bind_ok in H. destruct H as [b [Hb H]].
  apply bind_ok in H. destruct H as [bs' [Hbs H]].
  inversion H; subst bs. destruct Hin as [<- | Hin].
  - exists b. split; [now left | exact Hb].
  - destruct (IH _ _ Hbs Hin) as [b' [Hb' Hf]]. exists b'. split; [now right | exact Hf].
Qed.

(** C1 (defect in the code): the account records of the exported JSON
    output carry no [component_scores].  For the result whose account has
    the five properties of the documented output format, sub-scores
    included, [outputJson] builds an account with the four other
    properties only; and so it does whatever the result holds, as the
    record is built from a fixed list of four properties. *)
Theorem C1_export_leaves_out_component_scores :
  keys (nth 0 (JsonOutputPanel.section "suspicious_accounts" Samples.one_account)
          JUndefined)
  = (JsonOutputPanel.account_fields ++ ["component_scores"])%list
  /\ JsonOutputPanel.outputJson Samples.one_account = Ok Samples.one_account_output
  /\ JsonOutputPanel.section "suspicious_accounts" Samples.one_account_output
     = [Samples.exported_account]
  /\ keys Samples.exported_account = JsonOutputPanel.account_fields
  /\ has_field "component_scores" Samples.exported_account = false
  /\ (forall results out a,
        JsonOutputPanel.outputJson results = Ok out ->
        In a (JsonOutputPanel.section "suspicious_accounts" out) ->
        keys a = JsonOutputPanel.account_fields
        /\ has_field "component_scores" a = false).
Proof.
  split; [reflexivity|]. split; [reflexivity|]. split; [reflexivity|].
  split; [reflexivity|]. split; [reflexivity|].
  intros results out a Hout Hin.
  destruct (exported_account _ _ _ Hout Hin) as [src [_ Hsrc]].
  apply account_out_shape in Hsrc. subst a. split; reflexivity.
Qed.

(** ** The quantum configuration *)

(** C2 (defect in the code): in the summary bar that [QuantumPanel] shows
    for an analysis that ran, the Configuration entry is the fixed text
    with 1024 shots (and 2 layers); the sample budget of 512 shots does not
    occur in it. *)
Theorem C2_configuration_reports_1024_shots :
  forall (Card : Type) (CircuitCard : JsVal -> nat -> result Card),
    QuantumPanel.render CircuitCard Samples.quantum_ran
    = Ok (QuantumPanel.Analysis
            {| QuantumPanel.backend := "Qiskit Aer Simulator";
               QuantumPanel.algorithm := "QAOA Max-Cut";
               QuantumPanel.circuits_executed := JNum 3%Q;
               QuantumPanel.configuration := "2 layers &middot; 1024 shots" |}
            [] true)
    /\ Text.decimal Core.PartitionOptimizer.SHOTS = "512"
    /\ Text.includes (Text.decimal Core.PartitionOptimizer.SHOTS)
         QuantumPanel.configuration_text = false
    /\ Text.includes "1024 shots" QuantumPanel.configuration_text = true.
Proof.
  intros Card CircuitCard. repeat split.
Qed.

(** ** Classification and risk bands *)

Lemma Qle_bool_false (x y : Q) : Qle_bool x y = false <-> (y < x)%Q.
Proof.
  split; intros H.
  - apply Qnot_le_lt. intros Hle. apply Qle_bool_iff in Hle. congruence.
  - destruct (Qle_bool x y) eqn:E; [|reflexivity].
    apply Qle_bool_iff in E. apply Qlt_not_le in H. contradiction.
Qed.

Lemma three_bands (hi lo s : Q) {A} (a b c : A) :
  (lo <= hi)%Q -> a <> b -> b <> c -> a <> c ->
  let f := if Qle_bool hi s then a else if Qle_bool lo s then b else c in
  (f = a <-> (hi <= s)%Q)
  /\ (f = b <-> (lo <= s /\ s < hi)%Q)
  /\ (f = c <-> (s < lo)%Q).
Proof.
  intros Hlh Hab Hbc Hac f. subst f.
  destruct (Qle_bool hi s) eqn:E1.
  - apply Qle_bool_iff in E1.
    split; [|split]; (split; intros H); try congruence; try lra.
  - apply Qle_bool_false in E1.
    destruct (Qle_bool lo s) eqn:E2.
    + apply Qle_bool_iff in E2.
      split; [|split]; (split; intros H); try congruence; try lra.
    + apply Qle_bool_false in E2.
      split; [|split]; (split; intros H); try congruence; try lra.
Qed.

(** C3, as stated, fails: the risk band of a score does not follow the
    classification; at 60 the classification is Confirmed Mule while the
    pill is orange, the band of the scores from 40 up to 70. *)
Lemma C3_counterexample :
  ~ (forall s : Q,
        (AccountsTable.ScorePill s = AccountsTable.red
         <-> Core.Aggregator.classify s = Core.Aggregator.ConfirmedMule)
        /\ (AccountsTable.ScorePill s = AccountsTable.orange
            <-> Core.Aggregator.classify s = Core.Aggregator.Suspicious)
        /\ (AccountsTable.ScorePill s = AccountsTable.yellow
            <-> Core.Aggregator.classify s = Core.Aggregator.Clean)).
Proof.
  intros H. destruct (H 60%Q) as [[_ H1] _].
  specialize (H1 eq_refl). discriminate.
Qed.

(** C3, amended: the classification has its boundaries at 60 and 25 (60
    is Confirmed Mule, 59.999 and 25 are Suspicious, 24.999 is Clean); the
    risk bands that colour a score have theirs at 70 and 40, in the accounts
    table, the rings table and the what-if selection alike. *)
Theorem C3_classification_and_risk_bands :
  forall s : Q,
    ((Core.Aggregator.classify s = Core.Aggregator.ConfirmedMule <-> (60 <= s)%Q)
     /\ (Core.Aggregator.classify s = Core.Aggregator.Suspicious
         <-> (25 <= s /\ s < 60)%Q)
     /\ (Core.Aggregator.classify s = Core.Aggregator.Clean <-> (s < 25)%Q))
    /\ (Core.Aggregator.classify 60 = Core.Aggregator.ConfirmedMule
        /\ Core.Aggregator.classify (59999 # 1000) = Core.Aggregator.Suspicious
        /\ Core.Aggregator.classify 25 = Core.Aggregator.Suspicious
        /\ Core.Aggregator.classify (24999 # 1000) = Core.Aggregator.Clean)
    /\ ((AccountsTable.ScorePill s = AccountsTable.red <-> (70 <= s)%Q)
        /\ (AccountsTable.ScorePill s = AccountsTable.orange
            <-> (40 <= s /\ s < 70)%Q)
        /\ (AccountsTable.ScorePill s = AccountsTable.yellow <-> (s < 40)%Q))
    /\ RingsTable.ScorePill s = AccountsTable.ScorePill s
    /\ WhatIfSimulator.score_bar_band s = AccountsTable.ScorePill s.
Proof.
  intros s. split; [|split; [|split; [|split]]].
  - apply (three_bands 60 25 s Core.Aggregator.ConfirmedMule
             Core.Aggregator.Suspicious Core.Aggregator.Clean);
      [lra | discriminate ..].
  - repeat split.
  - apply (three_bands 70 40 s AccountsTable.red AccountsTable.orange
             AccountsTable.yellow); [lra | discriminate ..].
  - reflexivity.
  - reflexivity.
Qed.

(** ** Pattern types *)

Lemma assoc_In k : forall l,
  (exists c, RingsTable.assoc k l = Some c) <-> In k (map fst l).
Proof.
  induction l as [|[k' v] rest IH]; simpl.
  - split; [intros [c H]; discriminate | contradiction].
  - destruct (k =? k') eqn:E.
    + apply String.eqb_eq in E; subst. split; eauto.
    + apply String.eqb_neq in E. rewrite IH. split; [auto|].
      intros [H|H]; [congruence | exact H].
Qed.

(** C4, as stated, fails at both ends of the dashboard: the pattern badge
    has a style of its own for [smurfing_fan_in], which is none of the
    four, and a ring with that pattern type is exported with it. *)
Lemma C4_counterexample :
  ~ (forall p c,
        RingsTable.cls (RingsTable.PatternBadge (Some p)) = RingsTable.Own c ->
        In p Core.pattern_types)
  /\ ~ (forall results out r,
          JsonOutputPanel.outputJson results = Ok out ->
          In r (JsonOutputPanel.section "fraud_rings" out) ->
          In (JsonOutputPanel.field "pattern_type" r) (map JStr Core.pattern_types)).
Proof.
  split.
  - intros H. specialize (H "smurfing_fan_in" _ eq_refl).
    simpl in H. repeat (destruct H as [H|H]; [discriminate|]). exact H.
  - intros H.
    specialize (H Samples.one_ring _
                  (JObj [ ("ring_id", JStr "RING_001");
                          ("member_accounts", JArr [JStr "ACC_001"; JStr "ACC_002"]);
                          ("pattern_type", JStr "smurfing_fan_in");
                          ("risk_score", JNum 80%Q) ])
                  eq_refl (or_introl eq_refl)).
    simpl in H. repeat (destruct H as [H|H]; [discriminate|]). exact H.
Qed.

(** C4, amended: the pattern type of an exported ring is the ring's
    [pattern_type] if that is set, else its [type], else the text
    [unknown], so it is always set but not confined to four values; the
    pattern badge has a style of its own for exactly the six identifiers
    [cycle], [cyclic_flow], [smurfing_fan_in], [smurfing_fan_out],
    [shell_network] and [shell_chain], and shows every other identifier
    that is not the name of a member all objects inherit (such as
    [constructor] or [toString]) in the neutral style, [fan_in], [fan_out]
    and [shell] among them. *)
Theorem C4_pattern_type_is_passed_through :
  forall results out r,
    JsonOutputPanel.outputJson results = Ok out ->
    In r (JsonOutputPanel.section "fraud_rings" out) ->
    (exists src,
        In src (JsonOutputPanel.section "fraud_rings" results)
        /\ JsonOutputPanel.field "pattern_type" r
           = or_else (or_else (JsonOutputPanel.field "pattern_type" src)
                              (JsonOutputPanel.field "type" src))
                     (JStr "unknown"))
    /\ truthy (JsonOutputPanel.field "pattern_type" r) = true
    /\ (forall p,
           (exists c, RingsTable.cls (RingsTable.PatternBadge (Some p)) = RingsTable.Own c)
           <-> In p [ "cycle"; "cyclic_flow"; "smurfing_fan_in"; "smurfing_fan_out";
                      "shell_network"; "shell_chain" ])
    /\ (forall p,
           ~ In p [ "cycle"; "cyclic_flow"; "smurfing_fan_in"; "smurfing_fan_out";
                    "shell_network"; "shell_chain" ] ->
           ~ In p RingsTable.object_prototype ->
           RingsTable.cls (RingsTable.PatternBadge (Some p)) = RingsTable.Neutral)
    /\ (forall p, In p Core.pattern_types -> p <> "cycle" ->
           RingsTable.cls (RingsTable.PatternBadge (Some p)) = RingsTable.Neutral).
Proof.
  intros results out r Hout Hin.
  destruct (exported_ring _ _ _ Hout Hin) as [src [Hsec Hsrc]].
  apply ring_out_shape in Hsrc. subst r.
  split; [exists src; split; [exact Hsec | reflexivity]|].
  split; [simpl; now apply truthy_or_else|].
  split; [|split].
  - intros p. change ["cycle"; "cyclic_flow"; "smurfing_fan_in"; "smurfing_fan_out";
                      "shell_network"; "shell_chain"]
      with (map fst RingsTable.colors).
    rewrite <- assoc_In. unfold RingsTable.PatternBadge. cbn [RingsTable.cls].
    destruct (RingsTable.assoc p RingsTable.colors) as [c|].
    + split; eauto.
    + split; intros [c H]; [|discriminate].
      destruct (RingsTable.mem p RingsTable.object_prototype); discriminate.
  - intros p Hp Hq.
    change ["cycle"; "cyclic_flow"; "smurfing_fan_in"; "smurfing_fan_out";
            "shell_network"; "shell_chain"]
      with (map fst RingsTable.colors) in Hp.
    unfold RingsTable.PatternBadge. cbn [RingsTable.cls].
    destruct (RingsTable.assoc p RingsTable.colors) as [c|] eqn:E.
    + exfalso. apply Hp. apply assoc_In. eauto.
    + destruct (RingsTable.mem p RingsTable.object_prototype) eqn:M;
        [|reflexivity].
      exfalso. apply Hq. unfold RingsTable.mem in M.
      apply existsb_exists in M. destruct M as [x [Hx Ex]].
      apply String.eqb_eq in Ex. now subst.
  - intros p Hp Hne. simpl in Hp.
    destruct Hp as [<-|[<-|[<-|[<-|[]]]]]; [congruence | reflexivity ..].
Qed.

(** The theorem at the sample result. *)
Lemma C4_witness :
  JsonOutputPanel.outputJson Samples.one_ring
  = Ok (JObj [ ("suspicious_accounts", JArr []);
               ("fraud_rings",
                 JArr [ JObj [ ("ring_id", JStr "RING_001");
                               ("member_accounts",
                                 JArr [JStr "ACC_001"; JStr "ACC_002"]);
                               ("pattern_type", JStr "smurfing_fan_in");
                               ("risk_score", JNum 80%Q) ] ]);
               ("summary",
                 JObj [ ("total_accounts_analyzed", JNum 0%Q);
                        ("suspicious_accounts_flagged", JNum 0%Q);
                        ("fraud_rings_detected", JNum 1%Q);
                        ("processing_time_seconds", JNum 0%Q) ]) ])
  /\ truthy (JStr "smurfing_fan_in") = true.
Proof.
  split; [reflexivity|].
  exact (proj1 (proj2
    (C4_pattern_type_is_passed_through Samples.one_ring _
       (JObj [ ("ring_id", JStr "RING_001");
               ("member_accounts", JArr [JStr "ACC_001"; JStr "ACC_002"]);
               ("pattern_type", JStr "smurfing_fan_in");
               ("risk_score", JNum 80%Q) ])
       eq_refl (or_introl eq_refl)))).
Defined.

(** ** The highlighted JSON text *)

(** C9 (defect in the code): for the JSON text of a result with one
    account, the spans do not add up to the text.  The match of the string
    ["STANDALONE"] takes in the line break and indentation behind it, which
    no span carries, so the closing brace follows the string directly and
    the text shown is one line short of the 17 lines the gutter numbers. *)
Theorem C9_spans_drop_whitespace_after_a_string :
  String.concat "" (map SyntaxJson.text (SyntaxJson.tokens Samples.rawJson))
  = Samples.rawJson_shown
  /\ Samples.rawJson_shown <> Samples.rawJson
  /\ JsonOutputPanel.lineCount Samples.rawJson = 17%nat
  /\ JsonOutputPanel.lineCount Samples.rawJson_shown = 16%nat.
Proof.
  split; [vm_compute; reflexivity|].
  split; [|split; vm_compute; reflexivity].
  intros H. apply (f_equal String.length) in H. vm_compute in H. discriminate.
Qed.

(** ** The network statistics of the disruption panel *)



(** ** Stage isolation in the result area *)













Section AppFacts.

Context {Stats Graph Rings Card Detail Crime WhatIf N8n : Type}.
Variable StatsGrid : JsVal -> result Stats.
Variable GraphView : JsVal -> result Graph.
Variable RingsTable : JsVal -> JsVal -> JsVal -> result Rings.
Variable CircuitCard : JsVal -> nat -> result Card.
Variable RingDisruptionDetail : JsVal -> result Detail.
Variable CrimeTeamPanel : JsVal -> result Crime.
Variable WhatIfSimulator : JsVal -> JsVal -> JsVal -> result WhatIf.
Variable N8nPanel : JsVal -> result N8n.










End AppFacts.




(** ** The what-if simulation *)

Lemma filter_keeps_all {A} (f : A -> bool) : forall l,
  (forall x, f x = true) -> filter f l = l.
Proof.
  intros l H. induction l as [|a l IH]; simpl; [reflexivity|].
  rewrite H. now f_equal.
Qed.

Lemma remove_nothing g :
  Core.CounterfactualSimulator.remove_nodes [] g = g.
Proof.
  destruct g as [ns es]. unfold Core.CounterfactualSimulator.remove_nodes; simpl.
  rewrite !filter_keeps_all by reflexivity. reflexivity.
Qed.

Lemma pct_same x : (Core.CounterfactualSimulator.pct x x == 0)%Q.
Proof.
  unfold Core.CounterfactualSimulator.pct.
  destruct (Qeq_bool x 0); [reflexivity|].
  unfold Qdiv. ring.
Qed.

(** C7, as stated, fails: [runSimulation] never sends a request with an
    empty removal set.  With nothing selected it returns before it sends
    anything, and otherwise the nodes of its request are the selection. *)
Lemma C7_counterexample :
  ~ (exists (API_BASE : string)
            (server : WhatIfSimulator.request -> WhatIfSimulator.response)
            (st : WhatIfSimulator.state),
        In (WhatIfSimulator.whatif_request API_BASE [])
           (snd (WhatIfSimulator.runSimulation API_BASE server st))).
Proof.
  intros [api [server [st Hin]]].
  unfold WhatIfSimulator.runSimulation in Hin.
  destruct (WhatIfSimulator.selectedNodes st) as [|n ns]; [exact Hin|].
  destruct (server (WhatIfSimulator.whatif_request api (n :: ns)));
    simpl in Hin; destruct Hin as [H|[]];
    apply (f_equal WhatIfSimulator.body) in H; discriminate.
Qed.

(** C7, amended: removing the empty node set is an identity operation of
    the simulator (the after snapshot is the before snapshot, every delta
    is zero, no flow and no transaction is disrupted), but the what-if
    interface does not issue such a request: with an empty selection the
    Run button is not shown and [runSimulation] sends nothing and leaves
    the state as it is; with a non-empty selection it sends exactly one
    request, whose [nodes] are the selection. *)
Theorem C7_empty_removal_is_identity_and_is_never_sent :
  forall (g : Core.CounterfactualSimulator.Graph)
         (API_BASE : string)
         (server : WhatIfSimulator.request -> WhatIfSimulator.response)
         (st : WhatIfSimulator.state),
    (WhatIfSimulator.selectedNodes st = [] ->
       WhatIfSimulator.runSimulation API_BASE server st = (st, [])
       /\ WhatIfSimulator.run_button_shown st = false)
    /\ (WhatIfSimulator.selectedNodes st <> [] ->
          snd (WhatIfSimulator.runSimulation API_BASE server st)
          = [WhatIfSimulator.whatif_request API_BASE (WhatIfSimulator.selectedNodes st)]
          /\ WhatIfSimulator.run_button_shown st = true)
    /\ (let r := Core.CounterfactualSimulator.simulate g [] in
        Core.CounterfactualSimulator.after r = Core.CounterfactualSimulator.before r
        /\ Core.CounterfactualSimulator.all_zero (Core.CounterfactualSimulator.change r)
        /\ (Core.CounterfactualSimulator.disrupted_flow r == 0)%Q
        /\ Core.CounterfactualSimulator.disrupted_transactions r = 0%nat).
Proof.
  intros g api server st. split; [|split].
  - intros Hsel. unfold WhatIfSimulator.runSimulation, WhatIfSimulator.run_button_shown.
    rewrite Hsel. auto.
  - intros Hsel. unfold WhatIfSimulator.runSimulation, WhatIfSimulator.run_button_shown.
    destruct (WhatIfSimulator.selectedNodes st) as [|n ns]; [congruence|].
    split; [|reflexivity].
    destruct (server (WhatIfSimulator.whatif_request api (n :: ns))); reflexivity.
  - unfold Core.CounterfactualSimulator.simulate. rewrite remove_nothing. simpl.
    split; [reflexivity|]. split.
    + unfold Core.CounterfactualSimulator.all_zero, Core.CounterfactualSimulator.delta.
      simpl. repeat split; apply pct_same.
    + split; [ring | apply Nat.sub_diag].
Qed.

(** The theorem at the initial state, and after one account is selected. *)
Lemma C7_witness :
  WhatIfSimulator.selectedNodes WhatIfSimulator.initial = []
  /\ WhatIfSimulator.runSimulation "" Samples.echo WhatIfSimulator.initial
     = (WhatIfSimulator.initial, [])
  /\ WhatIfSimulator.selectedNodes
       (WhatIfSimulator.toggleNode "ACC_001" WhatIfSimulator.initial) <> []
  /\ snd (WhatIfSimulator.runSimulation "" Samples.echo
            (WhatIfSimulator.toggleNode "ACC_001" WhatIfSimulator.initial))
     = [WhatIfSimulator.whatif_request "" ["ACC_001"]].
Proof.
  assert (H1 : WhatIfSimulator.selectedNodes WhatIfSimulator.initial = [])
    by reflexivity.
  assert (H2 : WhatIfSimulator.selectedNodes
                 (WhatIfSimulator.toggleNode "ACC_001" WhatIfSimulator.initial) <> [])
    by (simpl; discriminate).
  split; [exact H1|]. split.
  - exact (proj1 (proj1 (C7_empty_removal_is_identity_and_is_never_sent
                           Samples.triangle "" Samples.echo WhatIfSimulator.initial) H1)).
  - split; [exact H2|].
    exact (proj1 (proj1 (proj2 (C7_empty_removal_is_identity_and_is_never_sent
                                  Samples.triangle "" Samples.echo
                                  (WhatIfSimulator.toggleNode "ACC_001"
                                     WhatIfSimulator.initial))) H2)).
Defined.

(** ** The score chart *)

Lemma chart_of_accounts l :
  l <> [] ->
  AgentsChart.render (JArr l)
  = (labels <- mapM (fun a => get a "account_id") (firstn 15 l) ;;
     g <- mapM (AgentsChart.component "graph") (firstn 15 l) ;;
     m <- mapM (AgentsChart.component "ml") (firstn 15 l) ;;
     q <- mapM (AgentsChart.component "quantum") (firstn 15 l) ;;
     Ok (AgentsChart.Bar
           {| AgentsChart.labels := labels;
              AgentsChart.datasets :=
                [ {| AgentsChart.label := "Graph"; AgentsChart.data := g |};
                  {| AgentsChart.label := "ML"; AgentsChart.data := m |};
                  {| AgentsChart.label := "Quantum"; AgentsChart.data := q |} ];
              AgentsChart.y_max := 100%Q |})).
Proof. destruct l; [congruence | reflexivity]. Qed.

(** ** Accounts in no ring *)

Lemma ring_key_not_sentinel n k :
  GraphView.ring_key n = Some k -> k <> "" /\ k <> "N/A" /\ k <> "STANDALONE".
Proof.
  unfold GraphView.ring_key. destruct (GraphView.ring_id n) as [r|]; [|discriminate].
  destruct (r =? "") eqn:E1; [discriminate|].
  destruct (r =? "N/A") eqn:E2; [discriminate|].
  destruct (r =? "STANDALONE") eqn:E3; [discriminate|]. simpl.
  intros H; inversion H; subst.
  apply String.eqb_neq in E1, E2, E3. auto.
Qed.

Lemma members_of_file_under k k0 i sc : forall rings,
  GraphView.members_of k (GraphView.file_under k0 i sc rings)
  = (GraphView.members_of k rings ++ (if k =? k0 then [i] else []))%list.
Proof.
  induction rings as [|[k' g] rest IH]; simpl.
  - destruct (k =? k0); reflexivity.
  - destruct (k0 =? k') eqn:E0; simpl.
    + apply String.eqb_eq in E0; subst k'.
      destruct (k =? k0) eqn:E; [reflexivity | now rewrite app_nil_r].
    + destruct (k =? k') eqn:E; [|exact IH].
      destruct (k =? k0) eqn:E'; [|now rewrite app_nil_r].
      apply String.eqb_eq in E, E'. subst. rewrite String.eqb_refl in E0. discriminate.
Qed.

Lemma keys_file_under k0 i sc : forall rings k,
  In k (map fst (GraphView.file_under k0 i sc rings)) ->
  k = k0 \/ In k (map fst rings).
Proof.
  induction rings as [|[k' g] rest IH]; simpl; intros k H.
  - destruct H as [H|[]]; auto.
  - destruct (k0 =? k'); simpl in H.
    + destruct H as [H|H]; auto.
    + destruct H as [H|H]; auto. destruct (IH _ H); auto.
Qed.

(** What the grouping loop leaves under each key. *)
Lemma group_nodes_members : forall nodes acc rings,
  GraphView.group_nodes nodes acc = Ok rings ->
  forall k,
    GraphView.members_of k rings
    = (GraphView.members_of k acc
       ++ map GraphView.id (filter (GraphView.filed_under k) nodes))%list.
Proof.
  induction nodes as [|n rest IH]; simpl; intros acc rings H k.
  - inversion H; subst. now rewrite app_nil_r.
  - unfold GraphView.filed_under at 1. revert H.
    destruct (GraphView.ring_key n) as [k0|] eqn:Ek; intros H.
    + match type of H with
      | (if ?b then _ else _) = _ => destruct b; [discriminate|]
      end.
      rewrite (IH _ _ H k), members_of_file_under.
      destruct (k =? k0); simpl; rewrite <- app_assoc; reflexivity.
    + now apply IH.
Qed.

Lemma group_nodes_keys : forall nodes acc rings,
  GraphView.group_nodes nodes acc = Ok rings ->
  forall k, In k (map fst rings) ->
    In k (map fst acc) \/ exists n, In n nodes /\ GraphView.ring_key n = Some k.
Proof.
  induction nodes as [|n rest IH]; simpl; intros acc rings H k Hk.
  - inversion H; subst. now left.
  - revert H. destruct (GraphView.ring_key n) as [k0|] eqn:Ek; intros H.
    + match type of H with
      | (if ?b then _ else _) = _ => destruct b; [discriminate|]
      end.
      destruct (IH _ _ H k Hk) as [Hin | [n' [Hn' Hkey]]].
      * apply keys_file_under in Hin. destruct Hin as [-> | Hin]; [|now left].
        right. exists n. auto.
      * right. exists n'. auto.
    + destruct (IH _ _ H k Hk) as [Hin | [n' [Hn' Hkey]]]; [now left|].
      right. exists n'. auto.
Qed.

(** C10: when every suspicious account of the result has a ring id that
    is a string, [null] or missing, every account of the exported JSON
    output has a ring id that is a non-empty string: each account is
    exported with its own ring id, or with the text [STANDALONE] when it
    has none.  In the search index of the graph the ring groups have
    neither [STANDALONE] nor [N/A] as a key: each group holds exactly the
    nodes whose ring id is its key, and a node marked [STANDALONE] or
    [N/A], or without a ring id, is filed under no key. *)
Theorem C10_exported_ring_id_is_a_string_and_standalone_is_no_ring :
  forall (results out : JsVal) (nodes : list GraphView.node)
         (rings : list (string * GraphView.group)),
    JsonOutputPanel.outputJson results = Ok out ->
    (forall src, In src (JsonOutputPanel.section "suspicious_accounts" results) ->
       nullish (JsonOutputPanel.field "ring_id" src) = true
       \/ exists s, JsonOutputPanel.field "ring_id" src = JStr s) ->
    GraphView.rings_of nodes = Ok rings ->
    (forall a, In a (JsonOutputPanel.section "suspicious_accounts" out) ->
       exists s, JsonOutputPanel.field "ring_id" a = JStr s /\ s <> "")
    /\ (forall src, In src (JsonOutputPanel.section "suspicious_accounts" results) ->
          exists a,
            In a (JsonOutputPanel.section "suspicious_accounts" out)
            /\ JsonOutputPanel.account_out src = Ok a
            /\ JsonOutputPanel.field "ring_id" a
               = (if truthy (JsonOutputPanel.field "ring_id" src)
                  then JsonOutputPanel.field "ring_id" src
                  else JStr "STANDALONE"))
    /\ ~ In "STANDALONE" (map fst rings)
    /\ ~ In "N/A" (map fst rings)
    /\ (forall k, GraphView.members_of k rings
                  = map GraphView.id (filter (GraphView.filed_under k) nodes))
    /\ (forall n k,
           GraphView.ring_id n = None \/ GraphView.ring_id n = Some "STANDALONE"
           \/ GraphView.ring_id n = Some "N/A" ->
           GraphView.filed_under k n = false).
Proof.
  intros results out nodes rings Hout Htyped Hrings.
  split; [|split; [|split; [|split; [|split]]]].
  - intros a Ha. destruct (exported_account _ _ _ Hout Ha) as [src [Hsrc Hsa]].
    apply account_out_shape in Hsa. subst a.
    change (JsonOutputPanel.field "ring_id" (JObj _))
      with (or_else (JsonOutputPanel.field "ring_id" src) (JStr "STANDALONE")).
    unfold or_else.
    destruct (Htyped src Hsrc) as [Hn | [s Hs]].
    + destruct (JsonOutputPanel.field "ring_id" src); try discriminate;
        exists "STANDALONE"; split; auto; discriminate.
    + rewrite Hs. simpl. destruct (s =? "") eqn:E; simpl.
      * exists "STANDALONE"; split; auto; discriminate.
      * exists s. split; [reflexivity|]. now apply String.eqb_neq.
  - intros src Hsrc. apply outputJson_sections in Hout. destruct Hout as [Hacc _].
    destruct (mapM_covers _ _ _ _ Hacc Hsrc) as [a [Ha Hsa]].
    exists a. split; [exact Ha|]. split; [exact Hsa|].
    apply account_out_shape in Hsa. subst a. reflexivity.
  - intros Hin. destruct (group_nodes_keys _ _ _ Hrings _ Hin) as [[] | [n [_ Hk]]].
    apply ring_key_not_sentinel in Hk. destruct Hk as [_ [_ Hk]]. congruence.
  - intros Hin. destruct (group_nodes_keys _ _ _ Hrings _ Hin) as [[] | [n [_ Hk]]].
    apply ring_key_not_sentinel in Hk. destruct Hk as [_ [Hk _]]. congruence.
  - intros k. apply (group_nodes_members _ _ _ Hrings k).
  - intros n k H. unfold GraphView.filed_under, GraphView.ring_key.
    destruct H as [-> | [-> | ->]]; reflexivity.
Qed.

(** The theorem for the sample result, whose account has no ring, and the
    sample graph nodes. *)
Lemma C10_witness :
  JsonOutputPanel.outputJson Samples.one_account = Ok Samples.one_account_output
  /\ (forall src,
        In src (JsonOutputPanel.section "suspicious_accounts" Samples.one_account) ->
        nullish (JsonOutputPanel.field "ring_id" src) = true
        \/ exists s, JsonOutputPanel.field "ring_id" src = JStr s)
  /\ GraphView.rings_of Samples.graph_nodes
     = Ok [ ("RING_001",
             {| GraphView.members := ["ACC_001"]; GraphView.scores := [80%Q] |}) ]
  /\ (forall a,
        In a (JsonOutputPanel.section "suspicious_accounts" Samples.one_account_output) ->
        exists s, JsonOutputPanel.field "ring_id" a = JStr s /\ s <> "")
  /\ ~ In "STANDALONE"
         (map fst [ ("RING_001",
                     {| GraphView.members := ["ACC_001"];
                        GraphView.scores := [80%Q] |}) ]).
Proof.
  assert (H1 : JsonOutputPanel.outputJson Samples.one_account
               = Ok Samples.one_account_output) by reflexivity.
  assert (H2 : forall src,
             In src (JsonOutputPanel.section "suspicious_accounts" Samples.one_account) ->
             nullish (JsonOutputPanel.field "ring_id" src) = true
             \/ exists s, JsonOutputPanel.field "ring_id" src = JStr s).
  { simpl. intros src [<- | []]. left. reflexivity. }
  assert (H3 : GraphView.rings_of Samples.graph_nodes
               = Ok [ ("RING_001",
                       {| GraphView.members := ["ACC_001"];
                          GraphView.scores := [80%Q] |}) ]) by reflexivity.
  destruct (C10_exported_ring_id_is_a_string_and_standalone_is_no_ring
              Samples.one_account Samples.one_account_output
              Samples.graph_nodes _ H1 H2 H3) as [K1 [_ [K3 _]]].
  repeat split; assumption.
Defined.

(* ====================================================================== *)
(** * Further properties of the components *)
(* ====================================================================== *)

(** ** The tokenizer, on every text *)

Lemma join_app l1 l2 : Measure.join (l1 ++ l2) = Measure.join l1 ++ Measure.join l2.
Proof.
  induction l1 as [|x l1 IH]; simpl; [reflexivity|].
  now rewrite IH, append_assoc.
Qed.

Lemma concat_is_join : forall l, String.concat "" l = Measure.join l.
Proof.
  induction l as [|x l IH]; [reflexivity|].
  destruct l as [|y l]; simpl in *; [now rewrite append_nil_r|].
  now rewrite IH.
Qed.

Lemma drop_space_app a b :
  Measure.drop_space (a ++ b) = Measure.drop_space a ++ Measure.drop_space b.
Proof.
  induction a as [|c a IH]; simpl; [reflexivity|].
  destruct (SyntaxJson.is_space c); simpl; now rewrite IH.
Qed.

Lemma take_while_space_dropped : forall s sp r,
  SyntaxJson.take_while SyntaxJson.is_space s = (sp, r) -> Measure.drop_space sp = "".
Proof.
  induction s as [|c s IH]; simpl; intros sp r H.
  - inversion H; reflexivity.
  - destruct (SyntaxJson.is_space c) eqn:E.
    + destruct (SyntaxJson.take_while SyntaxJson.is_space s) as [a b] eqn:T.
      inversion H; subst. simpl. rewrite E. eapply IH; reflexivity.
    + inversion H; reflexivity.
Qed.

Lemma ws_part_text s :
  Measure.join (map SyntaxJson.text (SyntaxJson.ws_part s)) = s.
Proof. destruct s; simpl; [reflexivity | now rewrite append_nil_r]. Qed.

Lemma split_one {A} (a t : A) l1 l2 :
  [a] = (l1 ++ t :: l2)%list -> l1 = [] /\ t = a /\ l2 = [].
Proof.
  destruct l1 as [|x l1]; simpl; intros H; inversion H; subst; auto.
  destruct l1; discriminate.
Qed.

Lemma split_two {A} (a b t : A) l1 l2 :
  [a; b] = (l1 ++ t :: l2)%list ->
  (l1 = [] /\ t = a /\ l2 = [b]) \/ (l1 = [a] /\ t = b /\ l2 = []).
Proof.
  destruct l1 as [|x l1]; simpl; intros H; inversion H; subst; auto.
  right. match goal with K : [b] = _ |- _ => apply split_one in K end.
  intuition congruence.
Qed.

(** What the spans of one match show: the match itself, but for the
    whitespace a string takes in behind it. *)
Lemma parts_of_match prev s m rest :
  SyntaxJson.match_at prev s = Some (m, rest) ->
  Measure.drop_space (Measure.join (map SyntaxJson.text (SyntaxJson.parts_of m)))
  = Measure.drop_space (SyntaxJson.m0 m)
  /\ Forall (fun t => SyntaxJson.text t <> "") (SyntaxJson.parts_of m)
  /\ (forall l1 t l2, SyntaxJson.parts_of m = (l1 ++ t :: l2)%list ->
        Measure.is_key t = true -> Measure.starts_with_colon l2 = true)
  /\ (forall t, In t (SyntaxJson.parts_of m) -> SyntaxJson.type t <> SyntaxJson.ws).
Proof.
  unfold SyntaxJson.match_at, SyntaxJson.first_of.
  destruct (SyntaxJson.alt_string s) as [[ms rs]|] eqn:A1.
  { intros H; inversion H; subst ms rs; clear H.
    unfold SyntaxJson.alt_string in A1.
    destruct s as [|c r]; [discriminate|].
    destruct (Ascii.eqb c SyntaxJson.quote); [|discriminate].
    destruct (SyntaxJson.string_body r) as [[b r1]|]; [|discriminate].
    destruct (SyntaxJson.take_while SyntaxJson.is_space r1) as [sp r2] eqn:T.
    apply take_while_space_dropped in T.
    assert (K : forall m', Some (m', rest) = Some (m, rest) -> m' = m)
      by (intros m' E; now inversion E).
    destruct r2 as [|x r3].
    - inversion A1; subst m; simpl.
      rewrite append_nil_r, drop_space_app, T, append_nil_r.
      split; [reflexivity|]. split; [repeat constructor; discriminate|].
      split.
      + intros l1 t l2 E Hk. apply split_one in E. destruct E as [_ [-> _]].
        discriminate.
      + intros t [<-|[]]; discriminate.
    - destruct (Ascii.eqb x ":") eqn:Ex.
      + apply Ascii.eqb_eq in Ex; subst x. inversion A1; subst m; simpl.
        rewrite !drop_space_app, T. simpl.
        split; [reflexivity|]. split; [repeat constructor; discriminate|].
        split.
        * intros l1 t l2 E Hk. apply split_two in E.
          destruct E as [[_ [_ ->]] | [_ [-> _]]]; [reflexivity | discriminate].
        * intros t [<-|[<-|[]]]; discriminate.
      + assert (Hm : m = {| SyntaxJson.m0 := String c b ++ sp;
                            SyntaxJson.m1 := Some (String c b);
                            SyntaxJson.m2 := None; SyntaxJson.m3 := None;
                            SyntaxJson.m4 := None; SyntaxJson.m5 := None;
                            SyntaxJson.m6 := None |}).
        { assert (Hx : x <> ":"%char)
            by (intros ->; rewrite Ascii.eqb_refl in Ex; discriminate).
          destruct x as [[] [] [] [] [] [] [] []];
            try (inversion A1; reflexivity); now elim Hx. }
        subst m; simpl.
        rewrite append_nil_r, drop_space_app, T, append_nil_r.
        split; [reflexivity|]. split; [repeat constructor; discriminate|].
        split.
        * intros l1 t l2 E Hk. apply split_one in E. destruct E as [_ [-> _]].
          discriminate.
        * intros t [<-|[]]; discriminate. }
  assert (Single : forall ty txt,
             txt <> "" -> ty <> SyntaxJson.key -> ty <> SyntaxJson.ws ->
             Measure.drop_space (Measure.join (map SyntaxJson.text [SyntaxJson.tok ty txt]))
             = Measure.drop_space txt
             /\ Forall (fun t => SyntaxJson.text t <> "") [SyntaxJson.tok ty txt]
             /\ (forall l1 t l2, [SyntaxJson.tok ty txt] = (l1 ++ t :: l2)%list ->
                   Measure.is_key t = true -> Measure.starts_with_colon l2 = true)
             /\ (forall t, In t [SyntaxJson.tok ty txt] -> SyntaxJson.type t <> SyntaxJson.ws)).
  { intros ty txt Hne Hk Hw. simpl. rewrite append_nil_r.
    split; [reflexivity|]. split; [repeat constructor; exact Hne|]. split.
    - intros l1 t l2 E Hkey. apply split_one in E. destruct E as [_ [-> _]].
      unfold Measure.is_key in Hkey. simpl in Hkey. destruct ty; congruence.
    - intros t [<-|[]]; exact Hw. }
  destruct (SyntaxJson.alt_number s) as [[mn rn]|] eqn:A2.
  { intros H; inversion H; subst mn rn; clear H.
    pose proof (alt_number_split _ _ _ A2) as [_ Hne].
    unfold SyntaxJson.alt_number in A2.
    destruct (match s with String "-" r => ("-", r) | _ => (EmptyString, s) end) as [sg r0].
    destruct (SyntaxJson.take_while SyntaxJson.is_digit r0) as [int r1].
    destruct int; [discriminate|].
    destruct (SyntaxJson.opt_fraction r1) as [frac r2].
    destruct (SyntaxJson.opt_exponent r2) as [ex r3].
    inversion A2; subst m. simpl SyntaxJson.parts_of. simpl SyntaxJson.m0.
    simpl SyntaxJson.m0 in Hne.
    apply Single; [exact Hne | discriminate | discriminate]. }
  destruct (SyntaxJson.alt_bool prev s) as [[mb rb]|] eqn:A3.
  { intros H; inversion H; subst mb rb; clear H.
    unfold SyntaxJson.alt_bool in A3.
    destruct (SyntaxJson.word_at "true" prev s).
    - inversion A3; subst m. apply Single; discriminate.
    - destruct (SyntaxJson.word_at "false" prev s); [|discriminate].
      inversion A3; subst m. apply Single; discriminate. }
  destruct (SyntaxJson.alt_null prev s) as [[ml rl]|] eqn:A4.
  { intros H; inversion H; subst ml rl; clear H.
    unfold SyntaxJson.alt_null in A4.
    destruct (SyntaxJson.word_at "null" prev s); [|discriminate].
    inversion A4; subst m. apply Single; discriminate. }
  unfold SyntaxJson.alt_punct. destruct s as [|c r]; [discriminate|].
  destruct (SyntaxJson.is_structural c); [|discriminate].
  intros H; inversion H; subst m. apply Single; discriminate.
Qed.

Lemma exec_match : forall s prev gap m rest,
  SyntaxJson.exec prev s = Some (gap, m, rest) ->
  exists prev' s', SyntaxJson.match_at prev' s' = Some (m, rest).
Proof.
  induction s as [|c r IH]; intros prev gap m rest H; simpl in H.
  - destruct (SyntaxJson.match_at prev "") as [[m' r']|] eqn:E; [|discriminate].
    inversion H; subst. eauto.
  - destruct (SyntaxJson.match_at prev (String c r)) as [[m' r']|] eqn:E.
    + inversion H; subst. eauto.
    + destruct (SyntaxJson.exec (Some c) r) as [[[g' m'] r']|] eqn:X; [|discriminate].
      inversion H; subst. eapply IH; eauto.
Qed.

(** X1: whatever the text, the spans of [SyntaxJson] show every character
    of it that is no whitespace, in order, and nothing else: the text shown
    and the text given are the same once whitespace is taken out. *)
Theorem X1_tokenizer_loses_nothing_but_whitespace :
  forall json : string,
    Measure.drop_space (SyntaxJson.rendered json) = Measure.drop_space json.
Proof.
  intros json. unfold SyntaxJson.rendered, SyntaxJson.tokens.
  rewrite concat_is_join.
  generalize (@None ascii) as prev.
  assert (H : forall fuel s prev,
             (String.length s < fuel)%nat ->
             Measure.drop_space
               (Measure.join (map SyntaxJson.text (SyntaxJson.loop fuel prev s)))
             = Measure.drop_space s).
  { induction fuel as [|fuel IH]; intros s prev Hlen; [lia|]. simpl.
    destruct (SyntaxJson.exec prev s) as [[[gap m] rest]|] eqn:E.
    - pose proof (exec_rest_shorter _ _ _ _ _ E) as Hlt.
      destruct (exec_match _ _ _ _ _ E) as [p' [s' Hm]].
      apply parts_of_match in Hm. destruct Hm as [Hm _].
      apply exec_split in E. destruct E as [Hs _].
      rewrite !map_app, !join_app, ws_part_text, !drop_space_app.
      rewrite Hm, IH by lia.
      replace (Measure.drop_space s)
        with (Measure.drop_space (gap ++ SyntaxJson.m0 m ++ rest))
        by (now rewrite <- Hs).
      now rewrite !drop_space_app.
    - now rewrite ws_part_text. }
  intros prev. apply H. lia.
Qed.

Lemma ws_part_facts s :
  Forall (fun t => SyntaxJson.text t <> "") (SyntaxJson.ws_part s)
  /\ (forall t, In t (SyntaxJson.ws_part s) -> Measure.is_key t = false).
Proof.
  destruct s; simpl; split.
  - constructor.
  - intros t [].
  - constructor; [discriminate | constructor].
  - intros t [<-|[]]; reflexivity.
Qed.

(** X2: no span of [SyntaxJson] is empty, whatever the text. *)
Theorem X2_tokenizer_emits_no_empty_span :
  forall json : string,
    Forall (fun t => SyntaxJson.text t <> "") (SyntaxJson.tokens json).
Proof.
  intros json. unfold SyntaxJson.tokens.
  generalize (S (String.length json)) as fuel. generalize (@None ascii) as prev.
  intros prev fuel. revert prev json.
  induction fuel as [|fuel IH]; intros prev s; simpl; [constructor|].
  destruct (SyntaxJson.exec prev s) as [[[gap m] rest]|] eqn:E.
  - destruct (exec_match _ _ _ _ _ E) as [p' [s' Hm]].
    apply parts_of_match in Hm. destruct Hm as [_ [Hm _]].
    apply Forall_app. split; [apply ws_part_facts|].
    apply Forall_app. split; [exact Hm | apply IH].
  - apply ws_part_facts.
Qed.

Lemma colon_follows_app a b :
  Measure.colon_follows_keys a -> Measure.colon_follows_keys b ->
  Measure.colon_follows_keys (a ++ b).
Proof.
  intros Ha Hb l1 t l2 E Hk.
  apply app_eq_app in E. destruct E as [l [[E1 E2] | [E1 E2]]].
  - destruct l as [|x l].
    + rewrite app_nil_r in E1. subst l1. simpl in E2.
      apply (Hb [] t l2); auto.
    + simpl in E2. inversion E2; subst x l2.
      specialize (Ha l1 t l E1 Hk).
      destruct l; [discriminate | exact Ha].
  - subst l1. apply (Hb l t l2); auto.
Qed.

Lemma colon_follows_no_key l :
  (forall t, In t l -> Measure.is_key t = false) -> Measure.colon_follows_keys l.
Proof.
  intros H l1 t l2 E Hk. rewrite (H t) in Hk; [discriminate|].
  rewrite E. apply in_or_app. right. now left.
Qed.

(** X3: in the spans of [SyntaxJson], a key is always followed directly by
    the span of its colon. *)
Theorem X3_tokenizer_puts_the_colon_after_each_key :
  forall (json : string) l1 t l2,
    SyntaxJson.tokens json = (l1 ++ t :: l2)%list ->
    SyntaxJson.type t = SyntaxJson.key ->
    exists l3, l2 = (SyntaxJson.tok SyntaxJson.punct ":" :: l3)%list.
Proof.
  intros json l1 t l2 E Hk.
  assert (H : forall fuel prev s,
             Measure.colon_follows_keys (SyntaxJson.loop fuel prev s)).
  { induction fuel as [|fuel IH]; intros prev s; simpl.
    - apply colon_follows_no_key. intros x [].
    - destruct (SyntaxJson.exec prev s) as [[[gap m] rest]|] eqn:X.
      + destruct (exec_match _ _ _ _ _ X) as [p' [s' Hm]].
        apply parts_of_match in Hm. destruct Hm as [_ [_ [Hm _]]].
        apply colon_follows_app; [apply colon_follows_no_key, ws_part_facts|].
        apply colon_follows_app; [exact Hm | apply IH].
      + apply colon_follows_no_key, ws_part_facts. }
  assert (Hkey : Measure.is_key t = true)
    by (unfold Measure.is_key; now rewrite Hk).
  specialize (H _ _ _ l1 t l2 E Hkey).
  destruct l2 as [|[ty tx] l3]; [discriminate|]. simpl in H.
  destruct ty; try discriminate. apply String.eqb_eq in H. subst tx.
  exists l3. reflexivity.
Qed.

(** The theorem at a text with one entry. *)
Lemma X3_witness :
  SyntaxJson.tokens ("{" ++ Samples.quoted "a" ++ ":1}")
  = ([ SyntaxJson.tok SyntaxJson.punct "{" ]
     ++ SyntaxJson.tok SyntaxJson.key (Samples.quoted "a")
     :: [ SyntaxJson.tok SyntaxJson.punct ":"; SyntaxJson.tok SyntaxJson.number "1";
          SyntaxJson.tok SyntaxJson.punct "}" ])%list
  /\ exists l3,
       [ SyntaxJson.tok SyntaxJson.punct ":"; SyntaxJson.tok SyntaxJson.number "1";
         SyntaxJson.tok SyntaxJson.punct "}" ]
       = (SyntaxJson.tok SyntaxJson.punct ":" :: l3)%list.
Proof.
  assert (H : SyntaxJson.tokens ("{" ++ Samples.quoted "a" ++ ":1}")
              = ([ SyntaxJson.tok SyntaxJson.punct "{" ]
                 ++ SyntaxJson.tok SyntaxJson.key (Samples.quoted "a")
                 :: [ SyntaxJson.tok SyntaxJson.punct ":";
                      SyntaxJson.tok SyntaxJson.number "1";
                      SyntaxJson.tok SyntaxJson.punct "}" ])%list)
    by (vm_compute; reflexivity).
  split; [exact H|].
  exact (X3_tokenizer_puts_the_colon_after_each_key _ _ _ _ H eq_refl).
Defined.

(** X4: the loop of [SyntaxJson] comes to an end on every text: each round
    takes at least one character, so the rounds it needs never exceed the
    length of the text, and more rounds allowed change nothing. *)
Theorem X4_tokenizer_loop_ends_within_the_length :
  forall (json : string) (rounds : nat),
    (String.length json < rounds)%nat ->
    SyntaxJson.loop rounds None json = SyntaxJson.tokens json.
Proof.
  intros json rounds H. unfold SyntaxJson.tokens. apply loop_fuel; lia.
Qed.

(** The theorem at a short text. *)
Lemma X4_witness :
  (String.length "[1, 2]" < 100)%nat
  /\ SyntaxJson.loop 100 None "[1, 2]" = SyntaxJson.tokens "[1, 2]".
Proof.
  assert (H : (String.length "[1, 2]" < 100)%nat) by (simpl; lia).
  split; [exact H|].
  exact (X4_tokenizer_loop_ends_within_the_length "[1, 2]" 100 H).
Defined.

(** ** The exported output, once more *)

Lemma coalesce_keeps a b c : nullish b = false -> coalesce (coalesce a b) c = coalesce a b.
Proof.
  intros H. unfold coalesce at 1.
  replace (nullish (coalesce a b)) with false; [reflexivity|].
  unfold coalesce. destruct (nullish a) eqn:E; congruence.
Qed.

Lemma or_else_keeps a b c : truthy b = true -> or_else (or_else a b) c = or_else a b.
Proof.
  intros H. unfold or_else at 1. now rewrite truthy_or_else.
Qed.

Lemma coalesce_again x d y z :
  nullish d = false -> coalesce (coalesce (coalesce x d) y) z = coalesce x d.
Proof.
  intros H.
  assert (N : nullish (coalesce x d) = false)
    by (unfold coalesce; destruct (nullish x) eqn:E; congruence).
  unfold coalesce at 1 2. now rewrite N, N.
Qed.

Lemma or_else_again x d y z :
  truthy d = true -> or_else (or_else (or_else x d) y) z = or_else x d.
Proof.
  intros H.
  assert (N : truthy (or_else x d) = true) by now apply truthy_or_else.
  unfold or_else at 1 2. now rewrite N, N.
Qed.

Lemma account_out_fixed a out :
  JsonOutputPanel.account_out a = Ok out -> JsonOutputPanel.account_out out = Ok out.
Proof.
  intros H. apply account_out_shape in H. subst out.
  unfold JsonOutputPanel.account_out. simpl get. cbn [bind].
  rewrite (coalesce_again _ (JNum 0%Q)) by reflexivity.
  rewrite (or_else_again _ (JArr [])) by reflexivity.
  rewrite (or_else_keeps _ (JStr "STANDALONE")) by reflexivity.
  reflexivity.
Qed.

Lemma ring_out_fixed r out :
  JsonOutputPanel.ring_out r = Ok out -> JsonOutputPanel.ring_out out = Ok out.
Proof.
  intros H. apply ring_out_shape in H. subst out.
  unfold JsonOutputPanel.ring_out. simpl get. cbn [bind].
  rewrite (coalesce_again _ (JNum 0%Q)) by reflexivity.
  rewrite (or_else_again _ (JArr [])) by reflexivity.
  rewrite (or_else_again _ (JStr "unknown")) by reflexivity.
  reflexivity.
Qed.

Lemma mapM_fixed {A} (f : A -> result A) :
  (forall a b, f a = Ok b -> f b = Ok b) ->
  forall l bs, mapM f l = Ok bs -> mapM f bs = Ok bs.
Proof.
  intros Hf. induction l as [|a l IH]; simpl; intros bs H.
  - inversion H. reflexivity.
  - apply bind_ok in H. destruct H as [b [Hb H]].
    apply bind_ok in H. destruct H as [bs' [Hbs H]].
    inversion H; subst bs. simpl.
    rewrite (Hf _ _ Hb). simpl. rewrite (IH _ Hbs). reflexivity.
Qed.

Lemma mapM_length {A B} (f : A -> result B) :
  forall l bs, mapM f l = Ok bs -> List.length bs = List.length l.
Proof.
  induction l as [|a l IH]; simpl; intros bs H.
  - inversion H. reflexivity.
  - apply bind_ok in H. destruct H as [b [Hb H]].
    apply bind_ok in H. destruct H as [bs' [Hbs H]].
    inversion H; subst bs. simpl. now rewrite (IH _ Hbs).
Qed.

Lemma map_arr_is_array {B} v (f : JsVal -> result B) bs :
  map_arr v f = Ok bs -> exists l, v = JArr l /\ mapM f l = Ok bs.
Proof. destruct v; simpl; try discriminate. eauto. Qed.

Lemma get_opt_field v k x :
  get_opt v k = Ok x -> x = JsonOutputPanel.field k v.
Proof.
  unfold get_opt. destruct v; simpl; intros H; inversion H; reflexivity.
Qed.

(** What [outputJson] builds from a result that is there. *)
Lemma outputJson_shape results out :
  truthy results = true ->
  JsonOutputPanel.outputJson results = Ok out ->
  exists l1 l2 accounts rings,
    or_else (JsonOutputPanel.field "suspicious_accounts" results) (JArr []) = JArr l1
    /\ or_else (JsonOutputPanel.field "fraud_rings" results) (JArr []) = JArr l2
    /\ mapM JsonOutputPanel.account_out l1 = Ok accounts
    /\ mapM JsonOutputPanel.ring_out l2 = Ok rings
    /\ out = JObj
         [ ("suspicious_accounts", JArr accounts);
           ("fraud_rings", JArr rings);
           ("summary",
             JObj
               [ ("total_accounts_analyzed",
                   coalesce (JsonOutputPanel.field "total_accounts_analyzed"
                               (JsonOutputPanel.field "summary" results)) (JNum 0%Q));
                 ("suspicious_accounts_flagged",
                   coalesce (JsonOutputPanel.field "suspicious_accounts_flagged"
                               (JsonOutputPanel.field "summary" results))
                            (JsonOutputPanel.num_of_nat (List.length l1)));
                 ("fraud_rings_detected",
                   coalesce (JsonOutputPanel.field "fraud_rings_detected"
                               (JsonOutputPanel.field "summary" results))
                            (JsonOutputPanel.num_of_nat (List.length l2)));
                 ("processing_time_seconds",
                   coalesce (JsonOutputPanel.field "processing_time_seconds"
                               (JsonOutputPanel.field "summary" results)) (JNum 0%Q)) ]) ].
Proof.
  intros T. unfold JsonOutputPanel.outputJson. rewrite T. simpl negb. cbv iota.
  intros H.
  apply bind_ok in H. destruct H as [sa [G1 H]]. apply get_field in G1. subst sa.
  apply bind_ok in H. destruct H as [accounts [M1 H]].
  apply bind_ok in H. destruct H as [fr [G2 H]]. apply get_field in G2. subst fr.
  apply bind_ok in H. destruct H as [rings [M2 H]].
  apply bind_ok in H. destruct H as [summary [S H]].
  apply map_arr_is_array in M1. destruct M1 as [l1 [E1 M1]].
  apply map_arr_is_array in M2. destruct M2 as [l2 [E2 M2]].
  exists l1, l2, accounts, rings. repeat (split; [assumption|]).
  inversion H; subst out. clear H.
  unfold JsonOutputPanel.summary_out in S.
  apply bind_ok in S. destruct S as [sm [G S]]. apply get_field in G. subst sm.
  apply bind_ok in S. destruct S as [sa [G S]]. apply get_field in G. subst sa.
  apply bind_ok in S. destruct S as [fr [G S]]. apply get_field in G. subst fr.
  apply bind_ok in S. destruct S as [x1 [G S]]. apply get_opt_field in G. subst x1.
  apply bind_ok in S. destruct S as [x2 [G S]]. apply get_opt_field in G. subst x2.
  apply bind_ok in S. destruct S as [x3 [G S]]. apply get_opt_field in G. subst x3.
  apply bind_ok in S. destruct S as [x4 [G S]]. apply get_opt_field in G. subst x4.
  rewrite E1, E2 in S. simpl JsonOutputPanel.arr_length in S.
  inversion S. reflexivity.
Qed.

(** X5: exporting is idempotent.  When [outputJson] builds an output from a
    result, building the output of that output gives the same output again:
    every default the export fills in is kept by a second export. *)
Theorem X5_export_of_an_export_is_the_same :
  forall results out : JsVal,
    JsonOutputPanel.outputJson results = Ok out ->
    JsonOutputPanel.outputJson out = Ok out.
Proof.
  intros results out H.
  destruct (truthy results) eqn:T.
  - destruct (outputJson_shape _ _ T H)
      as [l1 [l2 [accounts [rings [E1 [E2 [M1 [M2 ->]]]]]]]].
    apply (mapM_fixed _ account_out_fixed) in M1.
    apply (mapM_fixed _ ring_out_fixed) in M2.
    unfold JsonOutputPanel.outputJson. simpl truthy. simpl negb. cbv iota.
    simpl get. cbn [bind]. unfold or_else at 1. cbn [truthy map_arr].
    rewrite M1. cbn [bind]. unfold or_else at 1. cbn [truthy map_arr].
    rewrite M2. cbn [bind].
    unfold JsonOutputPanel.summary_out. simpl get. cbn [bind].
    unfold get_opt. cbn [nullish]. simpl get. cbn [bind].
    unfold or_else. cbn [truthy JsonOutputPanel.arr_length].
    rewrite !coalesce_keeps by reflexivity.
    reflexivity.
  - unfold JsonOutputPanel.outputJson in H. rewrite T in H. simpl in H.
    inversion H. reflexivity.
Qed.

(** The theorem at the sample result with one account. *)
Lemma X5_witness :
  JsonOutputPanel.outputJson Samples.one_account = Ok Samples.one_account_output
  /\ JsonOutputPanel.outputJson Samples.one_account_output
     = Ok Samples.one_account_output.
Proof.
  assert (H : JsonOutputPanel.outputJson Samples.one_account
              = Ok Samples.one_account_output) by (vm_compute; reflexivity).
  split; [exact H|].
  exact (X5_export_of_an_export_is_the_same _ _ H).
Defined.

Lemma mapM_throw {A B} (f : A -> result B) (p : A -> bool) :
  (forall a, f a = Throw <-> p a = true) ->
  forall l, mapM f l = Throw <-> existsb p l = true.
Proof.
  intros Hf. induction l as [|a l IH]; simpl.
  - split; discriminate.
  - destruct (f a) as [b|] eqn:E; simpl.
    + assert (P : p a = false).
      { destruct (p a) eqn:P; [|reflexivity].
        apply Hf in P. congruence. }
      rewrite P. simpl. rewrite <- IH.
      destruct (mapM f l); simpl; split; congruence.
    + apply Hf in E. rewrite E. simpl. split; reflexivity.
Qed.

Lemma account_out_throw a :
  JsonOutputPanel.account_out a = Throw <-> nullish a = true.
Proof. destruct a; simpl; split; intros H; try reflexivity; discriminate. Qed.

Lemma ring_out_throw r :
  JsonOutputPanel.ring_out r = Throw <-> nullish r = true.
Proof. destruct r; simpl; split; intros H; try reflexivity; discriminate. Qed.

Lemma map_arr_throw {B} (f : JsVal -> result B) v :
  (forall a, f a = Throw <-> nullish a = true) ->
  map_arr (or_else v (JArr [])) f = Throw <-> Measure.unmappable v = true.
Proof.
  intros Hf. unfold Measure.unmappable.
  destruct (or_else v (JArr [])); simpl; try (split; reflexivity).
  now apply mapM_throw.
Qed.

(** X6: the only way [outputJson] can fail.  Building the output raises an
    error exactly when the result is there and one of its two lists cannot
    be mapped: [suspicious_accounts] or [fraud_rings] is a truthy value
    that is no array, or an array holding [null].  A result that is
    missing, or whose lists are missing, never makes it fail. *)
Theorem X6_export_fails_only_on_a_list_that_cannot_be_mapped :
  forall results : JsVal,
    JsonOutputPanel.outputJson results = Throw
    <-> truthy results = true
        /\ (Measure.unmappable
              (JsonOutputPanel.field "suspicious_accounts" results) = true
            \/ Measure.unmappable
                 (JsonOutputPanel.field "fraud_rings" results) = true).
Proof.
  intros results. unfold JsonOutputPanel.outputJson.
  destruct (truthy results) eqn:T; simpl negb; cbv iota.
  - pose proof (truthy_not_nullish _ T) as N.
    destruct (summary_out_total _ N) as [s Hs].
    rewrite !(get_is results) by assumption. cbn [bind].
    pose proof (map_arr_throw JsonOutputPanel.account_out
                  (JsonOutputPanel.field "suspicious_accounts" results)
                  account_out_throw) as H1.
    pose proof (map_arr_throw JsonOutputPanel.ring_out
                  (JsonOutputPanel.field "fraud_rings" results)
                  ring_out_throw) as H2.
    destruct (map_arr (or_else (JsonOutputPanel.field "suspicious_accounts" results)
                               (JArr [])) JsonOutputPanel.account_out) as [accs|];
      cbn [bind].
    + destruct (map_arr (or_else (JsonOutputPanel.field "fraud_rings" results)
                                 (JArr [])) JsonOutputPanel.ring_out) as [rings|];
        cbn [bind].
      * rewrite Hs. cbn [bind]. split; [discriminate|].
        intros [_ [U|U]]; [apply H1 in U | apply H2 in U]; discriminate.
      * split; [|reflexivity]. intros _. split; [reflexivity|].
        right. now apply H2.
    + split; [|reflexivity]. intros _. split; [reflexivity|].
      left. now apply H1.
  - split; [discriminate | intros [? _]; discriminate].
Qed.

(** X7: the export keeps the number of entries, and counts them itself when
    the summary does not say.  The two lists of the output are as long as
    the lists of the result, and when the summary of a result carries no
    [suspicious_accounts_flagged] or no [fraud_rings_detected], the output
    reports the length of the exported list in its place. *)
Theorem X7_export_counts_the_entries_the_summary_leaves_out :
  forall results out : JsVal,
    truthy results = true ->
    JsonOutputPanel.outputJson results = Ok out ->
    let accounts := JsonOutputPanel.section "suspicious_accounts" out in
    let rings := JsonOutputPanel.section "fraud_rings" out in
    let summary := JsonOutputPanel.field "summary" results in
    let summary' := JsonOutputPanel.field "summary" out in
    List.length accounts
    = List.length (JsonOutputPanel.section "suspicious_accounts" results)
    /\ List.length rings
       = List.length (JsonOutputPanel.section "fraud_rings" results)
    /\ (nullish (JsonOutputPanel.field "suspicious_accounts_flagged" summary) = true ->
        JsonOutputPanel.field "suspicious_accounts_flagged" summary'
        = JsonOutputPanel.num_of_nat (List.length accounts))
    /\ (nullish (JsonOutputPanel.field "fraud_rings_detected" summary) = true ->
        JsonOutputPanel.field "fraud_rings_detected" summary'
        = JsonOutputPanel.num_of_nat (List.length rings)).
Proof.
  intros results out T H.
  destruct (outputJson_shape _ _ T H)
    as [l1 [l2 [accounts [rings [E1 [E2 [M1 [M2 ->]]]]]]]].
  apply section_of_array in E1. apply section_of_array in E2.
  apply mapM_length in M1. apply mapM_length in M2.
  rewrite E1, E2. cbv zeta.
  change (JsonOutputPanel.section "suspicious_accounts" (JObj _)) with accounts.
  change (JsonOutputPanel.section "fraud_rings" (JObj _)) with rings.
  repeat split; try assumption.
  - intros N. simpl JsonOutputPanel.field. unfold coalesce. rewrite N.
    now rewrite M1.
  - intros N. simpl JsonOutputPanel.field. unfold coalesce. rewrite N.
    now rewrite M2.
Qed.

(** The theorem at the sample result with one account. *)
Lemma X7_witness :
  truthy Samples.one_account = true
  /\ JsonOutputPanel.outputJson Samples.one_account = Ok Samples.one_account_output
  /\ List.length (JsonOutputPanel.section "suspicious_accounts"
                    Samples.one_account_output)
     = List.length (JsonOutputPanel.section "suspicious_accounts" Samples.one_account).
Proof.
  assert (T : truthy Samples.one_account = true) by reflexivity.
  assert (H : JsonOutputPanel.outputJson Samples.one_account
              = Ok Samples.one_account_output) by (vm_compute; reflexivity).
  split; [exact T|]. split; [exact H|].
  exact (proj1 (X7_export_counts_the_entries_the_summary_leaves_out _ _ T H)).
Defined.

(** ** The accounts table and the score chart *)

Lemma filterM_length (f : JsVal -> result bool) : forall l r,
  AccountsTable.filterM f l = Ok r -> (List.length r <= List.length l)%nat.
Proof.
  induction l as [|a l IH]; simpl; intros r H.
  - inversion H. simpl. lia.
  - apply bind_ok in H. destruct H as [b [Hb H]].
    apply bind_ok in H. destruct H as [rest [Hr H]].
    specialize (IH _ Hr). inversion H. destruct b; simpl; lia.
Qed.

Lemma filterM_kept (f : JsVal -> result bool) : forall l r a,
  AccountsTable.filterM f l = Ok r -> In a r -> In a l /\ f a = Ok true.
Proof.
  induction l as [|x l IH]; simpl; intros r a H Hin.
  - inversion H; subst. contradiction.
  - apply bind_ok in H. destruct H as [b [Hb H]].
    apply bind_ok in H. destruct H as [rest [Hr H]].
    inversion H; subst r. destruct b.
    + destruct Hin as [<- | Hin]; [split; [now left | exact Hb]|].
      destruct (IH _ _ Hr Hin). split; [now right | assumption].
    + destruct (IH _ _ Hr Hin). split; [now right | assumption].
Qed.

Lemma filterM_all (f : JsVal -> result bool) : forall l r,
  (forall a b, f a = Ok b -> b = true) ->
  AccountsTable.filterM f l = Ok r -> r = l.
Proof.
  intros l r Hf. revert r. induction l as [|x l IH]; simpl; intros r H.
  - now inversion H.
  - apply bind_ok in H. destruct H as [b [Hb H]].
    apply bind_ok in H. destruct H as [rest [Hr H]].
    rewrite (Hf _ _ Hb) in H. inversion H. now rewrite (IH _ Hr).
Qed.

Lemma filterM_throw (f : JsVal -> result bool) : forall l a,
  In a l -> f a = Throw -> AccountsTable.filterM f l = Throw.
Proof.
  induction l as [|x l IH]; simpl; intros a Hin Hf; [contradiction|].
  destruct Hin as [-> | Hin].
  - now rewrite Hf.
  - destruct (f x); simpl; [|reflexivity]. now rewrite (IH _ Hin Hf).
Qed.

(** X8: the counter and the rows of the accounts table.  When the table is
    drawn for a list of accounts, the counter reads the number of rows
    beside the length of the whole list, never more rows than accounts;
    every row shown carries an account id that contains the search text,
    letter case aside; and with an empty search box every account has its
    row. *)
Theorem X8_accounts_table_shows_the_rows_that_match :
  forall (search : string) (l : list JsVal) shown total rows,
    AccountsTable.render search (JArr l) = Ok (AccountsTable.Table shown total rows) ->
    total = List.length l
    /\ shown = List.length rows
    /\ (shown <= total)%nat
    /\ Forall (fun r =>
                 Text.includes (Text.toLowerCase search)
                   (Text.toLowerCase (AccountsTable.account_id r)) = true) rows
    /\ (search = "" -> shown = total).
Proof.
  intros search l shown total rows H.
  destruct l as [|a0 l0]; [discriminate|].
  remember (a0 :: l0) as l eqn:El. unfold AccountsTable.render in H.
  rewrite El in H. rewrite <- El in H.
  apply bind_ok in H. destruct H as [filtered [F H]].
  apply bind_ok in H. destruct H as [rows' [M H]].
  inversion H; subst shown total rows'. clear H.
  split; [reflexivity|].
  split; [symmetry; apply (mapM_length _ _ _ M)|].
  split; [apply (filterM_length _ _ _ F)|].
  split.
  - apply Forall_forall. intros r Hr.
    destruct (mapM_In _ _ _ _ M Hr) as [a [Ha Hrow]].
    destruct (filterM_kept _ _ _ _ F Ha) as [_ Hm].
    unfold AccountsTable.matches in Hm.
    apply bind_ok in Hm. destruct Hm as [id [G Hm]].
    apply bind_ok in Hm. destruct Hm as [s [S Hm]].
    unfold AccountsTable.render_row in Hrow.
    rewrite G in Hrow. cbn [bind] in Hrow. rewrite S in Hrow. cbn [bind] in Hrow.
    repeat (apply bind_ok in Hrow; destruct Hrow as [? [_ Hrow]]).
    inversion Hrow. simpl. now inversion Hm.
  - intros ->. f_equal. apply (filterM_all (AccountsTable.matches "")); [|exact F].
    intros a b Hm. unfold AccountsTable.matches in Hm.
    apply bind_ok in Hm. destruct Hm as [id [G Hm]].
    apply bind_ok in Hm. destruct Hm as [s [S Hm]].
    simpl in Hm. rewrite includes_empty in Hm. now inversion Hm.
Qed.

(** The theorem at two accounts and a search text that one of them has. *)
Lemma X8_witness :
  exists rows,
    AccountsTable.render "acc_1"
      (JArr [Cases.account "ACC_1" 80; Cases.account "ACC_2" 30])
    = Ok (AccountsTable.Table 1 2 rows)
    /\ 1%nat = List.length rows.
Proof.
  eexists.
  assert (H : AccountsTable.render "acc_1"
                (JArr [Cases.account "ACC_1" 80; Cases.account "ACC_2" 30])
              = Ok (AccountsTable.Table 1 2 _)) by (vm_compute; reflexivity).
  split; [exact H|].
  exact (proj1 (proj2 (X8_accounts_table_shows_the_rows_that_match _ _ _ _ _ H))).
Defined.

Lemma matches_throw search a :
  Measure.has_string_id a = false -> AccountsTable.matches search a = Throw.
Proof.
  unfold Measure.has_string_id, AccountsTable.matches. intros H.
  destruct a; try reflexivity. simpl in *.
  destruct (lookup "account_id" fields) as [[]|]; try reflexivity; discriminate.
Qed.

(** X9: one account without a text as its id takes the whole accounts
    table down, whatever is typed into the search box: the filter calls
    [toLowerCase] on the id of every account before any row is drawn. *)
Theorem X9_accounts_table_fails_on_an_account_without_a_text_id :
  forall (search : string) (l : list JsVal) (a : JsVal),
    In a l ->
    Measure.has_string_id a = false ->
    AccountsTable.render search (JArr l) = Throw.
Proof.
  intros search l a Hin Hid.
  destruct l as [|a0 l0]; [contradiction|].
  unfold AccountsTable.render.
  rewrite (filterM_throw _ _ a Hin (matches_throw search a Hid)).
  reflexivity.
Qed.

(** The theorem at a list whose second account has no id. *)
Lemma X9_witness :
  In Cases.nameless [Cases.account "ACC_1" 80; Cases.nameless]
  /\ Measure.has_string_id Cases.nameless = false
  /\ AccountsTable.render "zzz" (JArr [Cases.account "ACC_1" 80; Cases.nameless])
     = Throw.
Proof.
  assert (H1 : In Cases.nameless [Cases.account "ACC_1" 80; Cases.nameless])
    by (simpl; auto).
  assert (H2 : Measure.has_string_id Cases.nameless = false) by reflexivity.
  split; [exact H1|]. split; [exact H2|].
  exact (X9_accounts_table_fails_on_an_account_without_a_text_id "zzz" _ _ H1 H2).
Defined.

Lemma component_throw k a :
  AgentsChart.component k a = Throw <-> nullish a = true.
Proof.
  unfold AgentsChart.component.
  destruct a; simpl; split; intros H; try reflexivity; try discriminate.
  rewrite get_opt_is in H. discriminate.
Qed.

Lemma get_throw k a : get a k = Throw <-> nullish a = true.
Proof. destruct a; simpl; split; intros H; try reflexivity; discriminate. Qed.

Lemma firstn_length_min {A} n (l : list A) :
  List.length (firstn n l) = Nat.min n (List.length l).
Proof. apply length_firstn. Qed.

(** X10: the score chart looks at the first fifteen accounts and at no
    other.  For a list of accounts that is not empty it fails exactly when
    one of the first fifteen is [null]; otherwise it has one label per
    account up to fifteen and three series, each with as many values as
    there are labels. *)
Theorem X10_score_chart_plots_the_first_fifteen_accounts :
  forall l : list JsVal,
    l <> [] ->
    (AgentsChart.render (JArr l) = Throw
     <-> existsb nullish (firstn 15 l) = true)
    /\ (forall v, AgentsChart.render (JArr l) = Ok v ->
        exists c, v = AgentsChart.Bar c
          /\ List.length (AgentsChart.labels c) = Nat.min 15 (List.length l)
          /\ map AgentsChart.label (AgentsChart.datasets c) = ["Graph"; "ML"; "Quantum"]
          /\ Forall (fun d => List.length (AgentsChart.data d)
                              = Nat.min 15 (List.length l))
                    (AgentsChart.datasets c)).
Proof.
  intros l Hl. rewrite (chart_of_accounts l Hl).
  pose proof (mapM_throw (fun a => get a "account_id") nullish
                (get_throw "account_id") (firstn 15 l)) as T0.
  pose proof (mapM_throw _ nullish (component_throw "graph") (firstn 15 l)) as T1.
  pose proof (mapM_throw _ nullish (component_throw "ml") (firstn 15 l)) as T2.
  pose proof (mapM_throw _ nullish (component_throw "quantum") (firstn 15 l)) as T3.
  destruct (mapM (fun a => get a "account_id") (firstn 15 l)) as [labels|] eqn:M0;
    cbn [bind]; [|split; [split; [intros _; now apply T0 | reflexivity] | discriminate]].
  destruct (mapM (AgentsChart.component "graph") (firstn 15 l)) as [g|] eqn:M1;
    cbn [bind]; [|split; [split; [intros _; now apply T1 | reflexivity] | discriminate]].
  destruct (mapM (AgentsChart.component "ml") (firstn 15 l)) as [m|] eqn:M2;
    cbn [bind]; [|split; [split; [intros _; now apply T2 | reflexivity] | discriminate]].
  destruct (mapM (AgentsChart.component "quantum") (firstn 15 l)) as [q|] eqn:M3;
    cbn [bind]; [|split; [split; [intros _; now apply T3 | reflexivity] | discriminate]].
  split.
  - split; [discriminate|]. intros E. apply T0 in E. discriminate.
  - intros v H. inversion H. subst v. eexists. split; [reflexivity|].
    apply mapM_length in M0, M1, M2, M3. rewrite firstn_length_min in *.
    simpl. repeat split; auto.
Qed.

(** The theorem at a list of two accounts. *)
Lemma X10_witness :
  [Cases.account "ACC_1" 80; Cases.nameless] <> []
  /\ (AgentsChart.render (JArr [Cases.account "ACC_1" 80; Cases.nameless]) = Throw
      <-> existsb nullish (firstn 15 [Cases.account "ACC_1" 80; Cases.nameless]) = true).
Proof.
  assert (H : [Cases.account "ACC_1" 80; Cases.nameless] <> []) by discriminate.
  split; [exact H|].
  exact (proj1 (X10_score_chart_plots_the_first_fifteen_accounts _ H)).
Defined.

(** ** The disruption panel and its meter *)

Section DisruptionEdges.

Context {Detail : Type}.
Variable RingDisruptionDetail : JsVal -> result Detail.

(** X11: when the disruption panel shows its placeholder and when it
    fails.  The placeholder is shown exactly when there is no data or the
    data has no [strategies]; data with [strategies] but without
    [global_summary], or without [network_stats], takes the panel down,
    whichever ring is selected. *)
Theorem X11_disruption_panel_needs_all_three_parts :
  forall (selectedRing : nat) (data : JsVal),
    (DisruptionPanel.render RingDisruptionDetail selectedRing data
     = Ok DisruptionPanel.NoData
     <-> truthy data = false
         \/ truthy (JsonOutputPanel.field "strategies" data) = false)
    /\ (truthy data = true ->
        truthy (JsonOutputPanel.field "strategies" data) = true ->
        nullish (JsonOutputPanel.field "global_summary" data) = true
        \/ nullish (JsonOutputPanel.field "network_stats" data) = true ->
        DisruptionPanel.render RingDisruptionDetail selectedRing data = Throw).
Proof.
  intros sel data. unfold DisruptionPanel.render.
  destruct (truthy data) eqn:T; simpl negb; cbv iota.
  - rewrite !(get_is data) by now apply truthy_not_nullish. cbn [bind].
    destruct (truthy (JsonOutputPanel.field "strategies" data)) eqn:S;
      simpl negb; cbv iota.
    + split.
      * split; [|intros [?|?]; discriminate].
        intros H.
        repeat (apply bind_ok in H; destruct H as [? [_ H]]). discriminate.
      * intros _ _ [N|N].
        -- unfold DisruptionPanel.global_kpis.
           destruct (JsonOutputPanel.field "global_summary" data);
             try discriminate; reflexivity.
        -- destruct (DisruptionPanel.global_kpis _); cbn [bind]; [|reflexivity].
           unfold DisruptionPanel.centrality_cards.
           destruct (JsonOutputPanel.field "network_stats" data);
             try discriminate; reflexivity.
    + split; [split; auto | intros _ ?; discriminate].
  - split; [split; auto | intros ?; discriminate].
Qed.

End DisruptionEdges.

(** The theorem at a disruption output without a global summary. *)
Lemma X11_witness :
  truthy Cases.disruption_partial = true
  /\ truthy (JsonOutputPanel.field "strategies" Cases.disruption_partial) = true
  /\ nullish (JsonOutputPanel.field "global_summary" Cases.disruption_partial) = true
  /\ DisruptionPanel.render (fun _ => Ok tt) 0 Cases.disruption_partial = Throw.
Proof.
  assert (H1 : truthy Cases.disruption_partial = true) by reflexivity.
  assert (H2 : truthy (JsonOutputPanel.field "strategies" Cases.disruption_partial)
               = true) by reflexivity.
  assert (H3 : nullish (JsonOutputPanel.field "global_summary"
                          Cases.disruption_partial) = true) by reflexivity.
  repeat (split; [assumption|]).
  exact (proj2 (X11_disruption_panel_needs_all_three_parts (fun _ => Ok tt) 0
                  Cases.disruption_partial) H1 H2 (or_introl H3)).
Defined.

Lemma bars_closed_form (c : Z) :
  map (fun i => (Z.of_nat i <? c)%Z) (seq 0 5)
  = (repeat true (Z.to_nat (Z.min 5 (Z.max 0 c)))
     ++ repeat false (5 - Z.to_nat (Z.min 5 (Z.max 0 c))))%list.
Proof.
  destruct (Z_le_gt_dec c 0) as [H0|H0].
  { replace (Z.min 5 (Z.max 0 c)) with 0%Z by lia. simpl.
    repeat match goal with
           | |- context [(?a <? c)%Z] =>
               destruct (Z.ltb_spec a c); [lia|]
           end. reflexivity. }
  destruct (Z_le_gt_dec 5 c) as [H5|H5].
  { replace (Z.min 5 (Z.max 0 c)) with 5%Z by lia. simpl.
    repeat match goal with
           | |- context [(?a <? c)%Z] =>
               destruct (Z.ltb_spec a c); [|lia]
           end. reflexivity. }
  assert (E : c = 1%Z \/ c = 2%Z \/ c = 3%Z \/ c = 4%Z) by lia.
  destruct E as [->|[->|[->| ->]]]; reflexivity.
Qed.

Lemma count_true_prefix n m :
  List.length (filter (fun b : bool => b) (repeat true n ++ repeat false m)) = n.
Proof.
  induction n as [|n IH]; simpl.
  - induction m; simpl; auto.
  - now rewrite IH.
Qed.

Lemma underflow_small : (0 < DisruptionMeter.underflow /\ DisruptionMeter.underflow <= 1)%Q.
Proof.
  unfold DisruptionMeter.underflow, Qlt, Qle. simpl Qnum. simpl Qden.
  split; [reflexivity|].
  rewrite Z.mul_1_l. change (10 * 1)%Z with 10%Z.
  rewrite Pos2Z.inj_pow. apply Z.le_trans with (2 ^ 4)%Z; [now vm_compute|].
  apply Z.pow_le_mono_r; lia.
Qed.

(** X12: the meter of a ring lights one bar for every started twenty
    percent and never more than its five, the leftmost ones first; it
    lights none for a value of zero or below, and none either for a value
    so small, at most ten times the smallest double, that dividing it by
    20 gives zero.  Its colour goes with the bars: red comes with four or
    five of them, orange with two or three, yellow with two at most. *)
Theorem X12_disruption_meter_lights_a_bar_per_twenty_percent :
  forall value : Q,
    let n := if Qle_bool value DisruptionMeter.underflow then 0%nat
             else Z.to_nat (Z.min 5 (Qceiling (value / 20))) in
    DisruptionMeter.bars value = (repeat true n ++ repeat false (5 - n))%list
    /\ DisruptionMeter.lit_count value = n
    /\ match DisruptionMeter.colour_of value with
       | DisruptionMeter.red => (4 <= n)%nat
       | DisruptionMeter.orange => (2 <= n <= 3)%nat
       | DisruptionMeter.yellow => (n <= 2)%nat
       end.
Proof.
  intros value n.
  destruct underflow_small as [U0 U1].
  pose proof (Qle_ceiling (value / 20)) as Hc.
  pose proof (Qceiling_lt (value / 20)) as Hl.
  set (x := (value / 20)%Q) in *.
  assert (V : (value == 20 * x)%Q) by (unfold x; field).
  assert (N : Z.to_nat (Z.min 5 (Z.max 0 (Qceiling (DisruptionMeter.quotient value))))
              = n).
  { unfold DisruptionMeter.quotient. subst n.
    destruct (Qle_bool value DisruptionMeter.underflow) eqn:E.
    - destruct (Qle_bool value 0) eqn:E0; cbn [negb andb]; [|reflexivity].
      apply Qle_bool_iff in E0. fold x.
      assert (K : (inject_Z (Qceiling x - 1) < inject_Z 0)%Q).
      { change (inject_Z 0) with 0%Q.
        generalize dependent (inject_Z (Qceiling x - 1)). intros. lra. }
      rewrite <- Zlt_Qlt in K. lia.
    - rewrite andb_false_r. fold x.
      apply Qle_bool_false in E.
      assert (K : (inject_Z 0 < inject_Z (Qceiling x))%Q).
      { change (inject_Z 0) with 0%Q.
        generalize dependent (inject_Z (Qceiling x)). intros. lra. }
      rewrite <- Zlt_Qlt in K. f_equal. lia. }
  assert (B : DisruptionMeter.bars value
              = (repeat true n ++ repeat false (5 - n))%list).
  { rewrite <- N. apply bars_closed_form. }
  split; [exact B|]. split.
  - unfold DisruptionMeter.lit_count. rewrite B. apply count_true_prefix.
  - set (c := Qceiling x) in *.
    unfold DisruptionMeter.colour_of.
    destruct (Qle_bool value 60) eqn:E60; simpl negb; cbv iota.
    + apply Qle_bool_iff in E60.
      destruct (Qle_bool value 30) eqn:E30; simpl negb; cbv iota.
      * apply Qle_bool_iff in E30. subst n.
        destruct (Qle_bool value DisruptionMeter.underflow); [lia|].
        assert (K : (inject_Z (c - 1) < inject_Z 2)%Q).
        { change (inject_Z 2) with 2%Q.
          generalize dependent (inject_Z (c - 1)). intros. lra. }
        rewrite <- Zlt_Qlt in K. lia.
      * apply Qle_bool_false in E30. subst n.
        destruct (Qle_bool value DisruptionMeter.underflow) eqn:E;
          [apply Qle_bool_iff in E; lra|].
        assert (K : (inject_Z (c - 1) < inject_Z 3)%Q).
        { change (inject_Z 3) with 3%Q.
          generalize dependent (inject_Z (c - 1)). intros. lra. }
        assert (K' : (inject_Z 1 < inject_Z c)%Q).
        { change (inject_Z 1) with 1%Q.
          generalize dependent (inject_Z c). intros. lra. }
        rewrite <- Zlt_Qlt in K, K'. lia.
    + apply Qle_bool_false in E60. subst n.
      destruct (Qle_bool value DisruptionMeter.underflow) eqn:E;
        [apply Qle_bool_iff in E; lra|].
      assert (K : (inject_Z 3 < inject_Z c)%Q).
      { change (inject_Z 3) with 3%Q.
        generalize dependent (inject_Z c). intros. lra. }
      rewrite <- Zlt_Qlt in K. lia.
Qed.

(** ** Sorting, as the tables do it *)

Section SortFacts.

Context {A : Type}.
Variable cmp : A -> A -> Z.

Lemma insert_perm x : forall l, Permutation (JsSort.insert cmp x l) (x :: l).
Proof.
  induction l as [|y l IH]; simpl; [reflexivity|].
  destruct (cmp x y <=? 0)%Z; [reflexivity|].
  rewrite IH. apply perm_swap.
Qed.

Lemma sort_perm : forall l, Permutation (JsSort.sort cmp l) l.
Proof.
  induction l as [|x l IH]; simpl; [reflexivity|].
  rewrite insert_perm. now constructor.
Qed.

(** The comparator never puts two elements each after the other, and
    being no later is transitive. *)
Hypothesis cmp_total : forall a b, (0 < cmp a b)%Z -> (cmp b a <= 0)%Z.
Hypothesis cmp_trans :
  forall a b c, (cmp a b <= 0)%Z -> (cmp b c <= 0)%Z -> (cmp a c <= 0)%Z.

Lemma insert_sorted x : forall l,
  StronglySorted (fun a b => (cmp a b <= 0)%Z) l ->
  StronglySorted (fun a b => (cmp a b <= 0)%Z) (JsSort.insert cmp x l).
Proof.
  induction l as [|y l IH]; simpl; intros S.
  - repeat constructor.
  - inversion S as [|? ? S' F]; subst.
    destruct (Z.leb_spec (cmp x y) 0) as [L|L].
    + constructor; [exact S|]. constructor; [exact L|].
      eapply Forall_impl; [|exact F]. intros z Hz. now apply (cmp_trans x y z).
    + constructor; [now apply IH|].
      eapply Permutation_Forall; [symmetry; apply insert_perm|].
      constructor; [now apply cmp_total | exact F].
Qed.

Lemma sort_sorted : forall l,
  StronglySorted (fun a b => (cmp a b <= 0)%Z) (JsSort.sort cmp l).
Proof.
  induction l as [|x l IH]; simpl; [constructor | now apply insert_sorted].
Qed.

End SortFacts.

Lemma strongly_sorted_impl {A} (R R' : A -> A -> Prop) :
  (forall a b, R a b -> R' a b) ->
  forall l, StronglySorted R l -> StronglySorted R' l.
Proof.
  intros H l S. induction S as [|a l S IH F]; constructor; auto.
  eapply Forall_impl; [|exact F]. auto.
Qed.

Lemma ascii_lt_trans x y z :
  Ascii.compare x y = Lt -> Ascii.compare y z = Lt -> Ascii.compare x z = Lt.
Proof.
  unfold Ascii.compare. rewrite !N.compare_lt_iff. lia.
Qed.

Lemma string_not_gt_trans : forall a b c,
  String.compare a b <> Gt -> String.compare b c <> Gt -> String.compare a c <> Gt.
Proof.
  induction a as [|x a IH]; intros [|y b] [|z c]; simpl; try congruence.
  destruct (Ascii.compare x y) eqn:E1; try congruence.
  - apply Ascii.compare_eq_iff in E1. subst y.
    destruct (Ascii.compare x z); try congruence. apply IH.
  - destruct (Ascii.compare y z) eqn:E2; try congruence.
    + apply Ascii.compare_eq_iff in E2. subst z. rewrite E1. congruence.
    + rewrite (ascii_lt_trans _ _ _ E1 E2). congruence.
Qed.

Lemma string_ltb_asym a b : String.ltb a b = true -> String.ltb b a = false.
Proof.
  unfold String.ltb. rewrite (String.compare_antisym a b).
  destruct (String.compare b a); simpl; congruence.
Qed.

Lemma string_ltb_negtrans a b c :
  String.ltb b a = false -> String.ltb c b = false -> String.ltb c a = false.
Proof.
  unfold String.ltb. intros H1 H2.
  assert (P : String.compare a b <> Gt).
  { rewrite String.compare_antisym.
    destruct (String.compare b a); simpl; congruence. }
  assert (Q : String.compare b c <> Gt).
  { rewrite String.compare_antisym.
    destruct (String.compare c b); simpl; congruence. }
  pose proof (string_not_gt_trans _ _ _ P Q) as R.
  rewrite String.compare_antisym in R.
  destruct (String.compare c a); simpl in *; congruence.
Qed.

Lemma less_asym key a b :
  RingsList.less key a b = true -> RingsList.less key b a = false.
Proof.
  destruct key; simpl.
  - apply string_ltb_asym.
  - apply string_ltb_asym.
  - rewrite Nat.ltb_lt, Nat.ltb_ge. lia.
  - rewrite negb_true_iff, negb_false_iff. intros H.
    apply Qle_bool_false in H. apply Qle_bool_iff. lra.
Qed.

Lemma less_negtrans key a b c :
  RingsList.less key b a = false -> RingsList.less key c b = false ->
  RingsList.less key c a = false.
Proof.
  destruct key; simpl.
  - apply string_ltb_negtrans.
  - apply string_ltb_negtrans.
  - rewrite !Nat.ltb_ge. lia.
  - rewrite !negb_false_iff, !Qle_bool_iff. lra.
Qed.

(** When the comparator of the rings table puts [a] no later than [b]. *)
Lemma compare_no_later key dir a b :
  (RingsList.compare key dir a b <= 0)%Z
  <-> match dir with
      | RingsList.asc => RingsList.less key b a = false
      | RingsList.desc => RingsList.less key a b = false
      end.
Proof.
  unfold RingsList.compare.
  destruct (RingsList.less key a b) eqn:E1.
  - rewrite (less_asym _ _ _ E1). destruct dir; split; intros; try lia; congruence.
  - destruct (RingsList.less key b a) eqn:E2; destruct dir; split; intros;
      try lia; congruence.
Qed.

(** X13: the rows of the rings table are the rings that match the search,
    every one of them once, in the order of the chosen column: going up,
    no row has a key below that of a row before it; going down, none has a
    key above.  With an empty search box no ring is left out. *)
Theorem X13_rings_table_rows_are_the_matching_rings_in_order :
  forall (st : RingsList.state) (rings : list RingsList.ring),
    Permutation (RingsList.filtered st rings)
      (if RingsList.search st =? "" then rings
       else filter (RingsList.matches (Text.toLowerCase (RingsList.search st))) rings)
    /\ StronglySorted
         (fun a b =>
            match RingsList.sortDir st with
            | RingsList.asc => RingsList.less (RingsList.sortKey st) b a = false
            | RingsList.desc => RingsList.less (RingsList.sortKey st) a b = false
            end)
         (RingsList.filtered st rings).
Proof.
  intros st rings. unfold RingsList.filtered. split.
  - rewrite sort_perm. destruct (RingsList.search st); reflexivity.
  - eapply strongly_sorted_impl.
    2: { apply sort_sorted.
         - intros a b H. apply compare_no_later.
           assert (L : ~ (RingsList.compare (RingsList.sortKey st)
                            (RingsList.sortDir st) a b <= 0)%Z) by lia.
           rewrite compare_no_later in L.
           destruct (RingsList.sortDir st).
           + destruct (RingsList.less (RingsList.sortKey st) b a) eqn:E;
               [now apply less_asym | congruence].
           + destruct (RingsList.less (RingsList.sortKey st) a b) eqn:E;
               [now apply less_asym | congruence].
         - intros a b c. rewrite !compare_no_later.
           destruct (RingsList.sortDir st); intros H1 H2.
           + now apply (less_negtrans _ a b c).
           + now apply (less_negtrans _ c b a). }
    intros a b H. now apply compare_no_later.
Qed.

Lemma same_key_eq a b : RingsList.same_key a b = true <-> a = b.
Proof. destruct a, b; simpl; split; intros H; congruence. Qed.

(** X14: a click on a column header always makes that column the sort
    column and leaves the search text alone; a click on the column that is
    already sorted turns its direction round, so from the second click on
    the same header the direction alternates, and three clicks leave what
    one click leaves. *)
Theorem X14_header_click_selects_the_column_then_alternates :
  forall (key : RingsList.SortKey) (st : RingsList.state),
    let once := RingsList.toggleSort key st in
    let twice := RingsList.toggleSort key once in
    RingsList.sortKey once = key
    /\ RingsList.search once = RingsList.search st
    /\ (RingsList.sortKey st <> key -> RingsList.sortDir once = RingsList.desc)
    /\ (RingsList.sortKey st = key ->
        RingsList.sortDir once = RingsList.flip (RingsList.sortDir st))
    /\ RingsList.sortDir twice = RingsList.flip (RingsList.sortDir once)
    /\ RingsList.toggleSort key twice = once.
Proof.
  intros key [s k d]. unfold RingsList.toggleSort. simpl.
  destruct (RingsList.same_key k key) eqn:E; simpl.
  - apply same_key_eq in E. subst k.
    assert (K : RingsList.same_key key key = true) by now apply same_key_eq.
    repeat (rewrite K; simpl).
    repeat split; try reflexivity; try congruence.
    destruct d; reflexivity.
  - assert (K : RingsList.same_key key key = true) by now apply same_key_eq.
    repeat (rewrite K; simpl).
    repeat split; try reflexivity.
    intros ->. congruence.
Qed.

(** The theorem at a first click on the member count of a fresh table. *)
Lemma X14_witness :
  RingsList.sortKey RingsList.initial <> RingsList.by_members
  /\ RingsList.sortDir (RingsList.toggleSort RingsList.by_members RingsList.initial)
     = RingsList.desc.
Proof.
  assert (H : RingsList.sortKey RingsList.initial <> RingsList.by_members)
    by discriminate.
  split; [exact H|].
  exact (proj1 (proj2 (proj2
           (X14_header_click_selects_the_column_then_alternates
              RingsList.by_members RingsList.initial))) H).
Defined.

(** ** The search index of the graph *)

Lemma mem_In k l : RingsTable.mem k l = true <-> In k l.
Proof.
  unfold RingsTable.mem. rewrite existsb_exists. split.
  - intros [x [Hx E]]. apply String.eqb_eq in E. now subst.
  - intros H. exists k. split; [exact H | apply String.eqb_refl].
Qed.

Lemma group_nodes_throw : forall nodes acc,
  GraphView.group_nodes nodes acc = Throw
  <-> existsb (fun n => match GraphView.ring_key n with
                        | Some k => RingsTable.mem k RingsTable.object_prototype
                        | None => false
                        end) nodes = true.
Proof.
  induction nodes as [|n rest IH]; intros acc;
    cbn [GraphView.group_nodes existsb].
  - split; discriminate.
  - destruct (GraphView.ring_key n) as [k|].
    + destruct (RingsTable.mem k RingsTable.object_prototype); cbn [orb].
      * split; reflexivity.
      * apply IH.
    + cbn [orb]. apply IH.
Qed.

Lemma keys_of_file_under k i sc : forall rings,
  map fst (GraphView.file_under k i sc rings)
  = if RingsTable.mem k (map fst rings) then map fst rings
    else (map fst rings ++ [k])%list.
Proof.
  induction rings as [|[k' g] rest IH]; simpl; [reflexivity|].
  destruct (k =? k') eqn:E; simpl; [reflexivity|].
  rewrite IH. unfold RingsTable.mem.
  destruct (existsb (fun x => k =? x) (map fst rest)); reflexivity.
Qed.

Lemma nodup_snoc {A} (l : list A) x : NoDup l -> ~ In x l -> NoDup (l ++ [x]).
Proof.
  intros N H. apply NoDup_app; [exact N | repeat constructor; intros [] | ].
  intros a Ha [<-|[]]. contradiction.
Qed.

Lemma file_under_keeps_keys k i sc rings :
  NoDup (map fst rings) ->
  NoDup (map fst (GraphView.file_under k i sc rings))
  /\ In k (map fst (GraphView.file_under k i sc rings))
  /\ (forall k', In k' (map fst rings) ->
      In k' (map fst (GraphView.file_under k i sc rings))).
Proof.
  intros N. rewrite keys_of_file_under.
  destruct (RingsTable.mem k (map fst rings)) eqn:E.
  - apply mem_In in E. auto.
  - assert (Hn : ~ In k (map fst rings)).
    { intros H. apply mem_In in H. congruence. }
    split; [now apply nodup_snoc|].
    split; [apply in_or_app; right; now left|].
    intros k' H. apply in_or_app. now left.
Qed.

Lemma file_under_keeps_groups k i sc : forall rings,
  Forall (fun e => GraphView.members (snd e) <> []
                   /\ List.length (GraphView.members (snd e))
                      = List.length (GraphView.scores (snd e))) rings ->
  Forall (fun e => GraphView.members (snd e) <> []
                   /\ List.length (GraphView.members (snd e))
                      = List.length (GraphView.scores (snd e)))
         (GraphView.file_under k i sc rings).
Proof.
  induction rings as [|[k' g] rest IH]; simpl; intros F.
  - constructor; [|constructor]. simpl. split; [discriminate | reflexivity].
  - inversion F as [|? ? [H1 H2] F']; subst. simpl in *.
    destruct (k =? k').
    + constructor; [|exact F']. simpl. split.
      * destruct (GraphView.members g); discriminate.
      * rewrite !length_app. simpl. lia.
    + constructor; [split; assumption | now apply IH].
Qed.

Lemma group_nodes_keeps : forall nodes acc rings,
  GraphView.group_nodes nodes acc = Ok rings ->
  NoDup (map fst acc) ->
  Forall (fun e => GraphView.members (snd e) <> []
                   /\ List.length (GraphView.members (snd e))
                      = List.length (GraphView.scores (snd e))) acc ->
  NoDup (map fst rings)
  /\ Forall (fun e => GraphView.members (snd e) <> []
                      /\ List.length (GraphView.members (snd e))
                         = List.length (GraphView.scores (snd e))) rings
  /\ (forall k, In k (map fst acc) -> In k (map fst rings))
  /\ (forall n k, In n nodes -> GraphView.ring_key n = Some k ->
      In k (map fst rings)).
Proof.
  induction nodes as [|n rest IH]; simpl; intros acc rings H N F.
  - inversion H; subst. repeat split; auto. intros n k [].
  - revert H. destruct (GraphView.ring_key n) as [k0|] eqn:Ek; intros H.
    + match type of H with
      | (if ?b then _ else _) = _ => destruct b; [discriminate|]
      end.
      destruct (file_under_keeps_keys k0 (GraphView.id n) (GraphView.score n) acc N)
        as [N' [I' M']].
      destruct (IH _ _ H N' (file_under_keeps_groups _ _ _ _ F))
        as [R1 [R2 [R3 R4]]].
      repeat split; auto.
      intros n' k [<- | Hin] Hk.
      * rewrite Ek in Hk. inversion Hk; subst. auto.
      * eapply R4; eauto.
    + destruct (IH _ _ H N F) as [R1 [R2 [R3 R4]]].
      repeat split; auto.
      intros n' k [<- | Hin] Hk; [congruence | eapply R4; eauto].
Qed.

(** X15: grouping the nodes of the graph by ring fails exactly when the
    ring id of some node is the name of a member every object inherits,
    such as [constructor] or [toString]; the ids [N/A] and [STANDALONE]
    and a missing id never make it fail. *)
Theorem X15_ring_groups_fail_only_on_an_inherited_name :
  forall nodes : list GraphView.node,
    GraphView.rings_of nodes = Throw
    <-> exists n k,
          In n nodes /\ GraphView.ring_key n = Some k
          /\ In k RingsTable.object_prototype.
Proof.
  intros nodes. unfold GraphView.rings_of. rewrite group_nodes_throw.
  rewrite existsb_exists. split.
  - intros [n [Hn H]]. destruct (GraphView.ring_key n) as [k|] eqn:E; [|discriminate].
    exists n, k. repeat split; auto. now apply mem_In.
  - intros [n [k [Hn [E H]]]]. exists n. split; [exact Hn|].
    rewrite E. now apply mem_In.
Qed.

(** X16: the ring groups of the search index.  When the grouping goes
    through, no ring id has two groups, every node with a ring id finds
    the group of its ring, no group is empty, and every group holds one
    score per member. *)
Theorem X16_ring_groups_are_distinct_and_cover_the_nodes :
  forall (nodes : list GraphView.node) (rings : list (string * GraphView.group)),
    GraphView.rings_of nodes = Ok rings ->
    NoDup (map fst rings)
    /\ (forall n k, In n nodes -> GraphView.ring_key n = Some k ->
        In k (map fst rings)
        /\ In (GraphView.id n) (GraphView.members_of k rings))
    /\ Forall (fun e => GraphView.members (snd e) <> []
                        /\ List.length (GraphView.members (snd e))
                           = List.length (GraphView.scores (snd e))) rings.
Proof.
  intros nodes rings H. unfold GraphView.rings_of in H.
  destruct (group_nodes_keeps _ _ _ H (NoDup_nil _) (Forall_nil _))
    as [R1 [R2 [_ R4]]].
  split; [exact R1|]. split; [|exact R2].
  intros n k Hn Hk. split; [eapply R4; eauto|].
  rewrite (group_nodes_members _ _ _ H k). simpl.
  apply in_map. apply filter_In. split; [exact Hn|].
  unfold GraphView.filed_under. rewrite Hk. apply String.eqb_refl.
Qed.

(** The theorem at three nodes of which one is in a ring. *)
Lemma X16_witness :
  GraphView.rings_of Samples.graph_nodes
  = Ok [ ("RING_001", {| GraphView.members := ["ACC_001"];
                         GraphView.scores := [80%Q] |}) ]
  /\ NoDup ["RING_001"].
Proof.
  assert (H : GraphView.rings_of Samples.graph_nodes
              = Ok [ ("RING_001", {| GraphView.members := ["ACC_001"];
                                     GraphView.scores := [80%Q] |}) ])
    by reflexivity.
  split; [exact H|].
  exact (proj1 (X16_ring_groups_are_distinct_and_cover_the_nodes _ _ H)).
Defined.

Lemma add_keeps p set :
  NoDup set ->
  NoDup (GraphPatterns.add p set)
  /\ In p (GraphPatterns.add p set)
  /\ (forall q, In q set -> In q (GraphPatterns.add p set))
  /\ (forall q, In q (GraphPatterns.add p set) -> q = p \/ In q set).
Proof.
  intros N. unfold GraphPatterns.add.
  destruct (RingsTable.mem p set) eqn:E.
  - apply mem_In in E. repeat split; auto.
  - assert (Hn : ~ In p set) by (intros H; apply mem_In in H; congruence).
    repeat split.
    + now apply nodup_snoc.
    + apply in_or_app. right. now left.
    + intros q H. apply in_or_app. now left.
    + intros q H. apply in_app_or in H. destruct H as [H|[H|[]]]; auto.
Qed.

Lemma add_all_keeps : forall ps set,
  NoDup set ->
  NoDup (fold_left (fun s p => GraphPatterns.add p s) ps set)
  /\ (forall q, In q set \/ In q ps <->
                In q (fold_left (fun s p => GraphPatterns.add p s) ps set)).
Proof.
  induction ps as [|p ps IH]; simpl; intros set N.
  - split; [exact N|]. intros q. split; [intros [H|[]]; exact H | auto].
  - destruct (add_keeps p set N) as [N' [I' [M' O']]].
    destruct (IH _ N') as [R1 R2]. split; [exact R1|].
    intros q. rewrite <- R2. split.
    + intros [H|[<-|H]]; auto.
    + intros [H|H]; auto. destruct (O' _ H) as [->|H']; auto.
Qed.

Lemma patternSet_keeps : forall nodes set,
  NoDup set ->
  NoDup (fold_left
           (fun set n => fold_left (fun s p => GraphPatterns.add p s)
                                   (GraphView.patterns n) set) nodes set)
  /\ (forall q,
        In q set \/ (exists n, In n nodes /\ In q (GraphView.patterns n))
        <-> In q (fold_left
                    (fun set n => fold_left (fun s p => GraphPatterns.add p s)
                                            (GraphView.patterns n) set) nodes set)).
Proof.
  induction nodes as [|n rest IH]; simpl; intros set N.
  - split; [exact N|]. intros q. split; [|auto].
    intros [H|[n [[] _]]]. exact H.
  - destruct (add_all_keeps (GraphView.patterns n) set N) as [N' M'].
    destruct (IH _ N') as [R1 R2]. split; [exact R1|].
    intros q. rewrite <- R2, <- M'. split.
    + intros [H|[n' [[<-|Hn] Hq]]]; auto. right. exists n'. auto.
    + intros [[H|H]|[n' [Hn Hq]]]; auto.
      * right. exists n. auto.
      * right. exists n'. auto.
Qed.

(** X17: the pattern entries of the search index.  Each pattern that some
    node carries has exactly one entry, however many nodes carry it and
    however often; an entry lists every node with the pattern; and no
    entry is without members. *)
Theorem X17_pattern_entries_are_distinct_and_never_empty :
  forall nodes : list GraphView.node,
    NoDup (map GraphPatterns.item_id (GraphPatterns.pattern_items nodes))
    /\ (forall n p, In n nodes -> In p (GraphView.patterns n) ->
        exists it, In it (GraphPatterns.pattern_items nodes)
                   /\ GraphPatterns.item_id it = p
                   /\ In (GraphView.id n) (GraphPatterns.item_members it))
    /\ Forall (fun it => GraphPatterns.item_members it <> [])
              (GraphPatterns.pattern_items nodes).
Proof.
  intros nodes.
  destruct (patternSet_keeps nodes [] (NoDup_nil _)) as [N M].
  fold (GraphPatterns.patternSet nodes) in N, M.
  unfold GraphPatterns.pattern_items. split; [|split].
  - rewrite map_map. simpl. now rewrite map_id.
  - intros n p Hn Hp. exists (GraphPatterns.item_of nodes p).
    split; [|split; [reflexivity|]].
    + apply in_map. apply M. right. exists n. auto.
    + simpl. apply in_map. apply filter_In. split; [exact Hn|].
      now apply mem_In.
  - apply Forall_forall. intros it Hit.
    apply in_map_iff in Hit. destruct Hit as [p [<- Hp]].
    apply M in Hp. destruct Hp as [[]|[n [Hn Hq]]].
    simpl. intros E.
    assert (K : In (GraphView.id n)
                   (map GraphView.id
                      (filter (fun n0 => RingsTable.mem p (GraphView.patterns n0))
                              nodes))).
    { apply in_map. apply filter_In. split; [exact Hn | now apply mem_In]. }
    rewrite E in K. destruct K.
Qed.

(** The theorem at two nodes that share a pattern. *)
Lemma X17_witness :
  In (nth 1 Cases.pattern_nodes (nth 0 Cases.pattern_nodes
        {| GraphView.id := ""; GraphView.score := 0%Q; GraphView.ring_id := None;
           GraphView.suspicious := false; GraphView.patterns := [] |}))
     Cases.pattern_nodes
  /\ exists it, In it (GraphPatterns.pattern_items Cases.pattern_nodes)
                /\ GraphPatterns.item_id it = "cycle"
                /\ In "ACC_002" (GraphPatterns.item_members it).
Proof.
  assert (H1 : In (nth 1 Cases.pattern_nodes (nth 0 Cases.pattern_nodes
        {| GraphView.id := ""; GraphView.score := 0%Q; GraphView.ring_id := None;
           GraphView.suspicious := false; GraphView.patterns := [] |}))
     Cases.pattern_nodes) by (simpl; auto).
  split; [exact H1|].
  refine (proj1 (proj2 (X17_pattern_entries_are_distinct_and_never_empty
                          Cases.pattern_nodes)) _ "cycle" H1 _).
  simpl. auto.
Defined.

(** ** The what-if selection *)

Lemma remove_In x l y :
  In y (WhatIfSimulator.remove x l) <-> In y l /\ y <> x.
Proof.
  unfold WhatIfSimulator.remove. rewrite filter_In. split.
  - intros [H E]. split; [exact H|]. intros ->.
    rewrite String.eqb_refl in E. discriminate.
  - intros [H E]. split; [exact H|].
    destruct (x =? y) eqn:X; [|reflexivity].
    apply String.eqb_eq in X. congruence.
Qed.

Lemma remove_absent x : forall l, ~ In x l -> WhatIfSimulator.remove x l = l.
Proof.
  induction l as [|y l IH]; simpl; intros H; [reflexivity|].
  destruct (x =? y) eqn:E.
  - apply String.eqb_eq in E. subst. exfalso. apply H. now left.
  - simpl. f_equal. apply IH. intros K. apply H. now right.
Qed.

Lemma remove_app x l1 l2 :
  WhatIfSimulator.remove x (l1 ++ l2)
  = (WhatIfSimulator.remove x l1 ++ WhatIfSimulator.remove x l2)%list.
Proof. apply filter_app. Qed.

Lemma remove_perm x : forall l,
  NoDup l -> In x l -> Permutation (WhatIfSimulator.remove x l ++ [x]) l.
Proof.
  induction l as [|y l IH]; simpl; intros N H; [contradiction|].
  inversion N as [|? ? Hy N']; subst.
  destruct (x =? y) eqn:E.
  - apply String.eqb_eq in E. subst y. simpl.
    fold (WhatIfSimulator.remove x l). rewrite (remove_absent x l Hy).
    symmetry. apply Permutation_cons_append.
  - simpl. fold (WhatIfSimulator.remove x l). constructor. apply IH; [exact N'|].
    destruct H as [->|H]; [|exact H]. rewrite String.eqb_refl in E. discriminate.
Qed.

Lemma toggle_nodup n st :
  NoDup (WhatIfSimulator.selectedNodes st) ->
  NoDup (WhatIfSimulator.selectedNodes (WhatIfSimulator.toggleNode n st)).
Proof.
  intros N. unfold WhatIfSimulator.toggleNode.
  cbn [WhatIfSimulator.selectedNodes].
  destruct (RingsTable.mem n (WhatIfSimulator.selectedNodes st)) eqn:E.
  - apply NoDup_filter. exact N.
  - apply nodup_snoc; [exact N|]. intros K. apply mem_In in K. congruence.
Qed.

(** X18: a click on an account flips that account in the selection and no
    other: it is selected afterwards exactly when it was not before, every
    other account stays as it was, no account is ever selected twice, the
    result of an earlier simulation is cleared, and a second click on the
    same account brings back the selection there was. *)
Theorem X18_toggle_flips_one_account_and_twice_restores :
  forall (nodeId : string) (st : WhatIfSimulator.state),
    NoDup (WhatIfSimulator.selectedNodes st) ->
    let st' := WhatIfSimulator.toggleNode nodeId st in
    NoDup (WhatIfSimulator.selectedNodes st')
    /\ (In nodeId (WhatIfSimulator.selectedNodes st')
        <-> ~ In nodeId (WhatIfSimulator.selectedNodes st))
    /\ (forall m, m <> nodeId ->
        (In m (WhatIfSimulator.selectedNodes st')
         <-> In m (WhatIfSimulator.selectedNodes st)))
    /\ WhatIfSimulator.simResult st' = JNull
    /\ Permutation
         (WhatIfSimulator.selectedNodes (WhatIfSimulator.toggleNode nodeId st'))
         (WhatIfSimulator.selectedNodes st).
Proof.
  intros n [sel res ld err] N. simpl in N.
  unfold WhatIfSimulator.toggleNode. cbn [WhatIfSimulator.selectedNodes
    WhatIfSimulator.simResult WhatIfSimulator.loading WhatIfSimulator.error].
  destruct (RingsTable.mem n sel) eqn:E.
  - apply mem_In in E.
    assert (Hn : ~ In n (WhatIfSimulator.remove n sel))
      by (rewrite remove_In; intros [_ K]; congruence).
    assert (M : RingsTable.mem n (WhatIfSimulator.remove n sel) = false).
    { destruct (RingsTable.mem n (WhatIfSimulator.remove n sel)) eqn:M;
        [apply mem_In in M; contradiction | reflexivity]. }
    rewrite M. repeat split.
    + apply NoDup_filter. exact N.
    + intros K. contradiction.
    + intros K. contradiction.
    + rewrite remove_In. tauto.
    + rewrite remove_In. tauto.
    + now apply remove_perm.
  - assert (Hn : ~ In n sel) by (intros K; apply mem_In in K; congruence).
    assert (M : RingsTable.mem n (sel ++ [n]) = true).
    { apply mem_In. apply in_or_app. right. now left. }
    rewrite M. repeat split.
    + now apply nodup_snoc.
    + intros _. exact Hn.
    + intros _. apply in_or_app. right. now left.
    + intros K. apply in_app_or in K. destruct K as [K|[K|[]]]; congruence.
    + intros K. apply in_or_app. now left.
    + rewrite remove_app, (remove_absent n sel Hn). simpl.
      rewrite String.eqb_refl. simpl. now rewrite app_nil_r.
Qed.

(** The theorem at a click on the second of two selected accounts. *)
Lemma X18_witness :
  NoDup ["ACC_001"; "ACC_002"]
  /\ NoDup (WhatIfSimulator.selectedNodes
              (WhatIfSimulator.toggleNode "ACC_002"
                 {| WhatIfSimulator.selectedNodes := ["ACC_001"; "ACC_002"];
                    WhatIfSimulator.simResult := JObj [];
                    WhatIfSimulator.loading := false;
                    WhatIfSimulator.error := None |})).
Proof.
  assert (N : NoDup ["ACC_001"; "ACC_002"]).
  { constructor; [intros [H|[]]; discriminate|].
    constructor; [intros []|constructor]. }
  split; [exact N|].
  exact (proj1 (X18_toggle_flips_one_account_and_twice_restores "ACC_002"
                  {| WhatIfSimulator.selectedNodes := ["ACC_001"; "ACC_002"];
                     WhatIfSimulator.simResult := JObj [];
                     WhatIfSimulator.loading := false;
                     WhatIfSimulator.error := None |} N)).
Defined.

Section SessionFacts.

Variable API_BASE : string.

(** What holds of the panel between two clicks. *)
Lemma session_invariant : forall clicks st,
  let inv := fun (seen : list WhatIfSession.click) (s : WhatIfSimulator.state) =>
    NoDup (WhatIfSimulator.selectedNodes s)
    /\ WhatIfSimulator.loading s = false
    /\ (WhatIfSimulator.simResult s = JNull
        \/ (WhatIfSimulator.selectedNodes s <> []
            /\ exists server,
                 In (WhatIfSession.Run server) seen
                 /\ server (WhatIfSimulator.whatif_request API_BASE
                              (WhatIfSimulator.selectedNodes s))
                    = WhatIfSimulator.Success (WhatIfSimulator.simResult s))) in
  forall seen,
    inv seen st ->
    inv (seen ++ clicks)%list (fold_left (WhatIfSession.step API_BASE) clicks st).
Proof.
  induction clicks as [|c clicks IH]; intros st inv seen H.
  - rewrite app_nil_r. exact H.
  - simpl fold_left.
    replace (seen ++ c :: clicks)%list with ((seen ++ [c]) ++ clicks)%list
      by (rewrite <- app_assoc; reflexivity).
    apply IH. clear IH. destruct H as [N [L R]].
    destruct c as [n | | server]; simpl.
    + pose proof (toggle_nodup n st N) as N'.
      split; [exact N'|]. split; [exact L|]. now left.
    + split; [constructor|]. split; [exact L|]. now left.
    + unfold WhatIfSimulator.runSimulation.
      destruct (WhatIfSimulator.selectedNodes st) as [|x sel] eqn:S.
      * simpl. rewrite S. split; [constructor|]. split; [exact L|].
        destruct R as [R|[R _]]; [now left | congruence].
      * assert (Keep :
          WhatIfSimulator.simResult st = JNull
          \/ (x :: sel <> []
              /\ exists srv,
                   In (WhatIfSession.Run srv) (seen ++ [WhatIfSession.Run server])
                   /\ srv (WhatIfSimulator.whatif_request API_BASE (x :: sel))
                      = WhatIfSimulator.Success (WhatIfSimulator.simResult st))).
        { destruct R as [R|[_ [srv [I E]]]]; [now left|]. right.
          split; [discriminate|]. exists srv.
          split; [apply in_or_app; now left | exact E]. }
        destruct (server (WhatIfSimulator.whatif_request API_BASE (x :: sel)))
          as [d | detail | message] eqn:Srv; simpl.
        -- split; [exact N|]. split; [reflexivity|]. right.
           split; [discriminate|]. exists server.
           split; [apply in_or_app; right; now left | exact Srv].
        -- split; [exact N|]. split; [reflexivity|]. exact Keep.
        -- split; [exact N|]. split; [reflexivity|]. exact Keep.
Qed.

End SessionFacts.

(** X19: what holds of the what-if panel after any sequence of clicks on
    accounts, on Clear and on Run Simulation, each click coming when the
    handler of the one before has finished (a run has its answer before
    the next click).  No account is selected twice, no request is left
    pending, and simulation results are on screen only while accounts are
    selected and only for them: what is shown is the answer some earlier
    run got for exactly the accounts selected now. *)
Theorem X19_simulation_result_belongs_to_the_current_selection :
  forall (API_BASE : string) (clicks : list WhatIfSession.click),
    let st := WhatIfSession.after API_BASE clicks in
    NoDup (WhatIfSimulator.selectedNodes st)
    /\ WhatIfSimulator.loading st = false
    /\ (WhatIfSimulator.results_shown st = true ->
        WhatIfSimulator.run_button_shown st = true
        /\ exists server,
             In (WhatIfSession.Run server) clicks
             /\ server (WhatIfSimulator.whatif_request API_BASE
                          (WhatIfSimulator.selectedNodes st))
                = WhatIfSimulator.Success (WhatIfSimulator.simResult st)).
Proof.
  intros API_BASE clicks st.
  pose proof (session_invariant API_BASE clicks WhatIfSimulator.initial []) as H.
  cbv zeta in H. simpl app in H.
  fold (WhatIfSession.after API_BASE clicks) in H. fold st in H.
  destruct H as [N [L R]].
  - split; [constructor|]. split; [reflexivity|]. now left.
  - split; [exact N|]. split; [exact L|].
    unfold WhatIfSimulator.results_shown. intros T.
    destruct R as [R|[S E]]; [rewrite R in T; discriminate|].
    split; [|exact E].
    unfold WhatIfSimulator.run_button_shown.
    destruct (WhatIfSimulator.selectedNodes st); congruence.
Qed.

(** The theorem after two accounts are selected and a run succeeds. *)
Lemma X19_witness :
  WhatIfSimulator.results_shown
    (WhatIfSession.after "http://localhost:8000"
       [ WhatIfSession.Toggle "ACC_001"; WhatIfSession.Toggle "ACC_002";
         WhatIfSession.Run Samples.echo ])
  = true
  /\ WhatIfSimulator.run_button_shown
       (WhatIfSession.after "http://localhost:8000"
          [ WhatIfSession.Toggle "ACC_001"; WhatIfSession.Toggle "ACC_002";
            WhatIfSession.Run Samples.echo ])
     = true.
Proof.
  assert (H : WhatIfSimulator.results_shown
                (WhatIfSession.after "http://localhost:8000"
                   [ WhatIfSession.Toggle "ACC_001"; WhatIfSession.Toggle "ACC_002";
                     WhatIfSession.Run Samples.echo ])
              = true) by reflexivity.
  split; [exact H|].
  exact (proj1 (proj2 (proj2
           (X19_simulation_result_belongs_to_the_current_selection
              "http://localhost:8000"
              [ WhatIfSession.Toggle "ACC_001"; WhatIfSession.Toggle "ACC_002";
                WhatIfSession.Run Samples.echo ])) H)).
Defined.

(** ** The pipeline strip and the state of the application *)

(** X20: the pipeline strip.  Below zero nothing is drawn; from zero on
    all seven steps are drawn, the steps before the current one as done,
    the current one, if there is one among the seven, as the only active
    step, and the steps after it as pending; from seven on every step is
    done. *)
Theorem X20_pipeline_marks_done_then_active_then_pending :
  forall step : Z,
    ((step < 0)%Z -> Pipeline.render step = None)
    /\ ((0 <= step)%Z ->
        let n := Z.to_nat (Z.min step 7) in
        Pipeline.render step
        = Some (repeat Pipeline.Done n
                ++ (if (step <? 7)%Z
                    then Pipeline.Active :: repeat Pipeline.Pending (6 - n)
                    else []))%list).
Proof.
  intros step. unfold Pipeline.render. split; intros H.
  - destruct (Z.ltb_spec step 0); [reflexivity | lia].
  - destruct (Z.ltb_spec step 0); [lia|]. cbv zeta.
    destruct (Z_le_gt_dec 7 step) as [G|G].
    + replace (Z.min step 7) with 7%Z by lia.
      destruct (Z.ltb_spec step 7); [lia|].
      simpl. unfold Pipeline.status_of.
      repeat match goal with
             | |- context [(?a <? step)%Z] =>
                 destruct (Z.ltb_spec a step); [|lia]
             end. reflexivity.
    + assert (E : step = 0%Z \/ step = 1%Z \/ step = 2%Z \/ step = 3%Z
                  \/ step = 4%Z \/ step = 5%Z \/ step = 6%Z) by lia.
      destruct E as [->|[->|[->|[->|[->|[->| ->]]]]]]; reflexivity.
Qed.

(** The theorem while the third step runs. *)
Lemma X20_witness :
  (0 <= 2)%Z
  /\ Pipeline.render 2
     = Some [ Pipeline.Done; Pipeline.Done; Pipeline.Active; Pipeline.Pending;
              Pipeline.Pending; Pipeline.Pending; Pipeline.Pending ].
Proof.
  assert (H : (0 <= 2)%Z) by lia.
  split; [exact H|].
  exact (proj2 (X20_pipeline_marks_done_then_active_then_pending 2) H).
Defined.

Lemma app_invariant : forall events st,
  let inv := fun s : AppState.state =>
    AppState.loading s = false
    /\ (AppState.pipelineStep s = 7%Z \/ AppState.pipelineStep s = (-1)%Z)
    /\ (AppState.error s <> None ->
        AppState.results s = JNull /\ AppState.pipelineStep s = (-1)%Z)
    /\ (AppState.results s <> JNull ->
        AppState.pipelineStep s = 7%Z /\ AppState.error s = None) in
  inv st -> inv (fold_left AppState.step events st).
Proof.
  induction events as [|e events IH]; intros st inv H; [exact H|].
  simpl fold_left. apply IH. clear IH.
  destruct H as [L [P [E R]]].
  destruct e as [[data | detail | message] | | t]; simpl.
  - repeat split; auto; congruence.
  - repeat split; auto; congruence.
  - repeat split; auto; congruence.
  - repeat split; auto; congruence.
  - repeat split; auto; try (now apply E); now apply R.
Qed.

(** X21: what the application shows after any sequence of uploads, of
    clicks on New Analysis and of tab changes, each upload having run to
    its end.  The error banner and the result area are never on screen
    together; while the banner is shown there are no results and no
    pipeline strip; while the result area is shown the strip marks all
    seven steps as done; and no upload is left loading. *)
Theorem X21_error_banner_and_results_never_show_together :
  forall events : list AppState.event,
    let st := AppState.after events in
    AppState.loading st = false
    /\ (AppState.banner_shown st = true ->
        AppState.area_shown st = false
        /\ Pipeline.render (AppState.pipelineStep st) = None)
    /\ (AppState.area_shown st = true ->
        AppState.banner_shown st = false
        /\ Pipeline.render (AppState.pipelineStep st)
           = Some (repeat Pipeline.Done 7)).
Proof.
  intros events st.
  pose proof (app_invariant events AppState.initial) as H. cbv zeta in H.
  fold (AppState.after events) in H. fold st in H.
  destruct H as [L [P [E R]]].
  - simpl. repeat split; auto; congruence.
  - split; [exact L|]. split.
    + unfold AppState.banner_shown, AppState.area_shown. intros B.
      destruct (AppState.error st) eqn:Er; [|discriminate].
      destruct E as [E1 E2]; [discriminate|]. rewrite E1, E2. split; reflexivity.
    + unfold AppState.banner_shown, AppState.area_shown. intros A.
      destruct R as [R1 R2].
      * intros K. rewrite K in A. discriminate.
      * rewrite R1, R2. split; reflexivity.
Qed.

(** The theorem after an upload that the server refuses. *)
Lemma X21_witness :
  AppState.banner_shown
    (AppState.after [AppState.Upload (AppState.Rejected (Some "Missing column"))])
  = true
  /\ AppState.area_shown
       (AppState.after [AppState.Upload (AppState.Rejected (Some "Missing column"))])
     = false.
Proof.
  assert (H : AppState.banner_shown
                (AppState.after
                   [AppState.Upload (AppState.Rejected (Some "Missing column"))])
              = true) by reflexivity.
  split; [exact H|].
  exact (proj1 (proj1 (proj2
           (X21_error_banner_and_results_never_show_together
              [AppState.Upload (AppState.Rejected (Some "Missing column"))])) H)).
Defined.

(** ** The action cards and the formatted text of the crime team panel *)

Lemma insert_ext {A} (c1 c2 : A -> A -> Z) x : forall l,
  (forall y, In y l -> c1 x y = c2 x y) ->
  JsSort.insert c1 x l = JsSort.insert c2 x l.
Proof.
  induction l as [|y l IH]; simpl; intros H; [reflexivity|].
  rewrite (H y (or_introl eq_refl)).
  destruct (c2 x y <=? 0)%Z; [reflexivity|].
  f_equal. apply IH. intros z Hz. apply H. now right.
Qed.

Lemma sort_ext {A} (c1 c2 : A -> A -> Z) : forall l,
  (forall x y, In x l -> In y l -> c1 x y = c2 x y) ->
  JsSort.sort c1 l = JsSort.sort c2 l.
Proof.
  induction l as [|x l IH]; simpl; intros H; [reflexivity|].
  rewrite IH by (intros; apply H; now right).
  apply insert_ext. intros y Hy. apply H; [now left|].
  right. eapply Permutation_in; [apply sort_perm | exact Hy].
Qed.

Lemma strongly_sorted_after {A} (R : A -> A -> Prop) a l2 : forall l1,
  StronglySorted R (l1 ++ a :: l2) -> Forall (R a) l2.
Proof.
  induction l1 as [|x l1 IH]; simpl; intros S; inversion S; subst; auto.
Qed.

(** X22: the order of the action cards.  For actions whose priorities are
    no names of inherited members, the cards are the given actions, each
    once, in the order of the number their priority stands for.  As the
    number of [CRITICAL] is zero and zero gives way to nine, a [CRITICAL]
    action has the number nine: no [HIGH], [MEDIUM] or [STANDARD] action
    is ever shown after a [CRITICAL] one. *)
Theorem X22_critical_actions_are_shown_last :
  forall actions : list CrimeTeam.action,
    Forall (fun a => CrimeTeam.rank (CrimeTeam.priority a) <> None) actions ->
    Permutation (CrimeTeam.sorted actions) actions
    /\ StronglySorted
         (fun a b => (Measure.rank_number a <= Measure.rank_number b)%Z)
         (CrimeTeam.sorted actions)
    /\ (forall l1 a l2,
          CrimeTeam.sorted actions = (l1 ++ a :: l2)%list ->
          CrimeTeam.priority a = "CRITICAL" ->
          Forall (fun b => CrimeTeam.priority b <> "HIGH"
                           /\ CrimeTeam.priority b <> "MEDIUM"
                           /\ CrimeTeam.priority b <> "STANDARD") l2).
Proof.
  intros actions F. unfold CrimeTeam.sorted.
  assert (E : JsSort.sort CrimeTeam.compare actions
              = JsSort.sort (fun a b => (Measure.rank_number a
                                         - Measure.rank_number b)%Z) actions).
  { apply sort_ext. intros x y Hx Hy.
    rewrite Forall_forall in F.
    pose proof (F x Hx) as Fx. pose proof (F y Hy) as Fy.
    unfold CrimeTeam.compare, Measure.rank_number.
    destruct (CrimeTeam.rank (CrimeTeam.priority x)); [|congruence].
    destruct (CrimeTeam.rank (CrimeTeam.priority y)); [|congruence].
    reflexivity. }
  assert (S : StronglySorted
                (fun a b => (Measure.rank_number a <= Measure.rank_number b)%Z)
                (JsSort.sort CrimeTeam.compare actions)).
  { rewrite E. eapply strongly_sorted_impl.
    2: { apply sort_sorted; intros; lia. }
    simpl. intros a b H. lia. }
  split; [apply sort_perm|]. split; [exact S|].
  intros l1 a l2 H Ha. rewrite H in S.
  apply strongly_sorted_after in S.
  eapply Forall_impl; [|exact S]. simpl. intros b Hb.
  unfold Measure.rank_number in Hb. rewrite Ha in Hb. simpl in Hb.
  repeat split; intros K; rewrite K in Hb; simpl in Hb; lia.
Qed.

(** The theorem at three actions, the critical one given first. *)
Lemma X22_witness :
  Forall (fun a => CrimeTeam.rank (CrimeTeam.priority a) <> None) Cases.actions
  /\ CrimeTeam.sorted Cases.actions
     = [ Cases.act "HIGH" "File report"; Cases.act "MEDIUM" "Review ring";
         Cases.act "CRITICAL" "Freeze ACC_001" ]
  /\ Permutation (CrimeTeam.sorted Cases.actions) Cases.actions.
Proof.
  assert (H : Forall (fun a => CrimeTeam.rank (CrimeTeam.priority a) <> None)
                     Cases.actions)
    by (repeat constructor; discriminate).
  split; [exact H|]. split; [reflexivity|].
  exact (proj1 (X22_critical_actions_are_shown_last Cases.actions H)).
Defined.

Lemma take_while_no_star : forall s a b,
  SyntaxJson.take_while CrimeTeam.not_star s = (a, b) ->
  Measure.contains_star a = false.
Proof.
  induction s as [|c r IH]; simpl; intros a b H.
  - inversion H. reflexivity.
  - destruct (CrimeTeam.not_star c) eqn:E.
    + destruct (SyntaxJson.take_while CrimeTeam.not_star r) as [a' b'] eqn:T.
      inversion H; subst. unfold Measure.contains_star.
      cbn [Text.includes Text.is_prefix].
      unfold CrimeTeam.not_star, CrimeTeam.star in E.
      rewrite Ascii.eqb_sym in E. apply negb_true_iff in E. rewrite E.
      cbn [andb orb]. apply (IH _ _ eq_refl).
    + inversion H. reflexivity.
Qed.

Lemma bold_at_shape s m rest :
  CrimeTeam.bold_at s = Some (m, rest) ->
  s = m ++ rest
  /\ exists inner, m = "**" ++ inner ++ "**"
                   /\ inner <> "" /\ Measure.contains_star inner = false.
Proof.
  unfold CrimeTeam.bold_at.
  destruct s as [|a [|b r]]; try discriminate.
  destruct (Ascii.eqb a CrimeTeam.star && Ascii.eqb b CrimeTeam.star) eqn:E;
    [|discriminate].
  apply andb_true_iff in E. destruct E as [Ea Eb].
  apply Ascii.eqb_eq in Ea, Eb. subst a b.
  destruct (SyntaxJson.take_while CrimeTeam.not_star r) as [inner r'] eqn:T.
  pose proof (take_while_split _ _ _ _ T) as Hs.
  pose proof (take_while_no_star _ _ _ T) as Hn.
  destruct inner as [|i0 inner]; [discriminate|].
  destruct r' as [|c [|d rest']]; try discriminate.
  destruct (Ascii.eqb c CrimeTeam.star && Ascii.eqb d CrimeTeam.star) eqn:E;
    [|discriminate].
  apply andb_true_iff in E. destruct E as [Ec Ed].
  apply Ascii.eqb_eq in Ec, Ed. subst c d.
  intros H. inversion H; subst m rest. split.
  - rewrite Hs. simpl. rewrite append_assoc. reflexivity.
  - exists (String i0 inner). split; [reflexivity|]. split; [discriminate | exact Hn].
Qed.

Lemma find_bold_shape : forall s gap m rest,
  CrimeTeam.find_bold s = Some (gap, m, rest) ->
  s = gap ++ m ++ rest
  /\ exists inner, m = "**" ++ inner ++ "**"
                   /\ inner <> "" /\ Measure.contains_star inner = false.
Proof.
  induction s as [|c r IH]; intros gap m rest H.
  - simpl in H. discriminate.
  - cbn [CrimeTeam.find_bold] in H.
    destruct (CrimeTeam.bold_at (String c r)) as [[m' rest']|] eqn:B.
    + inversion H; subst. simpl. now apply bold_at_shape.
    + destruct (CrimeTeam.find_bold r) as [[[g' m'] rest']|] eqn:F; [|discriminate].
      inversion H; subst. destruct (IH _ _ _ eq_refl) as [Hs Hm].
      split; [simpl; now f_equal | exact Hm].
Qed.

Lemma find_bold_shorter s gap m rest :
  CrimeTeam.find_bold s = Some (gap, m, rest) ->
  (String.length rest < String.length s)%nat.
Proof.
  intros H. apply find_bold_shape in H.
  destruct H as [-> [inner [-> _]]].
  rewrite !length_append. simpl. lia.
Qed.

Lemma split_from_fuel : forall f1 f2 s,
  (String.length s < f1)%nat -> (String.length s < f2)%nat ->
  CrimeTeam.split_from f1 s = CrimeTeam.split_from f2 s.
Proof.
  induction f1 as [|f1 IH]; intros f2 s H1 H2; [lia|].
  destruct f2 as [|f2]; [lia|]. simpl.
  destruct (CrimeTeam.find_bold s) as [[[gap m] rest]|] eqn:F; [|reflexivity].
  pose proof (find_bold_shorter _ _ _ _ F).
  do 2 f_equal. apply IH; lia.
Qed.

Lemma split_from_join : forall fuel s,
  Measure.join (CrimeTeam.split_from fuel s) = s.
Proof.
  induction fuel as [|fuel IH]; intros s; simpl.
  - apply append_nil_r.
  - destruct (CrimeTeam.find_bold s) as [[[gap m] rest]|] eqn:F; simpl.
    + rewrite IH. apply find_bold_shape in F. destruct F as [-> _]. reflexivity.
    + apply append_nil_r.
Qed.

Lemma split_from_odd : forall fuel s i part,
  nth_error (CrimeTeam.split_from fuel s) i = Some part ->
  Nat.odd i = true ->
  exists inner, part = "**" ++ inner ++ "**"
                /\ inner <> "" /\ Measure.contains_star inner = false.
Proof.
  induction fuel as [|fuel IH]; intros s i part H O; simpl in H.
  - destruct i as [|[|i]]; simpl in *; discriminate.
  - destruct (CrimeTeam.find_bold s) as [[[gap m] rest]|] eqn:F.
    + destruct i as [|[|i]]; [discriminate| |].
      * simpl in H. inversion H; subst. apply find_bold_shape in F. tauto.
      * simpl in H. apply (IH rest i part H).
        rewrite Nat.odd_succ, Nat.even_succ in O. exact O.
    + destruct i as [|[|i]]; simpl in *; discriminate.
Qed.

Lemma split_from_last : forall fuel s,
  (String.length s < fuel)%nat ->
  CrimeTeam.find_bold (last (CrimeTeam.split_from fuel s) "") = None.
Proof.
  induction fuel as [|fuel IH]; intros s H; [lia|].
  cbn [CrimeTeam.split_from].
  destruct (CrimeTeam.find_bold s) as [[[gap m] rest]|] eqn:F.
  - pose proof (find_bold_shorter _ _ _ _ F).
    assert (N : CrimeTeam.split_from fuel rest <> []).
    { destruct fuel; simpl; [discriminate|].
      destruct (CrimeTeam.find_bold rest) as [[[? ?] ?]|]; discriminate. }
    destruct (CrimeTeam.split_from fuel rest) as [|p ps] eqn:S; [congruence|].
    change (last (gap :: m :: p :: ps) "") with (last (p :: ps) "").
    rewrite <- S. apply IH. lia.
  - simpl. exact F.
Qed.

Lemma ends_with_stars_app : forall a,
  CrimeTeam.ends_with_stars (a ++ "**") = true.
Proof.
  induction a as [|c a IH]; [reflexivity|].
  simpl. destruct (a ++ "**") as [|x [|y r]] eqn:E.
  - destruct a; discriminate.
  - destruct a as [|? [|? ?]]; discriminate.
  - destruct r; exact IH.
Qed.

Lemma drop_last_two_app : forall a,
  CrimeTeam.drop_last_two (a ++ "**") = a.
Proof.
  induction a as [|c a IH]; [reflexivity|].
  simpl. destruct (a ++ "**") as [|x [|y r]] eqn:E.
  - destruct a; discriminate.
  - destruct a as [|? [|? ?]]; discriminate.
  - destruct r.
    + destruct a as [|? [|? ?]]; try discriminate. reflexivity.
    + now rewrite IH.
Qed.

Lemma render_bold inner :
  CrimeTeam.render_part ("**" ++ inner ++ "**") = [CrimeTeam.Strong inner].
Proof.
  unfold CrimeTeam.render_part, CrimeTeam.looks_bold.
  assert (E : CrimeTeam.ends_with_stars ("**" ++ inner ++ "**") = true).
  { change ("**" ++ inner ++ "**") with (("*" ++ "*" ++ inner) ++ "**") at 1.
    replace ("**" ++ inner ++ "**") with (String "*" (String "*" inner) ++ "**")
      by reflexivity.
    apply ends_with_stars_app. }
  rewrite E. simpl Text.is_prefix. cbn [andb]. f_equal. f_equal.
  simpl. pose proof (drop_last_two_app inner) as D.
  destruct (inner ++ "**") as [|x [|y r]] eqn:K.
  - destruct inner; discriminate.
  - destruct inner as [|? [|? ?]]; discriminate.
  - exact D.
Qed.

(** X23: how [FormattedText] cuts a text at its bold parts.  The pieces,
    put together again, are the text, stars included; every second piece
    is a bold part, two stars, one or more characters that are no stars,
    two stars, and is shown as its inside in bold; after the last bold
    part found there is no further one; and the number of rounds allowed
    for the cutting is never what ends it. *)
Theorem X23_formatted_text_is_cut_at_its_bold_parts :
  forall text : string,
    Measure.join (CrimeTeam.split_bold text) = text
    /\ (forall i part,
          nth_error (CrimeTeam.split_bold text) i = Some part ->
          Nat.odd i = true ->
          exists inner,
            part = "**" ++ inner ++ "**"
            /\ inner <> "" /\ Measure.contains_star inner = false
            /\ CrimeTeam.render_part part = [CrimeTeam.Strong inner])
    /\ CrimeTeam.find_bold (last (CrimeTeam.split_bold text) "") = None
    /\ (forall rounds, (String.length text < rounds)%nat ->
        CrimeTeam.split_from rounds text = CrimeTeam.split_bold text).
Proof.
  intros text. unfold CrimeTeam.split_bold. split; [apply split_from_join|].
  split; [|split].
  - intros i part H O.
    destruct (split_from_odd _ _ _ _ H O) as [inner [-> [H1 H2]]].
    exists inner. repeat split; auto. apply render_bold.
  - apply split_from_last. lia.
  - intros rounds H. apply split_from_fuel; lia.
Qed.

(** The theorem at a text with one bold part. *)
Lemma X23_witness :
  nth_error (CrimeTeam.split_bold "Freeze **ACC_001** now") 1 = Some "**ACC_001**"
  /\ Nat.odd 1 = true
  /\ exists inner,
       "**ACC_001**" = "**" ++ inner ++ "**"
       /\ inner <> "" /\ Measure.contains_star inner = false
       /\ CrimeTeam.render_part "**ACC_001**" = [CrimeTeam.Strong inner].
Proof.
  assert (H : nth_error (CrimeTeam.split_bold "Freeze **ACC_001** now") 1
              = Some "**ACC_001**") by reflexivity.
  assert (O : Nat.odd 1 = true) by reflexivity.
  split; [exact H|]. split; [exact O|].
  exact (proj1 (proj2 (X23_formatted_text_is_cut_at_its_bold_parts
                         "Freeze **ACC_001** now")) 1%nat "**ACC_001**" H O).
Defined.

Lemma no_star_head c r :
  Measure.contains_star (String c r) = false ->
  Ascii.eqb "*" c = false /\ Measure.contains_star r = false.
Proof.
  unfold Measure.contains_star. cbn [Text.includes Text.is_prefix].
  intros H. apply orb_false_iff in H. destruct H as [H1 H2].
  split; [|exact H2]. destruct (Ascii.eqb "*" c); [|reflexivity].
  destruct r; discriminate.
Qed.

Lemma no_star_no_bold : forall s,
  Measure.contains_star s = false -> CrimeTeam.find_bold s = None.
Proof.
  induction s as [|c r IH]; intros H; [reflexivity|].
  destruct (no_star_head _ _ H) as [Hc Hr].
  cbn [CrimeTeam.find_bold]. rewrite (IH Hr).
  assert (B : CrimeTeam.bold_at (String c r) = None).
  { unfold CrimeTeam.bold_at. destruct r as [|b r']; [reflexivity|].
    unfold CrimeTeam.star. rewrite Ascii.eqb_sym, Hc. reflexivity. }
  now rewrite B.
Qed.

Lemma no_star_not_bold s :
  Measure.contains_star s = false -> CrimeTeam.looks_bold s = false.
Proof.
  intros H. unfold CrimeTeam.looks_bold. destruct s as [|c r]; [reflexivity|].
  destruct (no_star_head _ _ H) as [Hc _].
  cbn [Text.is_prefix]. rewrite Hc. reflexivity.
Qed.

Lemma shown_spans_false l ls :
  Measure.join (map CrimeTeam.shown (CrimeTeam.spans false (l :: ls)))
  = String (ascii_of_nat 10)
      (Measure.join (map CrimeTeam.shown (CrimeTeam.spans true (l :: ls)))).
Proof. reflexivity. Qed.

Lemma shown_first l rest :
  Measure.join (map CrimeTeam.shown (CrimeTeam.spans true (l :: rest)))
  = l ++ Measure.join (map CrimeTeam.shown (CrimeTeam.spans false rest)).
Proof. reflexivity. Qed.

Lemma shown_lines : forall s,
  CrimeTeam.split_lines s <> []
  /\ Measure.join (map CrimeTeam.shown (CrimeTeam.spans true (CrimeTeam.split_lines s)))
     = s.
Proof.
  induction s as [|c r [N IH]]; [split; [discriminate | reflexivity]|].
  cbn [CrimeTeam.split_lines].
  destruct (CrimeTeam.split_lines r) as [|l ls] eqn:E; [congruence|].
  destruct (Ascii.eqb c (ascii_of_nat 10)) eqn:C.
  - apply Ascii.eqb_eq in C. subst c. split; [discriminate|].
    rewrite shown_first. cbn [append].
    rewrite shown_spans_false, IH. reflexivity.
  - split; [discriminate|].
    rewrite shown_first in *. cbn [append]. f_equal. exact IH.
Qed.

Lemma spans_never_strong : forall ls first,
  Forall (fun i => forall s, i <> CrimeTeam.Strong s) (CrimeTeam.spans first ls).
Proof.
  induction ls as [|l ls IH]; intros first; simpl; [constructor|].
  destruct first; simpl; repeat (constructor; [discriminate|]); apply IH.
Qed.

(** X24: a text without a star is shown as it is.  [FormattedText] then
    puts nothing in bold, and what it shows, a line break counted as the
    line feed it stands for, is the text again, character by character. *)
Theorem X24_text_without_stars_is_shown_unchanged :
  forall text : string,
    Measure.contains_star text = false ->
    CrimeTeam.visible (CrimeTeam.FormattedText text) = text
    /\ Forall (fun i => forall s, i <> CrimeTeam.Strong s)
              (CrimeTeam.FormattedText text).
Proof.
  intros text H.
  assert (E : CrimeTeam.FormattedText text
              = CrimeTeam.spans true (CrimeTeam.split_lines text)).
  { unfold CrimeTeam.FormattedText, CrimeTeam.split_bold.
    cbn [CrimeTeam.split_from]. rewrite (no_star_no_bold _ H).
    cbn [flat_map]. rewrite app_nil_r.
    unfold CrimeTeam.render_part. now rewrite (no_star_not_bold _ H). }
  rewrite E. split.
  - unfold CrimeTeam.visible. rewrite concat_is_join. apply shown_lines.
  - apply spans_never_strong.
Qed.

(** The theorem at a text of two lines. *)
Lemma X24_witness :
  Measure.contains_star ("Freeze the account" ++ Samples.LF ++ "and report") = false
  /\ CrimeTeam.visible
       (CrimeTeam.FormattedText ("Freeze the account" ++ Samples.LF ++ "and report"))
     = "Freeze the account" ++ Samples.LF ++ "and report".
Proof.
  assert (H : Measure.contains_star
                ("Freeze the account" ++ Samples.LF ++ "and report") = false)
    by reflexivity.
  split; [exact H|].
  exact (proj1 (X24_text_without_stars_is_shown_unchanged _ H)).
Defined.

(** ** The risk bars of the case file *)

Lemma height_at_least_8 value max : (8 <= RiskBar.height value max)%Q.
Proof.
  unfold RiskBar.height. cbv zeta.
  destruct (Qle_bool (RiskBar.pct value max) 8) eqn:E; [lra|].
  apply Qle_bool_false in E. lra.
Qed.

(** X25: a risk bar of the case file is never lower than 8 percent, is
    exactly 8 percent when the total is zero or less, never rises above
    100 percent while its value is between zero and the total, and of two
    bars over the same total the one with the greater value is not the
    lower one. *)
Theorem X25_risk_bar_height_stays_between_8_and_100 :
  forall value max : Q,
    (8 <= RiskBar.height value max)%Q
    /\ ((max <= 0)%Q -> RiskBar.height value max = 8%Q)
    /\ ((0 <= value)%Q -> (value <= max)%Q -> (0 < max)%Q ->
        (RiskBar.height value max <= 100)%Q)
    /\ (forall value', (0 < max)%Q -> (value <= value')%Q ->
        (RiskBar.height value max <= RiskBar.height value' max)%Q).
Proof.
  intros value max. split; [apply height_at_least_8|]. split; [|split].
  - intros H. unfold RiskBar.height, RiskBar.pct.
    apply Qle_bool_iff in H. rewrite H. reflexivity.
  - intros H0 H1 H2. unfold RiskBar.height, RiskBar.pct. cbv zeta.
    assert (M : Qle_bool max 0 = false).
    { destruct (Qle_bool max 0) eqn:E; [|reflexivity].
      apply Qle_bool_iff in E. lra. }
    rewrite M. simpl negb. cbv iota.
    destruct (Qle_bool (value / max * 100) 8); [lra|].
    assert (D : (value / max <= 1)%Q).
    { apply Qle_shift_div_r; [exact H2 | lra]. }
    lra.
  - intros value' H2 H. unfold RiskBar.height, RiskBar.pct. cbv zeta.
    assert (M : Qle_bool max 0 = false).
    { destruct (Qle_bool max 0) eqn:E; [|reflexivity].
      apply Qle_bool_iff in E. lra. }
    rewrite M. simpl negb. cbv iota.
    assert (D : (value / max <= value' / max)%Q).
    { apply Qle_shift_div_r; [exact H2|].
      assert (K : (value' / max * max == value')%Q) by (field; lra).
      rewrite K. exact H. }
    destruct (Qle_bool (value / max * 100) 8) eqn:E1;
      destruct (Qle_bool (value' / max * 100) 8) eqn:E2;
      try apply Qle_bool_iff in E1; try apply Qle_bool_iff in E2;
      try apply Qle_bool_false in E1; try apply Qle_bool_false in E2; lra.
Qed.

(** The theorem at three of twelve suspicious accounts. *)
Lemma X25_witness :
  (0 <= 3)%Q /\ (3 <= 12)%Q /\ (0 < 12)%Q /\ (RiskBar.height 3 12 <= 100)%Q.
Proof.
  assert (H0 : (0 <= 3)%Q) by lra.
  assert (H1 : (3 <= 12)%Q) by lra.
  assert (H2 : (0 < 12)%Q) by lra.
  repeat (split; [assumption|]).
  exact (proj1 (proj2 (proj2 (X25_risk_bar_height_stays_between_8_and_100 3 12)))
           H0 H1 H2).
Defined.

(** ** The result area as a whole *)

Section AreaFacts.

Context {Stats Graph Rings Card Detail Crime WhatIf N8n : Type}.
Variable StatsGrid : JsVal -> result Stats.
Variable GraphView : JsVal -> result Graph.
Variable RingsTable : JsVal -> JsVal -> JsVal -> result Rings.
Variable CircuitCard : JsVal -> nat -> result Card.
Variable RingDisruptionDetail : JsVal -> result Detail.
Variable CrimeTeamPanel : JsVal -> result Crime.
Variable WhatIfSimulator : JsVal -> JsVal -> JsVal -> result WhatIf.
Variable N8nPanel : JsVal -> result N8n.

(** X26: the JSON output is built on every tab, so a list it cannot map
    takes the whole result area down whichever tab is open: when the
    result is there and its [suspicious_accounts] or [fraud_rings] is a
    truthy value that is no array, or an array holding [null], nothing of
    the area is drawn, not even a tab that reads neither list; and
    without a result the area is simply not there. *)
Theorem X26_unmappable_list_takes_down_every_tab :
  forall (results : JsVal) (activeTab : App.Tab),
    (truthy results = false ->
     App.render StatsGrid GraphView RingsTable CircuitCard RingDisruptionDetail
       CrimeTeamPanel WhatIfSimulator N8nPanel results activeTab = Ok None)
    /\ (truthy results = true ->
        Measure.unmappable (JsonOutputPanel.field "suspicious_accounts" results) = true
        \/ Measure.unmappable (JsonOutputPanel.field "fraud_rings" results) = true ->
        App.render StatsGrid GraphView RingsTable CircuitCard RingDisruptionDetail
          CrimeTeamPanel WhatIfSimulator N8nPanel results activeTab = Throw).
Proof.
  intros results tab. unfold App.render. split.
  - intros T. rewrite T. reflexivity.
  - intros T U. rewrite T. simpl negb. cbv iota.
    rewrite (get_is results) by now apply truthy_not_nullish. cbn [bind].
    destruct (StatsGrid _); cbn [bind]; [|reflexivity].
    assert (E : JsonOutputPanel.outputJson results = Throw).
    { unfold JsonOutputPanel.outputJson. rewrite T. simpl negb. cbv iota.
      rewrite !(get_is results) by now apply truthy_not_nullish. cbn [bind].
      destruct U as [U|U].
      - apply (map_arr_throw JsonOutputPanel.account_out _ account_out_throw) in U.
        rewrite U. reflexivity.
      - destruct (map_arr _ JsonOutputPanel.account_out); cbn [bind]; [|reflexivity].
        apply (map_arr_throw JsonOutputPanel.ring_out _ ring_out_throw) in U.
        rewrite U. reflexivity. }
    rewrite E. reflexivity.
Qed.

End AreaFacts.

(** The theorem at a result whose ring list holds [null], with the n8n
    tab open. *)
Lemma X26_witness :
  truthy (JObj [("fraud_rings", JArr [JNull])]) = true
  /\ Measure.unmappable
       (JsonOutputPanel.field "fraud_rings" (JObj [("fraud_rings", JArr [JNull])]))
     = true
  /\ App.render (fun _ => Ok tt) (fun _ => Ok tt) (fun _ _ _ => Ok tt)
       (fun _ _ => Ok tt) (fun _ => Ok tt) (fun _ => Ok tt) (fun _ _ _ => Ok tt)
       (fun _ => Ok tt) (JObj [("fraud_rings", JArr [JNull])]) App.n8n
     = Throw.
Proof.
  assert (T : truthy (JObj [("fraud_rings", JArr [JNull])]) = true) by reflexivity.
  assert (U : Measure.unmappable
                (JsonOutputPanel.field "fraud_rings"
                   (JObj [("fraud_rings", JArr [JNull])])) = true) by reflexivity.
  split; [exact T|]. split; [exact U|].
  exact (proj2 (X26_unmappable_list_takes_down_every_tab
                  (fun _ => Ok tt) (fun _ => Ok tt) (fun _ _ _ => Ok tt)
                  (fun _ _ => Ok tt) (fun _ => Ok tt) (fun _ => Ok tt)
                  (fun _ _ _ => Ok tt) (fun _ => Ok tt)
                  (JObj [("fraud_rings", JArr [JNull])]) App.n8n)
           T (or_intror U)).
Defined.

Section SelectorFacts.

Context {Detail : Type}.
Variable RingDisruptionDetail : JsVal -> result Detail.

(** X27: the ring selector of the disruption panel.  For a list of
    strategies that is not empty it has one button per strategy, and the
    detail pane is there exactly when the selected position holds a
    strategy: a position past the end of the list leaves the buttons and
    no detail. *)
Theorem X27_ring_selector_has_a_button_per_strategy :
  forall (selectedRing : nat) (l : list JsVal) buttons d,
    l <> [] ->
    DisruptionPanel.ring_part RingDisruptionDetail selectedRing (JArr l)
    = Ok (buttons, d) ->
    List.length buttons = List.length l
    /\ (d = None <-> truthy (nth selectedRing l JUndefined) = false)
    /\ ((List.length l <= selectedRing)%nat -> d = None).
Proof.
  intros sel l buttons d Hl H.
  destruct l as [|s0 l0]; [congruence|].
  remember (s0 :: l0) as l eqn:El.
  unfold DisruptionPanel.ring_part in H. rewrite El in H. rewrite <- El in H.
  apply bind_ok in H. destruct H as [bs [M H]].
  assert (T : truthy (or_else (nth sel l JUndefined) JNull)
              = truthy (nth sel l JUndefined)).
  { unfold or_else. destruct (truthy (nth sel l JUndefined)) eqn:E; auto. }
  rewrite T in H.
  assert (R : d = None <-> truthy (nth sel l JUndefined) = false).
  { destruct (truthy (nth sel l JUndefined)).
    - apply bind_ok in H. destruct H as [x [_ H]]. inversion H.
      split; discriminate.
    - inversion H. split; reflexivity. }
  split.
  - apply mapM_length in M.
    destruct (truthy (nth sel l JUndefined)).
    + apply bind_ok in H. destruct H as [x [_ H]]. inversion H. now subst.
    + inversion H. now subst.
  - split; [exact R|]. intros G. apply R.
    rewrite nth_overflow by exact G. reflexivity.
Qed.

End SelectorFacts.

(** The theorem at one strategy with the second position selected. *)
Lemma X27_witness :
  [JObj [("ring_id", JStr "RING_001")]] <> []
  /\ DisruptionPanel.ring_part (fun _ => Ok tt) 1 (JArr [JObj [("ring_id", JStr "RING_001")]])
     = Ok ([(JStr "RING_001", JUndefined)], None)
  /\ List.length [(JStr "RING_001", JUndefined)] = 1%nat.
Proof.
  assert (H1 : [JObj [("ring_id", JStr "RING_001")]] <> []) by discriminate.
  assert (H2 : DisruptionPanel.ring_part (fun _ => Ok tt) 1
                 (JArr [JObj [("ring_id", JStr "RING_001")]])
               = Ok ([(JStr "RING_001", JUndefined)], @None unit)) by reflexivity.
  split; [exact H1|]. split; [exact H2|].
  exact (proj1 (X27_ring_selector_has_a_button_per_strategy
                  (fun _ => Ok tt) 1 _ _ _ H1 H2)).
Defined.

(** ** The line numbers beside the JSON output *)

Lemma split_lines_length : forall s,
  List.length (CrimeTeam.split_lines s) = JsonOutputPanel.lineCount s.
Proof.
  induction s as [|c r IH]; [reflexivity|].
  cbn [CrimeTeam.split_lines JsonOutputPanel.lineCount].
  destruct (Ascii.eqb c (ascii_of_nat 10)).
  - simpl. now rewrite IH.
  - destruct (CrimeTeam.split_lines r) as [|l ls] eqn:E.
    + destruct (shown_lines r) as [N _]. congruence.
    + rewrite <- IH. reflexivity.
Qed.

Lemma lineCount_positive : forall s, (1 <= JsonOutputPanel.lineCount s)%nat.
Proof.
  induction s as [|c r IH]; simpl; [lia|].
  destruct (Ascii.eqb c (ascii_of_nat 10)); lia.
Qed.

(** X28: the gutter beside the JSON output numbers the lines of the text:
    its count is the number of pieces the text falls into at its line
    feeds, so it is never zero, and two texts joined by a line feed have
    the counts of both together. *)
Theorem X28_line_count_is_the_number_of_lines :
  forall a b : string,
    JsonOutputPanel.lineCount a = List.length (CrimeTeam.split_lines a)
    /\ (1 <= JsonOutputPanel.lineCount a)%nat
    /\ JsonOutputPanel.lineCount (a ++ Samples.LF ++ b)
       = (JsonOutputPanel.lineCount a + JsonOutputPanel.lineCount b)%nat.
Proof.
  intros a b. split; [symmetry; apply split_lines_length|].
  split; [apply lineCount_positive|].
  induction a as [|c r IH].
  - reflexivity.
  - cbn [append JsonOutputPanel.lineCount].
    destruct (Ascii.eqb c (ascii_of_nat 10)); rewrite IH; reflexivity.
Qed.
